(** * Amazon Q Business inventory exporters: a shallow embedding

    The repository holds three exporter classes,

    - [QBusinessInfoRetriever]            (get_qapps_info.py),
    - [QBusinessGlobalExporter]           (src/get_qbusiness_global.py),
    - [QBusinessGlobalExporterEnhanced]   (src/get_qbusiness_global_enhanced.py),

    which walk the paginated list/get API of the service, join the
    results per application and flatten them into rows for CSV/JSON.

    The Python code is dynamically typed, so the embedding works over a
    universal [value] type and an outcome type that records a raised
    exception.  The remote service is an oracle [invoke] over an abstract
    world; every call is appended to a log kept next to the world, which
    is what the statements about "at most one lookup" count. *)

From Stdlib Require Import ZArith List String Ascii Lia DecimalString.
From stdpp Require Import base option list gmap strings.

Local Open Scope string_scope.
Local Open Scope list_scope.

(** ** Python values *)

Module Py.

(** JSON-like values as boto3 and PyYAML hand them to the code.  A
    [datetime] is carried as the text [str()] prints for it.  Floats do
    not occur in the fields the code reads.  A [dict] is an association
    list in insertion order, the order [keys()] and the CSV header see. *)
#[warnings="-register-all"]
Inductive value : Type :=
| VNone
| VBool (b : bool)
| VInt (n : Z)
| VStr (s : string)
| VTime (t : string)
| VList (l : list value)
| VDict (d : list (string * value)).

Abbreviation dict := (list (string * value)).

Inductive exn : Type :=
| ClientError (code : string)
| KeyError (k : string)
| IndexError
| TypeError
| AttributeError.

(** What running a piece of code gives: a result, a raised exception, or
    [Timeout] when a [while True] loop was cut by its fuel. *)
Inductive outcome (A : Type) : Type :=
| Ok (a : A)
| Raise (e : exn)
| Timeout.
Arguments Ok {A} a.
Arguments Raise {A} e.
Arguments Timeout {A}.

Definition obind {A B} (o : outcome A) (k : A -> outcome B) : outcome B :=
  match o with
  | Ok a => k a
  | Raise e => Raise e
  | Timeout => Timeout
  end.

(** [bool(v)] *)
Definition truthy (v : value) : bool :=
  match v with
  | VNone => false
  | VBool b => b
  | VInt n => negb (Z.eqb n 0)
  | VStr s => negb (String.eqb s "")
  | VTime _ => true
  | VList l => match l with [] => false | _ => true end
  | VDict d => match d with [] => false | _ => true end
  end.

(** [a or b] *)
Definition py_or (a b : value) : value := if truthy a then a else b.

(** [v == 'text'] for a string literal: other types never equal a str. *)
Definition str_eq (v : value) (lit : string) : bool :=
  match v with
  | VStr s => String.eqb s lit
  | _ => false
  end.

(** Dictionary lookup by key, first binding. *)
Fixpoint dict_find (k : string) (d : dict) : option value :=
  match d with
  | [] => None
  | (k', v) :: d' => if String.eqb k k' then Some v else dict_find k d'
  end.

(** [d.get(k, default)] on a dict *)
Definition dict_get (d : dict) (k : string) (default : value) : value :=
  match dict_find k d with
  | Some v => v
  | None => default
  end.

(** [d[k] = v]: an existing key keeps its position, a new one goes last. *)
Fixpoint dict_set (k : string) (v : value) (d : dict) : dict :=
  match d with
  | [] => [(k, v)]
  | (k', v') :: d' =>
      if String.eqb k k' then (k, v) :: d' else (k', v') :: dict_set k v d'
  end.

(** [d.update(e)] *)
Definition dict_update (d e : dict) : dict :=
  fold_left (fun acc kv => dict_set (fst kv) (snd kv) acc) e d.

(** [list(d.keys())] *)
Definition dict_keys (d : dict) : list string := map fst d.

(** [v.get(k, default)] on any value: only a dict has the method. *)
Definition py_get (v : value) (k : string) (default : value) : outcome value :=
  match v with
  | VDict d => Ok (dict_get d k default)
  | _ => Raise AttributeError
  end.

(** [v[k]] with a string key *)
Definition py_item (v : value) (k : string) : outcome value :=
  match v with
  | VDict d =>
      match dict_find k d with
      | Some x => Ok x
      | None => Raise (KeyError k)
      end
  | _ => Raise TypeError
  end.

Definition chars (s : string) : list value :=
  map (fun c => VStr (String c EmptyString)) (list_ascii_of_string s).

(** [v[0]] *)
Definition py_first (v : value) : outcome value :=
  match v with
  | VList l => match l with x :: _ => Ok x | [] => Raise IndexError end
  | VStr s => match chars s with x :: _ => Ok x | [] => Raise IndexError end
  | VDict d => Raise (KeyError "0")
  | _ => Raise TypeError
  end.

(** [for x in v]: the elements the loop visits. *)
Definition py_iter (v : value) : outcome (list value) :=
  match v with
  | VList l => Ok l
  | VDict d => Ok (map VStr (dict_keys d))
  | VStr s => Ok (chars s)
  | _ => Raise TypeError
  end.

(** [len(v)] *)
Definition py_len (v : value) : outcome value :=
  match v with
  | VList l => Ok (VInt (Z.of_nat (length l)))
  | VDict d => Ok (VInt (Z.of_nat (length d)))
  | VStr s => Ok (VInt (Z.of_nat (String.length s)))
  | _ => Raise TypeError
  end.

(** [sep.join(items)] once [items] has been iterated: every element must
    be a str. *)
Fixpoint join_strs (sep : string) (items : list value) : outcome string :=
  match items with
  | [] => Ok ""
  | VStr s :: rest =>
      match rest with
      | [] => Ok s
      | _ => obind (join_strs sep rest) (fun r => Ok (s +:+ sep +:+ r))
      end
  | _ :: _ => Raise TypeError
  end.

(** [sep.join(v)] *)
Definition py_join (sep : string) (v : value) : outcome value :=
  obind (py_iter v) (fun items =>
  obind (join_strs sep items) (fun s => Ok (VStr s))).

(** [str(v)]; [repr] is Python's rendering of lists and dicts, which the
    code never inspects. *)
Definition py_str (repr : value -> string) (v : value) : string :=
  match v with
  | VNone => "None"
  | VBool true => "True"
  | VBool false => "False"
  | VInt n => NilZero.string_of_int (Z.to_int n)
  | VStr s => s
  | VTime t => t
  | _ => repr v
  end.

(** Keys of a Python dict: hashable values, with [True == 1]. *)
Inductive key : Type :=
| KNone
| KNum (n : Z)
| KStr (s : string)
| KTime (t : string).

Definition key_of (v : value) : outcome key :=
  match v with
  | VNone => Ok KNone
  | VBool b => Ok (KNum (if b then 1 else 0))
  | VInt n => Ok (KNum n)
  | VStr s => Ok (KStr s)
  | VTime t => Ok (KTime t)
  | VList _ | VDict _ => Raise TypeError
  end.

#[global] Instance key_eq_dec : EqDecision key.
Proof. solve_decision. Defined.

Definition key_code (k : key) : (unit + Z) + (string + string) :=
  match k with
  | KNone => inl (inl tt)
  | KNum n => inl (inr n)
  | KStr s => inr (inl s)
  | KTime t => inr (inr t)
  end.

Definition key_decode (c : (unit + Z) + (string + string)) : key :=
  match c with
  | inl (inl _) => KNone
  | inl (inr n) => KNum n
  | inr (inl s) => KStr s
  | inr (inr t) => KTime t
  end.

#[global] Instance key_countable : Countable key.
Proof.
  apply (inj_countable' key_code key_decode).
  intros []; reflexivity.
Defined.

End Py.

Export Py.

(** ** The remote service and the exporter object *)

(** The boto3 operations the three classes invoke. *)
Inductive op : Type :=
| ListApplications | GetApplication
| ListLibraryItems | GetLibraryItem
| ListIndices
| ListDataSources | GetDataSource
| ListRetrievers | GetRetriever
| ListPlugins | GetPlugin
| GetChatControlsConfiguration
| ListInstances
| DescribeUser.

#[global] Instance op_eq_dec : EqDecision op.
Proof. solve_decision. Defined.

(** A call answers with a response dict or fails with botocore's
    [ClientError], the failure every [except] clause of the collectors
    names.  Session and client construction are outside the model. *)
Inductive reply : Type :=
| Reply (d : dict)
| Fails (code : string).

(** The environment of a run: the service as an oracle over a world
    [W] that each call may change, the wall clock, and Python's [repr]
    of containers. *)
Class Remote (W : Type) : Type := {
  invoke : op -> dict -> W -> reply * W;
  clock : W -> string;
  repr : value -> string
}.

(** One entry of the call log. *)
Record call : Type := Call { call_op : op; call_args : dict }.

(** [user_info] is the dict literal with keys username, email,
    display_name that [get_user_details] builds. *)
Record user_info : Type := UserInfo {
  username : value;
  email : value;
  display_name : value
}.

(** The fields of [self] the modelled methods read or write, the world
    and the log of remote calls made so far (newest last). *)
Record exporter (W : Type) : Type := Exporter {
  config : value;
  aws_region : value;
  expected_account : value;
  user_cache : gmap key user_info;
  identity_store_id : value;
  world : W;
  calls : list call
}.
Arguments Exporter {W}.
Arguments config {W}.
Arguments aws_region {W}.
Arguments expected_account {W}.
Arguments user_cache {W}.
Arguments identity_store_id {W}.
Arguments world {W}.
Arguments calls {W}.

(** How many calls of operation [o] the log holds. *)
Definition count_calls (o : op) (log : list call) : nat :=
  length (filter (fun c => call_op c = o) log).

(** The state after a remote call [o args] that left the world [w]. *)
Definition record_call {W} (o : op) (args : dict) (w : W) (s : exporter W)
    : exporter W :=
  Exporter (config s) (aws_region s) (expected_account s) (user_cache s)
    (identity_store_id s) w (calls s ++ [Call o args]).

Definition store_user {W} (k : key) (info : user_info) (s : exporter W)
    : exporter W :=
  Exporter (config s) (aws_region s) (expected_account s)
    (<[k := info]> (user_cache s)) (identity_store_id s) (world s) (calls s).

Definition store_identity_store_id {W} (v : value) (s : exporter W)
    : exporter W :=
  Exporter (config s) (aws_region s) (expected_account s) (user_cache s)
    v (world s) (calls s).

(** Code that runs against the exporter object. *)
Definition Run (W A : Type) : Type := exporter W -> outcome A * exporter W.

Section Monad.
Context {W : Type} `{Remote W}.
#[local] Abbreviation M := (Run W).

Definition ret {A} (a : A) : M A := fun s => (Ok a, s).

Definition bind {A B} (m : M A) (k : A -> M B) : M B :=
  fun s =>
    match m s with
    | (Ok a, s') => k a s'
    | (Raise e, s') => (Raise e, s')
    | (Timeout, s') => (Timeout, s')
    end.

Definition lift {A} (o : outcome A) : M A := fun s => (o, s).

(** [try: m  except ClientError as e: h e] *)
Definition try_client {A} (m : M A) (h : string -> M A) : M A :=
  fun s =>
    match m s with
    | (Raise (ClientError code), s') => h code s'
    | r => r
    end.

(** [client.op(...)] with keyword arguments [args]; the call is logged. *)
Definition remote (o : op) (args : dict) : M dict :=
  fun s =>
    let (r, w) := invoke o args (world s) in
    match r with
    | Reply d => (Ok d, record_call o args w s)
    | Fails code => (Raise (ClientError code), record_call o args w s)
    end.

(** [self.user_cache[k] = info] *)
Definition cache_user (k : key) (info : user_info) : M unit :=
  fun s => (Ok tt, store_user k info s).

(** [self.identity_store_id = v] *)
Definition set_identity_store_id (v : value) : M unit :=
  fun s => (Ok tt, store_identity_store_id v s).

Definition self {A} (field : exporter W -> A) : M A :=
  fun s => (Ok (field s), s).

(** [datetime.now().isoformat()] *)
Definition now_iso : M value := fun s => (Ok (VStr (clock (world s))), s).

(** [for x in l: acc = body x acc] *)
Fixpoint for_each {A B} (body : A -> B -> M B) (l : list A) (acc : B) : M B :=
  match l with
  | [] => ret acc
  | x :: rest => bind (body x acc) (for_each body rest)
  end.

End Monad.

Declare Scope py_scope.
Delimit Scope py_scope with py.
Notation "x <- m ;; k" := (bind m (fun x => k))
  (at level 100, m at next level, right associativity) : py_scope.
Notation "m ;;; k" := (bind m (fun _ => k))
  (at level 100, right associativity) : py_scope.
Notation "'ok!' x <- o ;; k" := (bind (lift o) (fun x => k))
  (at level 100, x name, o at next level, right associativity) : py_scope.

Local Open Scope py_scope.

(** ** The list-then-hydrate loop

    Every collector of the three classes is the same [while True] loop:
    call the list operation with the cursor of the previous response, run
    a [for] body over the items of the page, stop when the response has
    no [nextToken].  [pages] is that loop with the operation, its
    parameters, the key of the items and the body left open; [fuel]
    bounds the number of pages. *)

Fixpoint map_ok {A B} (f : A -> outcome B) (l : list A) : outcome (list B) :=
  match l with
  | [] => Ok []
  | x :: rest =>
      obind (f x) (fun y => obind (map_ok f rest) (fun ys => Ok (y :: ys)))
  end.

(** [expr if qapp else absent] *)
Definition when_app (qapp : value) (expr : outcome value) (absent : value)
    : outcome value :=
  if truthy qapp then expr else Ok absent.

(** [sep.join([f(x) for x in v])] *)
Definition joined (sep : string) (f : value -> outcome value) (v : value)
    : outcome value :=
  obind (py_iter v) (fun items =>
  obind (map_ok f items) (fun projected =>
  obind (join_strs sep projected) (fun s => Ok (VStr s)))).

(** A dict literal [{k1: e1, k2: e2, ...}] with distinct keys: the
    expressions are evaluated in order, the first to raise ends it. *)
Fixpoint literal (fields : list (string * outcome value)) : outcome dict :=
  match fields with
  | [] => Ok []
  | (k, e) :: rest =>
      obind e (fun v => obind (literal rest) (fun d => Ok ((k, v) :: d)))
  end.

Section Paging.
Context {W : Type} `{Remote W}.
#[local] Abbreviation M := (Run W).

(** [params['nextToken'] = next_token] when there is a cursor. *)
Definition with_token (params : dict) (next_token : value) : dict :=
  if truthy next_token then dict_set "nextToken" next_token params else params.

Fixpoint pages (fuel : nat) (list_op : op) (params : dict) (items_key : string)
    (body : value -> list value -> M (list value))
    (acc : list value) (next_token : value) : M (list value) :=
  match fuel with
  | O => lift Timeout
  | S fuel' =>
      response <- remote list_op (with_token params next_token) ;;
      ok! items <- py_iter (dict_get response items_key (VList [])) ;;
      acc' <- for_each body items acc ;;
      let next_token := dict_get response "nextToken" VNone in
      if truthy next_token
      then pages fuel' list_op params items_key body acc' next_token
      else ret acc'
  end.

(** The body with a detail call: [try: detail = get(...);
    acc.append(detail)  except ClientError: acc.append(item)].  The
    arguments of the call are evaluated inside the [try]. *)
Definition hydrate (get_op : op) (get_args : value -> outcome dict)
    (item : value) (acc : list value) : M (list value) :=
  try_client
    (ok! args <- get_args item ;;
     detail <- remote get_op args ;;
     ret (acc ++ [VDict detail]))
    (fun _ => ret (acc ++ [item])).

(** The body without one: [acc.append(item)]. *)
Definition keep (item : value) (acc : list value) : M (list value) :=
  ret (acc ++ [item]).

End Paging.

(** ** get_qbusiness_global_enhanced.py *)

Module Enhanced.

(** The placeholder record of [get_user_details]. *)
Definition placeholder (user_id : value) : user_info :=
  UserInfo user_id (VStr "N/A") (VStr "N/A").

(** The [for email in emails] loop of [_extract_email]: the value it
    returns from inside the loop, if it does. *)
Fixpoint primary_email (emails : list value) : outcome (option value) :=
  match emails with
  | [] => Ok None
  | email :: rest =>
      obind (py_get email "Primary" (VBool false)) (fun p =>
      if truthy p
      then obind (py_get email "Value" (VStr "N/A")) (fun v => Ok (Some v))
      else primary_email rest)
  end.

Definition _extract_email (user_response : dict) : outcome value :=
  let emails := dict_get user_response "Emails" (VList []) in
  if truthy emails then
    obind (py_iter emails) (fun items =>
    obind (primary_email items) (fun found =>
    match found with
    | Some v => Ok v
    | None => obind (py_first emails) (fun e0 => py_get e0 "Value" (VStr "N/A"))
    end))
  else Ok (VStr "N/A").

Section Methods.
Context {W : Type} `{Remote W}.
#[local] Abbreviation M := (Run W).

Definition get_identity_store_id (identity_center_arn : value) : M value :=
  try_client
    (response <- remote ListInstances [] ;;
     if truthy (dict_get response "Instances" VNone) then
       ok! instances <- py_item (VDict response) "Instances" ;;
       ok! first <- py_first instances ;;
       ok! identity_store_id <- py_item first "IdentityStoreId" ;;
       ret identity_store_id
     else ret VNone)
    (fun _ => ret VNone).

Definition describe_user_args (identity_store_id user_id : value) : dict :=
  [("IdentityStoreId", identity_store_id); ("UserId", user_id)].

Definition get_user_details (identity_store_id user_id : value) : M user_info :=
  ok! k <- key_of user_id ;;
  cache <- self user_cache ;;
  match cache !! k with
  | Some cached => ret cached
  | None =>
      if negb (truthy identity_store_id) || str_eq user_id "N/A" then
        cache_user k (placeholder user_id) ;;;
        ret (placeholder user_id)
      else
        try_client
          (response <- remote DescribeUser
                         (describe_user_args identity_store_id user_id) ;;
           ok! mail <- _extract_email response ;;
           let user_info :=
             UserInfo (dict_get response "UserName" (VStr "N/A"))
                      mail
                      (dict_get response "DisplayName" (VStr "N/A")) in
           cache_user k user_info ;;;
           ret user_info)
          (fun _ =>
             cache_user k (placeholder user_id) ;;;
             ret (placeholder user_id))
  end.

Definition list_applications (fuel : nat) : M (list value) :=
  try_client
    (pages fuel ListApplications [("maxResults", VInt 50)] "applications"
       (hydrate GetApplication (fun app =>
          obind (py_item app "applicationId") (fun id =>
          Ok [("applicationId", id)])))
       [] VNone)
    (fun _ => ret []).

(** No detail call here: the items of the list response are kept. *)
Definition get_qapps (fuel : nat) (application_id : value) : M (list value) :=
  try_client
    (pages fuel ListLibraryItems
       [("instanceId", application_id); ("limit", VInt 100)] "libraryItems"
       keep [] VNone)
    (fun _ => ret []).

Definition get_data_sources (fuel : nat) (application_id index_id : value)
    : M (list value) :=
  try_client
    (pages fuel ListDataSources
       [("applicationId", application_id); ("indexId", index_id);
        ("maxResults", VInt 10)] "dataSources"
       (hydrate GetDataSource (fun source =>
          obind (py_item source "dataSourceId") (fun id =>
          Ok [("applicationId", application_id); ("indexId", index_id);
              ("dataSourceId", id)])))
       [] VNone)
    (fun _ => ret []).

Definition get_retrievers (fuel : nat) (application_id : value) : M (list value) :=
  try_client
    (pages fuel ListRetrievers
       [("applicationId", application_id); ("maxResults", VInt 50)] "retrievers"
       (hydrate GetRetriever (fun retriever =>
          obind (py_item retriever "retrieverId") (fun id =>
          Ok [("applicationId", application_id); ("retrieverId", id)])))
       [] VNone)
    (fun _ => ret []).

Definition get_plugins (fuel : nat) (application_id : value) : M (list value) :=
  try_client
    (pages fuel ListPlugins
       [("applicationId", application_id); ("maxResults", VInt 50)] "plugins"
       (hydrate GetPlugin (fun plugin =>
          obind (py_item plugin "pluginId") (fun id =>
          Ok [("applicationId", application_id); ("pluginId", id)])))
       [] VNone)
    (fun _ => ret []).

Definition get_chat_controls (application_id : value) : M dict :=
  try_client
    (remote GetChatControlsConfiguration
       [("applicationId", application_id); ("maxResults", VInt 50)])
    (fun _ => ret []).

Definition _create_global_row (app qapp : value)
    (data_sources retrievers plugins : list value) (index_id : value)
    (chat_controls : dict) : M dict :=
  let cc := VDict chat_controls in
  let controls k default :=
    if truthy cc then dict_get chat_controls k default else default in
  ok! attachments <- py_get app "attachmentsConfiguration" (VDict []) ;;
  ok! auto_sub <- py_get app "autoSubscriptionConfiguration" (VDict []) ;;
  ok! personalization <- py_get app "personalizationConfiguration" (VDict []) ;;
  ok! qapps_config <- py_get app "qAppsConfiguration" (VDict []) ;;
  ok! quicksight_config <- py_get app "quickSightConfiguration" (VDict []) ;;
  let blocked_phrases_config := controls "blockedPhrases" (VDict []) in
  let creator_mode := controls "creatorModeConfiguration" (VDict []) in
  let hallucination_reduction :=
    controls "hallucinationReductionConfiguration" (VDict []) in
  let orchestration := controls "orchestrationConfiguration" (VDict []) in
  let topic_configs := controls "topicConfigurations" (VList []) in
  ok! creator_id <- when_app qapp (py_get qapp "createdBy" (VStr "N/A")) (VStr "N/A") ;;
  ok! updater_id <- when_app qapp (py_get qapp "updatedBy" (VStr "N/A")) (VStr "N/A") ;;
  store <- self identity_store_id ;;
  creator_info <- get_user_details store creator_id ;;
  updater_info <- get_user_details store updater_id ;;
  timestamp <- now_iso ;;
  region <- self aws_region ;;
  account <- self expected_account ;;
  let str v := VStr (py_str repr v) in
  let field v k := py_get v k (VStr "N/A") in
  lift (literal [
    ("qapp_name",
      when_app qapp
        (obind (py_get qapp "libraryItemId" (VStr "Unknown")) (fun id =>
         Ok (VStr ("Q App " +:+ py_str repr id))))
        (VStr "No Q Apps"));
    ("qapp_id", when_app qapp (field qapp "appId") (VStr "N/A"));
    ("qapp_library_item_id",
      when_app qapp (field qapp "libraryItemId") (VStr "N/A"));
    ("qapp_version", when_app qapp (field qapp "appVersion") (VStr "N/A"));
    ("qapp_status", when_app qapp (field qapp "status") (VStr "N/A"));
    ("qapp_user_count",
      when_app qapp (py_get qapp "userCount" (VInt 0)) (VInt 0));
    ("qapp_creator_user_id", Ok creator_id);
    ("qapp_creator_username", Ok (username creator_info));
    ("qapp_creator_email", Ok (email creator_info));
    ("qapp_creator_display_name", Ok (display_name creator_info));
    ("qapp_created_at",
      when_app qapp (obind (field qapp "createdAt") (fun t => Ok (str t)))
        (VStr "N/A"));
    ("qapp_updater_user_id", Ok updater_id);
    ("qapp_updater_username", Ok (username updater_info));
    ("qapp_updater_email", Ok (email updater_info));
    ("qapp_updated_at",
      when_app qapp (obind (field qapp "updatedAt") (fun t => Ok (str t)))
        (VStr "N/A"));
    ("qapp_rating_count",
      when_app qapp (py_get qapp "ratingCount" (VInt 0)) (VInt 0));
    ("qapp_is_verified",
      when_app qapp (py_get qapp "isVerified" (VBool false)) (VBool false));
    ("qapp_is_rated_by_user",
      when_app qapp (py_get qapp "isRatedByUser" (VBool false)) (VBool false));
    ("qapp_description", when_app qapp (field qapp "description") (VStr "N/A"));
    ("qapp_categories",
      when_app qapp
        (obind (py_get qapp "categories" (VList [])) (fun cats =>
         joined ", " (fun cat => py_get cat "title" (VStr "")) cats))
        (VStr "N/A"));
    ("app_name", field app "displayName");
    ("app_id", field app "applicationId");
    ("app_arn", field app "applicationArn");
    ("app_description", field app "description");
    ("app_status", field app "status");
    ("app_created_at", obind (field app "createdAt") (fun t => Ok (str t)));
    ("app_updated_at", obind (field app "updatedAt") (fun t => Ok (str t)));
    ("identity_type", field app "identityType");
    ("identity_center_arn", field app "identityCenterApplicationArn");
    ("identity_store_id", Ok (py_or store (VStr "N/A")));
    ("iam_identity_provider_arn", field app "iamIdentityProviderArn");
    ("client_ids_for_oidc",
      obind (py_get app "clientIdsForOIDC" (VList [])) (py_join ", "));
    ("role_arn", field app "roleArn");
    ("encryption_kms_key",
      obind (py_get app "encryptionConfiguration" (VDict [])) (fun e =>
      py_get e "kmsKeyId" (VStr "AWS Managed")));
    ("attachments_mode", field attachments "attachmentsControlMode");
    ("auto_subscribe", field auto_sub "autoSubscribe");
    ("auto_subscribe_default", field auto_sub "defaultSubscriptionType");
    ("personalization_mode", field personalization "personalizationControlMode");
    ("qapps_mode", field qapps_config "qAppsControlMode");
    ("quicksight_namespace", field quicksight_config "clientNamespace");
    ("blocked_phrases_count",
      obind (py_get blocked_phrases_config "blockedPhrases" (VList [])) py_len);
    ("blocked_phrases",
      obind (py_get blocked_phrases_config "blockedPhrases" (VList []))
        (py_join "; "));
    ("blocked_phrases_system_message",
      field blocked_phrases_config "systemMessageOverride");
    ("creator_mode_control", field creator_mode "creatorModeControl");
    ("hallucination_reduction_control",
      field hallucination_reduction "hallucinationReductionControl");
    ("orchestration_control", field orchestration "control");
    ("response_scope", Ok (controls "responseScope" (VStr "N/A")));
    ("topic_count", py_len topic_configs);
    ("topic_names", joined ", " (fun t => field t "name") topic_configs);
    ("topic_descriptions",
      joined " | " (fun t =>
        obind (field t "name") (fun n =>
        obind (field t "description") (fun d =>
        Ok (VStr (py_str repr n +:+ ": " +:+ py_str repr d)))))
        topic_configs);
    ("error_code",
      obind (py_get app "error" (VDict [])) (fun e => field e "errorCode"));
    ("error_message",
      obind (py_get app "error" (VDict [])) (fun e => field e "errorMessage"));
    ("index_id", Ok (py_or index_id (VStr "N/A")));
    ("data_source_count", py_len (VList data_sources));
    ("data_source_ids",
      joined ", " (fun ds => field ds "dataSourceId") (VList data_sources));
    ("data_source_types",
      joined ", " (fun ds => field ds "type") (VList data_sources));
    ("data_source_names",
      joined ", " (fun ds => field ds "displayName") (VList data_sources));
    ("data_source_statuses",
      joined ", " (fun ds => field ds "status") (VList data_sources));
    ("retriever_count", py_len (VList retrievers));
    ("retriever_ids",
      joined ", " (fun r => field r "retrieverId") (VList retrievers));
    ("retriever_types", joined ", " (fun r => field r "type") (VList retrievers));
    ("retriever_statuses",
      joined ", " (fun r => field r "status") (VList retrievers));
    ("plugin_count", py_len (VList plugins));
    ("plugin_ids", joined ", " (fun p => field p "pluginId") (VList plugins));
    ("plugin_types", joined ", " (fun p => field p "type") (VList plugins));
    ("plugin_statuses", joined ", " (fun p => field p "status") (VList plugins));
    ("export_timestamp", Ok timestamp);
    ("aws_region", Ok region);
    ("aws_account", Ok (py_or account (VStr "N/A")))
  ]).

(** The "Get Identity Store ID ... (only once)" block of
    [export_all_data]. *)
Definition discover_identity_store (app : value) : M unit :=
  store <- self identity_store_id ;;
  if negb (truthy store) then
    ok! identity_type <- py_get app "identityType" VNone ;;
    if str_eq identity_type "AWS_IAM_IDC" then
      ok! identity_center_arn <- py_get app "identityCenterApplicationArn" VNone ;;
      if truthy identity_center_arn then
        found <- get_identity_store_id identity_center_arn ;;
        set_identity_store_id found
      else ret tt
    else ret tt
  else ret tt.

(** The "Get index ID" block. *)
Definition first_index_id (app_id : value) : M value :=
  try_client
    (indices <- remote ListIndices
                  [("applicationId", app_id); ("maxResults", VInt 10)] ;;
     if truthy (dict_get indices "indices" VNone) then
       ok! listed <- py_item (VDict indices) "indices" ;;
       ok! first <- py_first listed ;;
       ok! index_id <- py_item first "indexId" ;;
       ret index_id
     else ret VNone)
    (fun _ => ret VNone).

(** The "Create rows" block: the rows one application adds to
    [all_data]. *)
Definition create_rows (include_empty app : value)
    (qapps data_sources retrievers plugins : list value) (index_id : value)
    (chat_controls : dict) (all_data : list dict) : M (list dict) :=
  if truthy (VList qapps) then
    for_each (fun qapp all_data =>
                row <- _create_global_row app qapp data_sources retrievers
                         plugins index_id chat_controls ;;
                ret (all_data ++ [row]))
             qapps all_data
  else if truthy include_empty then
    row <- _create_global_row app VNone data_sources retrievers plugins
             index_id chat_controls ;;
    ret (all_data ++ [row])
  else ret all_data.

(** What [export_all_data] does with an application once its Q Apps
    are fetched. *)
Definition after_qapps (fuel : nat) (include_empty app app_id index_id : value)
    (qapps : list value) (all_data : list dict) : M (list dict) :=
  data_sources <- (if truthy index_id
                   then get_data_sources fuel app_id index_id
                   else ret []) ;;
  retrievers <- get_retrievers fuel app_id ;;
  plugins <- get_plugins fuel app_id ;;
  chat_controls <- get_chat_controls app_id ;;
  create_rows include_empty app qapps data_sources retrievers plugins
    index_id chat_controls all_data.

(** The body of the [for app in applications] loop. *)
Definition export_application (fuel : nat) (include_empty app : value)
    (all_data : list dict) : M (list dict) :=
  ok! app_id <- py_get app "applicationId" (VStr "N/A") ;;
  ok! app_name <- py_get app "displayName" app_id ;;
  discover_identity_store app ;;;
  index_id <- first_index_id app_id ;;
  qapps <- get_qapps fuel app_id ;;
  after_qapps fuel include_empty app app_id index_id qapps all_data.

Definition export_all_data (fuel : nat) : M (list dict) :=
  cfg <- self config ;;
  ok! export <- py_get cfg "export" (VDict []) ;;
  ok! include_empty <- py_get export "include_empty_apps" (VBool true) ;;
  applications <- list_applications fuel ;;
  for_each (export_application fuel include_empty) applications [].

End Methods.

End Enhanced.

(** ** CSV files as the [csv.DictWriter] calls leave them *)

(** The columns of the writer, whether [writeheader] was called, and the
    data rows as the cells handed to the writer (quoting and encoding
    are the csv module's). *)
Record csv_file : Type := CsvFile {
  fieldnames : list string;
  header_written : bool;
  records : list (list value)
}.

(** [rowdict.get(key, '') for key in fieldnames] *)
Definition cells (fieldnames : list string) (row : dict) : list value :=
  map (fun key => dict_get row key (VStr "")) fieldnames.

(** [writerows] under the default [extrasaction='raise']: a row with a
    key outside [fieldnames] raises [ValueError]; the rows before it are
    in the file. *)
Fixpoint writerows_raise (fieldnames : list string) (data : list dict)
    : list (list value) :=
  match data with
  | [] => []
  | row :: rest =>
      if forallb (fun k => existsb (String.eqb k) fieldnames) (dict_keys row)
      then cells fieldnames row :: writerows_raise fieldnames rest
      else []
  end.

Module EnhancedCsv.

(** [export_to_csv] of the enhanced exporter, from the emptiness test
    to the writer calls (the output path is computed in between).
    [None]: no file is opened. *)
Definition export_to_csv (data : list dict) : option csv_file :=
  match data with
  | [] => None
  | first :: _ =>
      let fieldnames := dict_keys first in
      Some (CsvFile fieldnames true (writerows_raise fieldnames data))
  end.

End EnhancedCsv.

(** ** src/get_qbusiness_global.py *)

Module Global.

Section Methods.
Context {W : Type} `{Remote W}.
#[local] Abbreviation M := (Run W).

(** The keyword arguments of the [get_library_item] call for [item]. *)
Definition get_library_item_args (application_id item : value) : outcome dict :=
  obind (py_item item "libraryItemId") (fun id =>
  Ok [("instanceId", application_id); ("libraryItemId", id)]).

Definition get_qapps (fuel : nat) (application_id : value) : M (list value) :=
  try_client
    (pages fuel ListLibraryItems
       [("instanceId", application_id); ("limit", VInt 100)] "libraryItems"
       (hydrate GetLibraryItem (get_library_item_args application_id))
       [] VNone)
    (fun _ => ret []).

(** The keyword arguments of the [get_retriever] call for [retriever]. *)
Definition get_retriever_args (application_id retriever : value) : outcome dict :=
  obind (py_item retriever "retrieverId") (fun id =>
  Ok [("applicationId", application_id); ("retrieverId", id)]).

Definition get_retrievers (fuel : nat) (application_id : value) : M (list value) :=
  try_client
    (pages fuel ListRetrievers
       [("applicationId", application_id); ("maxResults", VInt 50)] "retrievers"
       (hydrate GetRetriever (get_retriever_args application_id))
       [] VNone)
    (fun _ => ret []).

End Methods.

End Global.

(** ** get_qapps_info.py *)

Module QAppsInfo.

(** [all_fieldnames] of [export_to_csv] *)
Definition all_fieldnames : list string :=
  ["qapp_name"; "user_count"; "owner_created_by";
   "qbusiness_app_name"; "qbusiness_app_id"; "qbusiness_status";
   "qbusiness_identity_type"; "qbusiness_created_at"; "qbusiness_updated_at";
   "qbusiness_encryption"; "qapp_library_item_id"; "qapp_id";
   "qapp_version"; "qapp_status"; "created_at"; "updated_by"; "updated_at";
   "rating_count"; "is_verified"; "is_rated_by_user";
   "description"; "categories";
   "retrieval_timestamp"; "aws_region"; "aws_account"].

(** The dict of the [else] branch of [_create_data_row]:
    "No Q Apps - use N/A values". *)
Definition no_qapp_part : dict :=
  [("qapp_name", VStr "No Q Apps");
   ("qapp_library_item_id", VStr "N/A");
   ("qapp_id", VStr "N/A");
   ("qapp_version", VStr "N/A");
   ("qapp_status", VStr "N/A");
   ("user_count", VInt 0);
   ("owner_created_by", VStr "N/A");
   ("created_at", VStr "N/A");
   ("updated_by", VStr "N/A");
   ("updated_at", VStr "N/A");
   ("rating_count", VInt 0);
   ("is_verified", VBool false);
   ("is_rated_by_user", VBool false);
   ("description", VStr "N/A");
   ("categories", VStr "N/A")].

(** [[col for col in all_fieldnames if column_config.get(col, True)]] *)
Fixpoint enabled_columns (column_config : value) (cols : list string)
    : outcome (list string) :=
  match cols with
  | [] => Ok []
  | col :: rest =>
      obind (py_get column_config col (VBool true)) (fun flag =>
      obind (enabled_columns column_config rest) (fun kept =>
      Ok (if truthy flag then col :: kept else kept)))
  end.

Definition fieldnames_for (column_config : value) : outcome (list string) :=
  if truthy column_config
  then enabled_columns column_config all_fieldnames
  else Ok all_fieldnames.

(** The [try] block of [export_to_csv] up to the [open]: the column
    configuration, the columns, the encoding, the header switch, as
    they are handed on to [open] and to the writer. *)
Definition csv_settings (config : value)
    : outcome (list string * value * value) :=
  obind (py_get config "output" (VDict [])) (fun output =>
  obind (py_get output "columns" (VDict [])) (fun column_config =>
  obind (fieldnames_for column_config) (fun fieldnames =>
  obind (py_get config "export" (VDict [])) (fun export =>
  obind (py_get export "csv" (VDict [])) (fun csv =>
  obind (py_get csv "encoding" (VStr "utf-8")) (fun encoding =>
  obind (py_get config "export" (VDict [])) (fun export' =>
  obind (py_get export' "csv" (VDict [])) (fun csv' =>
  obind (py_get csv' "include_headers" (VBool true)) (fun include_headers =>
  Ok (fieldnames, encoding, include_headers)))))))))).

Section Methods.
Context {W : Type} `{Remote W}.
#[local] Abbreviation M := (Run W).

Definition list_qbusiness_applications (fuel : nat) : M (list value) :=
  try_client
    (cfg <- self config ;;
     ok! retrieval <- py_get cfg "retrieval" (VDict []) ;;
     ok! max_results <- py_get retrieval "max_applications_per_page" (VInt 50) ;;
     pages fuel ListApplications [("maxResults", max_results)] "applications"
       (hydrate GetApplication (fun app =>
          obind (py_item app "applicationId") (fun id =>
          Ok [("applicationId", id)])))
       [] VNone)
    (fun _ => ret []).

(** The keyword arguments of the [get_library_item] call for [item]. *)
Definition get_library_item_args (application_id item : value) : outcome dict :=
  obind (py_item item "libraryItemId") (fun id =>
  Ok [("instanceId", application_id); ("libraryItemId", id)]).

Definition get_qapps_for_application (fuel : nat) (application_id : value)
    : M (list value) :=
  try_client
    (cfg <- self config ;;
     ok! retrieval <- py_get cfg "retrieval" (VDict []) ;;
     ok! max_limit <- py_get retrieval "max_qapps_per_page" (VInt 100) ;;
     pages fuel ListLibraryItems
       [("instanceId", application_id); ("limit", max_limit)] "libraryItems"
       (hydrate GetLibraryItem (get_library_item_args application_id))
       [] VNone)
    (fun _ => ret []).

Definition _create_data_row (app qapp : value) : M dict :=
  let str v := VStr (py_str repr v) in
  let field v k := py_get v k (VStr "N/A") in
  ok! row <- literal [
    ("qbusiness_app_name",
      obind (field app "applicationId") (fun id => py_get app "displayName" id));
    ("qbusiness_app_id", field app "applicationId");
    ("qbusiness_status", field app "status");
    ("qbusiness_identity_type", field app "identityType");
    ("qbusiness_created_at",
      obind (field app "createdAt") (fun t => Ok (str t)));
    ("qbusiness_updated_at",
      obind (field app "updatedAt") (fun t => Ok (str t)));
    ("qbusiness_encryption",
      obind (py_get app "encryptionConfiguration" (VDict [])) (fun e =>
      py_get e "kmsKeyId" (VStr "AWS Managed")))
  ] ;;
  ok! app_part <-
    (if truthy qapp then
       literal [
         ("qapp_name",
           obind (field qapp "libraryItemId") (fun id => py_get qapp "title" id));
         ("qapp_library_item_id", field qapp "libraryItemId");
         ("qapp_id", field qapp "appId");
         ("qapp_version", field qapp "appVersion");
         ("qapp_status", field qapp "status");
         ("user_count", py_get qapp "userCount" (VInt 0));
         ("owner_created_by", field qapp "createdBy");
         ("created_at", obind (field qapp "createdAt") (fun t => Ok (str t)));
         ("updated_by", field qapp "updatedBy");
         ("updated_at", obind (field qapp "updatedAt") (fun t => Ok (str t)));
         ("rating_count", py_get qapp "ratingCount" (VInt 0));
         ("is_verified", py_get qapp "isVerified" (VBool false));
         ("is_rated_by_user", py_get qapp "isRatedByUser" (VBool false));
         ("description", field qapp "description");
         ("categories",
           obind (py_get qapp "categories" (VList [])) (fun cats =>
           joined ", " (fun cat => py_get cat "title" (VStr "")) cats))
       ]
     else Ok no_qapp_part) ;;
  let row := dict_update row app_part in
  timestamp <- now_iso ;;
  region <- self aws_region ;;
  account <- self expected_account ;;
  ret (dict_update row
         [("retrieval_timestamp", timestamp);
          ("aws_region", region);
          ("aws_account", py_or account (VStr "N/A"))]).

(** The row block of [retrieve_all_data]. *)
Definition create_rows (include_empty app : value) (qapps : list value)
    (all_data : list dict) : M (list dict) :=
  if truthy (VList qapps) then
    for_each (fun qapp all_data =>
                row <- _create_data_row app qapp ;;
                ret (all_data ++ [row]))
             qapps all_data
  else if truthy include_empty then
    row <- _create_data_row app VNone ;;
    ret (all_data ++ [row])
  else ret all_data.

(** The body of the [for app in applications] loop. *)
Definition retrieve_application (fuel : nat) (include_empty app : value)
    (all_data : list dict) : M (list dict) :=
  ok! app_id <- py_get app "applicationId" (VStr "N/A") ;;
  ok! fallback <- py_get app "applicationId" (VStr "N/A") ;;
  ok! app_name <- py_get app "displayName" fallback ;;
  qapps <- get_qapps_for_application fuel app_id ;;
  create_rows include_empty app qapps all_data.

Definition retrieve_all_data (fuel : nat) : M (list dict) :=
  cfg <- self config ;;
  ok! export <- py_get cfg "export" (VDict []) ;;
  ok! include_empty <- py_get export "include_empty_apps" (VBool true) ;;
  applications <- list_qbusiness_applications fuel ;;
  for_each (retrieve_application fuel include_empty) applications [].

End Methods.

End QAppsInfo.

(** ** Vocabulary of the statements *)

(** Shapes of the data the service documents: a field, when present,
    has the type the API gives it. *)
Module Shape.

Definition is_dict (v : value) : bool :=
  match v with VDict _ => true | _ => false end.

Definition is_str (v : value) : bool :=
  match v with VStr _ => true | _ => false end.

Definition list_of (p : value -> bool) (v : value) : bool :=
  match v with VList l => forallb p l | _ => false end.

(** Key [k] of [d] is missing or holds a value accepted by [p]. *)
Definition absent_or (p : value -> bool) (d : dict) (k : string) : bool :=
  match dict_find k d with
  | None => true
  | Some v => p v
  end.

Definition hashable (v : value) : bool :=
  match v with VList _ | VDict _ => false | _ => true end.

(** A [describe_user] response: [Emails], when present, is a list of
    objects. *)
Definition user_response (d : dict) : bool :=
  absent_or (list_of is_dict) d "Emails".

Definition str_or_absent (d : dict) (k : string) : bool := absent_or is_str d k.

Definition dict_or_absent (d : dict) (k : string) : bool := absent_or is_dict d k.

(** An object whose listed keys hold strings when present. *)
Definition record_of (keys : list string) (v : value) : bool :=
  match v with
  | VDict d => forallb (str_or_absent d) keys
  | _ => false
  end.

(** A library item as the row flatteners read it: null, or an object
    whose [categories] are objects with a string [title] and whose
    author ids are scalars. *)
Definition app_child (qapp : value) : bool :=
  match qapp with
  | VNone => true
  | VDict d =>
      absent_or (list_of (record_of ["title"])) d "categories"
      && absent_or hashable d "createdBy"
      && absent_or hashable d "updatedBy"
  | _ => false
  end.

(** An application as [get_application] or [list_applications] gives
    it: the nested configurations are objects, the OIDC client ids
    strings. *)
Definition parent (app : value) : bool :=
  match app with
  | VDict d =>
      forallb (dict_or_absent d)
        ["attachmentsConfiguration"; "autoSubscriptionConfiguration";
         "personalizationConfiguration"; "qAppsConfiguration";
         "quickSightConfiguration"; "encryptionConfiguration"; "error"]
      && absent_or (list_of is_str) d "clientIdsForOIDC"
  | _ => false
  end.

Definition blocked_phrases (v : value) : bool :=
  match v with
  | VDict d => absent_or (list_of is_str) d "blockedPhrases"
  | _ => false
  end.

(** A chat controls configuration. *)
Definition chat_controls (cc : dict) : bool :=
  absent_or blocked_phrases cc "blockedPhrases"
  && forallb (dict_or_absent cc)
       ["creatorModeConfiguration"; "hallucinationReductionConfiguration";
        "orchestrationConfiguration"]
  && absent_or (list_of (record_of ["name"])) cc "topicConfigurations".

Definition data_source : value -> bool :=
  record_of ["dataSourceId"; "type"; "displayName"; "status"].

Definition retriever : value -> bool := record_of ["retrieverId"; "type"; "status"].

Definition plugin : value -> bool := record_of ["pluginId"; "type"; "status"].

(** A reply that is a failure, or a response accepted by [p]. *)
Definition reply_ok (p : dict -> bool) (r : reply) : bool :=
  match r with
  | Reply d => p d
  | Fails _ => true
  end.

End Shape.

(** The email rule in the words of the specification: the
    primary-flagged entry if there is one, else the first entry, else
    "N/A"; an entry without an address counts as "N/A". *)
Module Words.

Definition primary_flagged (entry : value) : bool :=
  match entry with
  | VDict d => truthy (dict_get d "Primary" (VBool false))
  | _ => false
  end.

Definition address (entry : value) : value :=
  match entry with
  | VDict d => dict_get d "Value" (VStr "N/A")
  | _ => VStr "N/A"
  end.

Definition emails_of (response : dict) : list value :=
  match dict_get response "Emails" (VList []) with
  | VList l => l
  | _ => []
  end.

Definition chosen_email (entries : list value) : value :=
  match List.find primary_flagged entries with
  | Some entry => address entry
  | None =>
      match entries with
      | entry :: _ => address entry
      | [] => VStr "N/A"
      end
  end.

(** The record a successful lookup yields, with the email chosen as
    above. *)
Definition resolved (response : dict) : user_info :=
  UserInfo (dict_get response "UserName" (VStr "N/A"))
           (chosen_email (emails_of response))
           (dict_get response "DisplayName" (VStr "N/A")).

End Words.

(** What the detail calls answer and what a collector keeps of them. *)
Module Paged.

(** The item taken for a listed item whose detail call got reply [r]:
    the detail, or the summary when the call failed. *)
Definition fallback (item : value) (r : reply) : value :=
  match r with
  | Reply detail => VDict detail
  | Fails _ => item
  end.

Definition has_key (k : string) (v : value) : bool :=
  match v with
  | VDict d => match dict_find k d with Some _ => true | None => false end
  | _ => false
  end.

Section Replies.
Context {W : Type} `{Remote W}.

(** The replies of the service to the detail calls for [items], made
    one after the other from world [w]. *)
Fixpoint detail_replies (get_op : op) (get_args : value -> outcome dict)
    (items : list value) (w : W) : list reply :=
  match items with
  | [] => []
  | item :: rest =>
      match get_args item with
      | Ok args =>
          let (r, w') := invoke get_op args w in
          r :: detail_replies get_op get_args rest w'
      | _ => []
      end
  end.

End Replies.

End Paged.

(** Rows: what the flatteners return. *)
Module Rows.

Definition succeeds {A} (o : outcome A) : Prop := exists a, o = Ok a.

Definition gives_str (o : outcome value) : Prop := exists s, o = Ok (VStr s).

(** The expression bound to [k] in a dict literal. *)
Fixpoint field_find (k : string) (fields : list (string * outcome value))
    : option (outcome value) :=
  match fields with
  | [] => None
  | (k', e) :: rest => if String.eqb k k' then Some e else field_find k rest
  end.

(** The keys after [d[k] = v]. *)
Definition key_add (k : string) (ks : list string) : list string :=
  if existsb (String.eqb k) ks then ks else ks ++ [k].

(** [row] holds every binding of [expected]. *)
Definition holds (expected row : dict) : Prop :=
  Forall (fun kv => dict_find (fst kv) row = Some (snd kv)) expected.

(** The keys of a row of [_create_data_row], in order. *)
Definition data_row_columns : list string :=
  ["qbusiness_app_name"; "qbusiness_app_id"; "qbusiness_status";
   "qbusiness_identity_type"; "qbusiness_created_at"; "qbusiness_updated_at";
   "qbusiness_encryption"; "qapp_name"; "qapp_library_item_id"; "qapp_id";
   "qapp_version"; "qapp_status"; "user_count"; "owner_created_by";
   "created_at"; "updated_by"; "updated_at"; "rating_count"; "is_verified";
   "is_rated_by_user"; "description"; "categories";
   "retrieval_timestamp"; "aws_region"; "aws_account"].

(** The keys of a row of [_create_global_row], in order. *)
Definition global_row_columns : list string :=
  ["qapp_name"; "qapp_id"; "qapp_library_item_id"; "qapp_version"; "qapp_status";
   "qapp_user_count"; "qapp_creator_user_id"; "qapp_creator_username";
   "qapp_creator_email"; "qapp_creator_display_name"; "qapp_created_at";
   "qapp_updater_user_id"; "qapp_updater_username"; "qapp_updater_email";
   "qapp_updated_at"; "qapp_rating_count"; "qapp_is_verified";
   "qapp_is_rated_by_user"; "qapp_description"; "qapp_categories";
   "app_name"; "app_id"; "app_arn"; "app_description"; "app_status";
   "app_created_at"; "app_updated_at"; "identity_type"; "identity_center_arn";
   "identity_store_id"; "iam_identity_provider_arn"; "client_ids_for_oidc";
   "role_arn"; "encryption_kms_key"; "attachments_mode"; "auto_subscribe";
   "auto_subscribe_default"; "personalization_mode"; "qapps_mode";
   "quicksight_namespace"; "blocked_phrases_count"; "blocked_phrases";
   "blocked_phrases_system_message"; "creator_mode_control";
   "hallucination_reduction_control"; "orchestration_control"; "response_scope";
   "topic_count"; "topic_names"; "topic_descriptions"; "error_code";
   "error_message"; "index_id"; "data_source_count"; "data_source_ids";
   "data_source_types"; "data_source_names"; "data_source_statuses";
   "retriever_count"; "retriever_ids"; "retriever_types"; "retriever_statuses";
   "plugin_count"; "plugin_ids"; "plugin_types"; "plugin_statuses";
   "export_timestamp"; "aws_region"; "aws_account"].

(** The values the conditional expressions of [_create_global_row] take
    for a null app-child. *)
Definition no_app_columns : dict :=
  [("qapp_name", VStr "No Q Apps");
   ("qapp_id", VStr "N/A");
   ("qapp_library_item_id", VStr "N/A");
   ("qapp_version", VStr "N/A");
   ("qapp_status", VStr "N/A");
   ("qapp_user_count", VInt 0);
   ("qapp_creator_user_id", VStr "N/A");
   ("qapp_created_at", VStr "N/A");
   ("qapp_updater_user_id", VStr "N/A");
   ("qapp_updated_at", VStr "N/A");
   ("qapp_rating_count", VInt 0);
   ("qapp_is_verified", VBool false);
   ("qapp_is_rated_by_user", VBool false);
   ("qapp_description", VStr "N/A");
   ("qapp_categories", VStr "N/A")].

(** The row of [_create_global_row] for a tuple with nothing in it:
    every field read from the tuple holds its placeholder; the last
    three and [identity_store_id] come from the exporter. *)
Definition absent_global_row (store timestamp region account : value) : dict :=
  [("qapp_name", VStr "No Q Apps"); ("qapp_id", VStr "N/A");
   ("qapp_library_item_id", VStr "N/A"); ("qapp_version", VStr "N/A");
   ("qapp_status", VStr "N/A"); ("qapp_user_count", VInt 0);
   ("qapp_creator_user_id", VStr "N/A"); ("qapp_creator_username", VStr "N/A");
   ("qapp_creator_email", VStr "N/A"); ("qapp_creator_display_name", VStr "N/A");
   ("qapp_created_at", VStr "N/A"); ("qapp_updater_user_id", VStr "N/A");
   ("qapp_updater_username", VStr "N/A"); ("qapp_updater_email", VStr "N/A");
   ("qapp_updated_at", VStr "N/A"); ("qapp_rating_count", VInt 0);
   ("qapp_is_verified", VBool false); ("qapp_is_rated_by_user", VBool false);
   ("qapp_description", VStr "N/A"); ("qapp_categories", VStr "N/A");
   ("app_name", VStr "N/A"); ("app_id", VStr "N/A"); ("app_arn", VStr "N/A");
   ("app_description", VStr "N/A"); ("app_status", VStr "N/A");
   ("app_created_at", VStr "N/A"); ("app_updated_at", VStr "N/A");
   ("identity_type", VStr "N/A"); ("identity_center_arn", VStr "N/A");
   ("identity_store_id", py_or store (VStr "N/A"));
   ("iam_identity_provider_arn", VStr "N/A"); ("client_ids_for_oidc", VStr "");
   ("role_arn", VStr "N/A"); ("encryption_kms_key", VStr "AWS Managed");
   ("attachments_mode", VStr "N/A"); ("auto_subscribe", VStr "N/A");
   ("auto_subscribe_default", VStr "N/A"); ("personalization_mode", VStr "N/A");
   ("qapps_mode", VStr "N/A"); ("quicksight_namespace", VStr "N/A");
   ("blocked_phrases_count", VInt 0); ("blocked_phrases", VStr "");
   ("blocked_phrases_system_message", VStr "N/A");
   ("creator_mode_control", VStr "N/A");
   ("hallucination_reduction_control", VStr "N/A");
   ("orchestration_control", VStr "N/A"); ("response_scope", VStr "N/A");
   ("topic_count", VInt 0); ("topic_names", VStr "");
   ("topic_descriptions", VStr ""); ("error_code", VStr "N/A");
   ("error_message", VStr "N/A"); ("index_id", VStr "N/A");
   ("data_source_count", VInt 0); ("data_source_ids", VStr "");
   ("data_source_types", VStr ""); ("data_source_names", VStr "");
   ("data_source_statuses", VStr ""); ("retriever_count", VInt 0);
   ("retriever_ids", VStr ""); ("retriever_types", VStr "");
   ("retriever_statuses", VStr ""); ("plugin_count", VInt 0);
   ("plugin_ids", VStr ""); ("plugin_types", VStr "");
   ("plugin_statuses", VStr "");
   ("export_timestamp", timestamp); ("aws_region", region);
   ("aws_account", py_or account (VStr "N/A"))].

(** The same for [_create_data_row]. *)
Definition absent_data_row (timestamp region account : value) : dict :=
  [("qbusiness_app_name", VStr "N/A"); ("qbusiness_app_id", VStr "N/A");
   ("qbusiness_status", VStr "N/A"); ("qbusiness_identity_type", VStr "N/A");
   ("qbusiness_created_at", VStr "N/A"); ("qbusiness_updated_at", VStr "N/A");
   ("qbusiness_encryption", VStr "AWS Managed");
   ("qapp_name", VStr "No Q Apps"); ("qapp_library_item_id", VStr "N/A");
   ("qapp_id", VStr "N/A"); ("qapp_version", VStr "N/A");
   ("qapp_status", VStr "N/A"); ("user_count", VInt 0);
   ("owner_created_by", VStr "N/A"); ("created_at", VStr "N/A");
   ("updated_by", VStr "N/A"); ("updated_at", VStr "N/A");
   ("rating_count", VInt 0); ("is_verified", VBool false);
   ("is_rated_by_user", VBool false); ("description", VStr "N/A");
   ("categories", VStr "N/A");
   ("retrieval_timestamp", timestamp); ("aws_region", region);
   ("aws_account", py_or account (VStr "N/A"))].


(** The sub-dict under key [k], empty when the key is missing. *)
Definition section (d : dict) (k : string) : option dict :=
  match dict_get d k (VDict []) with
  | VDict x => Some x
  | _ => None
  end.

(** How many rows an application with the app-children [qapps] adds. *)
Definition rows_for (include_empty : value) (qapps : list value) : nat :=
  match qapps with
  | [] => if truthy include_empty then 1 else 0
  | _ :: _ => length qapps
  end.

End Rows.

(** The directory service answers every [describe_user] call with a
    failure or a well-shaped response. *)
Definition directory_ok {W : Type} `{Remote W} : Prop :=
  forall args (w : W),
    Shape.reply_ok Shape.user_response (fst (invoke DescribeUser args w)) = true.

(** The entry of the "N/A" sentinel in the cache, when there is one, is
    the placeholder: what [get_user_details] keeps true from an empty
    cache on. *)
Definition sentinel_ok {W : Type} (s : exporter W) : Prop :=
  user_cache s !! KStr "N/A" = None
  \/ user_cache s !! KStr "N/A" = Some (Enhanced.placeholder (VStr "N/A")).

(** The exporter's configuration leaves the library page size at its
    default of 100. *)
Definition default_page_size {W : Type} (s : exporter W) : Prop :=
  exists retrieval,
    py_get (config s) "retrieval" (VDict []) = Ok retrieval
    /\ py_get retrieval "max_qapps_per_page" (VInt 100) = Ok (VInt 100).

(** ** A small account to run the code on

    Two applications in the account: "app-a" with two library items and
    one blocked phrase, "app-b" with none.  Instance "app-five" lists
    five library items and refuses the detail of the third; instance
    "app-denied" refuses the list call during the first hundred calls
    and lists nothing afterwards.  The directory knows "user-1" only;
    IAM Identity Center has no instance.  The world counts the calls
    made. *)
Module Demo.

Definition library_item (id : string) (author : string) : value :=
  VDict [("libraryItemId", VStr id); ("appId", VStr ("app-" +:+ id));
         ("appVersion", VInt 1); ("status", VStr "PUBLISHED");
         ("userCount", VInt 3); ("createdBy", VStr author);
         ("updatedBy", VStr author); ("ratingCount", VInt 0);
         ("categories", VList [VDict [("id", VStr "c1"); ("title", VStr "HR")]])].

Definition application (id name : string) : dict :=
  [("applicationId", VStr id); ("displayName", VStr name);
   ("status", VStr "ACTIVE"); ("identityType", VStr "AWS_IAM_IDC");
   ("identityCenterApplicationArn", VStr ("arn:aws:sso::1:application/" +:+ id))].

Definition answer (o : op) (args : dict) (w : nat) : reply :=
  match o with
  | ListApplications =>
      Reply [("applications",
              VList [VDict [("applicationId", VStr "app-a")];
                     VDict [("applicationId", VStr "app-b")]])]
  | GetApplication =>
      if str_eq (dict_get args "applicationId" VNone) "app-a"
      then Reply (application "app-a" "Alpha")
      else if str_eq (dict_get args "applicationId" VNone) "app-b"
      then Reply (application "app-b" "Beta")
      else Fails "ResourceNotFoundException"
  | ListLibraryItems =>
      if str_eq (dict_get args "instanceId" VNone) "app-a"
      then Reply [("libraryItems",
                   VList [library_item "q1" "user-1"; library_item "q2" "user-1"])]
      else if str_eq (dict_get args "instanceId" VNone) "app-five"
      then Reply [("libraryItems",
                   VList [library_item "i1" "user-1"; library_item "i2" "user-1";
                          library_item "i3" "user-1"; library_item "i4" "user-1";
                          library_item "i5" "user-1"])]
      else if str_eq (dict_get args "instanceId" VNone) "app-denied"
      then (if Nat.ltb w 100 then Fails "AccessDeniedException"
            else Reply [("libraryItems", VList [])])
      else Reply [("libraryItems", VList [])]
  | GetLibraryItem =>
      if str_eq (dict_get args "libraryItemId" VNone) "i3"
      then Fails "UnauthorizedException"
      else Reply [("libraryItemId", dict_get args "libraryItemId" VNone);
                  ("title", VStr "Onboarding helper")]
  | ListIndices => Reply [("indices", VList [])]
  | ListDataSources => Reply [("dataSources", VList [])]
  | GetDataSource => Fails "ResourceNotFoundException"
  | ListRetrievers =>
      if str_eq (dict_get args "applicationId" VNone) "app-denied"
      then Fails "AccessDeniedException"
      else Reply [("retrievers", VList [])]
  | GetRetriever => Fails "ResourceNotFoundException"
  | ListPlugins => Reply [("plugins", VList [])]
  | GetPlugin => Fails "ResourceNotFoundException"
  | GetChatControlsConfiguration =>
      if str_eq (dict_get args "applicationId" VNone) "app-a"
      then Reply [("blockedPhrases",
                   VDict [("blockedPhrases", VList [VStr "secret project"])])]
      else Reply []
  | ListInstances => Reply [("Instances", VList [])]
  | DescribeUser =>
      if str_eq (dict_get args "UserId" VNone) "user-1"
      then Reply [("UserName", VStr "alice"); ("DisplayName", VStr "Alice A.");
                  ("Emails",
                   VList [VDict [("Value", VStr "a@example.org")];
                          VDict [("Value", VStr "alice@example.com");
                                 ("Primary", VBool true)]])]
      else Fails "ResourceNotFoundException"
  end.

#[export] Instance service : Remote nat := {|
  invoke o args w := (answer o args w, S w);
  clock w := "2026-01-12T09:00:00";
  repr v := "<object>"
|}.

(** A freshly constructed exporter. *)
Definition start : exporter nat :=
  Exporter (VDict []) (VStr "us-east-1") VNone ∅ VNone 0 [].

(** The same exporter a hundred calls later. *)
Definition later : exporter nat :=
  Exporter (VDict []) (VStr "us-east-1") VNone ∅ VNone 100 [].

Definition five_items : list value :=
  [library_item "i1" "user-1"; library_item "i2" "user-1";
   library_item "i3" "user-1"; library_item "i4" "user-1";
   library_item "i5" "user-1"].

Definition alpha : value := VDict (application "app-a" "Alpha").

Definition alpha_controls : dict :=
  [("blockedPhrases", VDict [("blockedPhrases", VList [VStr "secret project"])])].

(** A configuration that switches one column off and names a column
    that does not exist. *)
Definition columns_off : dict :=
  [("description", VBool false); ("no_such_column", VBool true)].

Definition settings : dict :=
  [("output", VDict [("columns", VDict columns_off)])].

End Demo.


(** ** What a run leaves behind *)

(** Relations between the exporter before and after a piece of code,
    whatever its outcome. *)
Module Footprint.

Section Relations.
Context {W : Type}.

(** [m] leaves the exporter related by [R] to the one it started from,
    whether it returns, raises or is cut short. *)
Definition respects {A} (R : exporter W -> exporter W -> Prop) (m : Run W A) : Prop :=
  forall s, R s (snd (m s)).

(** Only operations of [ops] were called, and nothing of the exporter
    but the world and the log changed. *)
Definition frame (ops : list op) (s s' : exporter W) : Prop :=
  config s' = config s
  /\ aws_region s' = aws_region s
  /\ expected_account s' = expected_account s
  /\ user_cache s' = user_cache s
  /\ identity_store_id s' = identity_store_id s
  /\ exists made,
       calls s' = calls s ++ made
       /\ Forall (fun c => In (call_op c) ops) made.

(** Every identity in the cache is still there, unchanged. *)
Definition cache_grows (s s' : exporter W) : Prop :=
  user_cache s ⊆ user_cache s'.

(** The cache grew, and by at least as many entries as [describe_user]
    calls were made. *)
Definition lookups_cached (s s' : exporter W) : Prop :=
  cache_grows s s'
  /\ count_calls DescribeUser (calls s') + size (user_cache s)
     <= count_calls DescribeUser (calls s) + size (user_cache s').

(** A known identity store id stays, and [list_instances] is not
    called again. *)
Definition store_kept (s s' : exporter W) : Prop :=
  truthy (identity_store_id s) = true ->
  identity_store_id s' = identity_store_id s
  /\ count_calls ListInstances (calls s') = count_calls ListInstances (calls s).

End Relations.

End Footprint.

(** The operations of the inventory itself: everything but the
    identity lookups. *)
Definition inventory_ops : list op :=
  [ListApplications; GetApplication; ListLibraryItems; GetLibraryItem;
   ListIndices; ListDataSources; GetDataSource; ListRetrievers; GetRetriever;
   ListPlugins; GetPlugin; GetChatControlsConfiguration].

(** ** What the service lists *)

Module Listing.

Section Pages.
Context {W : Type} `{Remote W}.

(** [listing list_op params items_key w token pages w']: asked from
    world [w] with cursor [token], the service answers page after page
    with the items [pages], each response but the last carrying the
    cursor of the next call, and the last call leaves the world [w']
    (no other call is made in between). *)
Inductive listing (list_op : op) (params : dict) (items_key : string)
    : W -> value -> list (list value) -> W -> Prop :=
| listing_last w token response w' items :
    invoke list_op (with_token params token) w = (Reply response, w') ->
    py_iter (dict_get response items_key (VList [])) = Ok items ->
    truthy (dict_get response "nextToken" VNone) = false ->
    listing list_op params items_key w token [items] w'
| listing_more w token response w' items pages w'' :
    invoke list_op (with_token params token) w = (Reply response, w') ->
    py_iter (dict_get response items_key (VList [])) = Ok items ->
    truthy (dict_get response "nextToken" VNone) = true ->
    listing list_op params items_key w' (dict_get response "nextToken" VNone)
      pages w'' ->
    listing list_op params items_key w token (items :: pages) w''.

End Pages.

End Listing.

(** ** A second account, with the odd cases

    Listing the applications is refused.  IAM Identity Center has one
    instance.  The directory answers with a list of plain addresses
    instead of email objects.  Instance "app-paged" lists three library
    items over two pages; instance "app-broken" lists an item without
    its id. *)
Module Odd.

Definition answer (o : op) (args : dict) : reply :=
  match o with
  | ListApplications => Fails "AccessDeniedException"
  | ListInstances =>
      Reply [("Instances",
              VList [VDict [("InstanceArn", VStr "arn:aws:sso:::instance/ssoins-1");
                            ("IdentityStoreId", VStr "d-9067")]])]
  | DescribeUser =>
      Reply [("UserName", VStr "bob"); ("Emails", VList [VStr "bob@example.org"])]
  | ListLibraryItems =>
      if str_eq (dict_get args "instanceId" VNone) "app-paged" then
        if str_eq (dict_get args "nextToken" VNone) "t1"
        then Reply [("libraryItems", VList [VDict [("libraryItemId", VStr "q3")]])]
        else Reply [("libraryItems",
                     VList [VDict [("libraryItemId", VStr "q1")];
                            VDict [("libraryItemId", VStr "q2")]]);
                    ("nextToken", VStr "t1")]
      else if str_eq (dict_get args "instanceId" VNone) "app-broken" then
        Reply [("libraryItems",
                VList [VDict [("libraryItemId", VStr "ok1")];
                       VDict [("title", VStr "no id")];
                       VDict [("libraryItemId", VStr "ok2")]])]
      else Reply [("libraryItems", VList [])]
  | GetLibraryItem =>
      Reply [("libraryItemId", dict_get args "libraryItemId" VNone);
             ("title", VStr "Helper")]
  | ListIndices => Reply [("indices", VList [VDict [("indexId", VStr "idx-1")]])]
  | GetApplication => Fails "AccessDeniedException"
  | _ => Reply []
  end.

Definition service : Remote nat := {|
  invoke o args w := (answer o args, S w);
  clock w := "2026-01-12T09:00:00";
  repr v := "<object>"
|}.

(** A fresh exporter, and one that already knows its identity store. *)
Definition start : exporter nat :=
  Exporter (VDict []) (VStr "us-east-1") VNone ∅ VNone 0 [].

Definition known_store : exporter nat :=
  Exporter (VDict []) (VStr "us-east-1") VNone ∅ (VStr "d-9067") 0 [].

End Odd.

(** ** Vocabulary for the summaries in a row *)

Module Summary.

(** The string attribute [k] of a collection member as the row shows
    it: "N/A" stands for a missing one. *)
Definition attribute (k : string) (member : value) : string :=
  match member with
  | VDict d =>
      match dict_get d k (VStr "N/A") with
      | VStr s => s
      | _ => "N/A"
      end
  | _ => "N/A"
  end.

(** The identity columns of a row for an application without Q Apps. *)
Definition no_author_columns : dict :=
  [("qapp_creator_user_id", VStr "N/A");
   ("qapp_creator_username", VStr "N/A");
   ("qapp_creator_email", VStr "N/A");
   ("qapp_creator_display_name", VStr "N/A");
   ("qapp_updater_user_id", VStr "N/A");
   ("qapp_updater_username", VStr "N/A");
   ("qapp_updater_email", VStr "N/A")].

(** The summary columns of a collection: its count and the joined
    attributes of its members, in the order of the collection. *)
Definition summary (count_column : string) (columns : list (string * string))
    (members : list value) : dict :=
  (count_column, VInt (Z.of_nat (length members)))
  :: map (fun ca => (fst ca, VStr (String.concat ", "
                                     (map (attribute (snd ca)) members))))
       columns.

(** Operation [o] was not called between the two states. *)
Definition not_called {W : Type} (o : op) (s s' : exporter W) : Prop :=
  count_calls o (calls s') = count_calls o (calls s).

(** The "N/A" entry of the cache, once right, stays right. *)
Definition sentinel_kept {W : Type} (s s' : exporter W) : Prop :=
  sentinel_ok s -> sentinel_ok s'.

(** Whenever [m acc] returns, it returns [acc] with rows appended that
    all satisfy [P]. *)
Definition appends {W : Type} (P : dict -> Prop)
    (m : list dict -> Run W (list dict)) : Prop :=
  forall acc s out s',
    m acc s = (Ok out, s') -> exists rows, out = acc ++ rows /\ Forall P rows.

(** The data-source columns of a row for an application without
    index. *)
Definition no_data_source_columns : dict :=
  [("index_id", VStr "N/A"); ("data_source_count", VInt 0);
   ("data_source_ids", VStr ""); ("data_source_types", VStr "");
   ("data_source_names", VStr ""); ("data_source_statuses", VStr "")].

End Summary.

(** ** src/get_qbusiness_global.py: rows and aggregation

    The exporter without user details.  Its collectors
    [list_applications], [get_data_sources], [get_retrievers],
    [get_plugins] and [get_chat_controls], and the "Get index ID" block,
    are the text of the enhanced exporter's, whose definitions stand for
    them here; [get_qapps] is [Global.get_qapps], with its detail
    call. *)

Module GlobalRows.

Section Methods.
Context {W : Type} `{Remote W}.
#[local] Abbreviation M := (Run W).

Definition _create_global_row (app qapp : value)
    (data_sources retrievers plugins : list value) (index_id : value)
    (chat_controls : dict) : M dict :=
  let cc := VDict chat_controls in
  let controls k default :=
    if truthy cc then dict_get chat_controls k default else default in
  ok! attachments <- py_get app "attachmentsConfiguration" (VDict []) ;;
  ok! auto_sub <- py_get app "autoSubscriptionConfiguration" (VDict []) ;;
  ok! personalization <- py_get app "personalizationConfiguration" (VDict []) ;;
  ok! qapps_config <- py_get app "qAppsConfiguration" (VDict []) ;;
  ok! quicksight_config <- py_get app "quickSightConfiguration" (VDict []) ;;
  let blocked_phrases_config := controls "blockedPhrases" (VDict []) in
  let creator_mode := controls "creatorModeConfiguration" (VDict []) in
  let hallucination_reduction :=
    controls "hallucinationReductionConfiguration" (VDict []) in
  let orchestration := controls "orchestrationConfiguration" (VDict []) in
  let topic_configs := controls "topicConfigurations" (VList []) in
  timestamp <- now_iso ;;
  region <- self aws_region ;;
  account <- self expected_account ;;
  let str v := VStr (py_str repr v) in
  let field v k := py_get v k (VStr "N/A") in
  lift (literal [
    ("qapp_name",
      when_app qapp
        (obind (py_get qapp "libraryItemId" (VStr "No Q Apps")) (fun id =>
         py_get qapp "title" id))
        (VStr "No Q Apps"));
    ("qapp_id", when_app qapp (field qapp "appId") (VStr "N/A"));
    ("qapp_library_item_id",
      when_app qapp (field qapp "libraryItemId") (VStr "N/A"));
    ("qapp_version", when_app qapp (field qapp "appVersion") (VStr "N/A"));
    ("qapp_status", when_app qapp (field qapp "status") (VStr "N/A"));
    ("qapp_user_count",
      when_app qapp (py_get qapp "userCount" (VInt 0)) (VInt 0));
    ("qapp_owner_created_by", when_app qapp (field qapp "createdBy") (VStr "N/A"));
    ("qapp_created_at",
      when_app qapp (obind (field qapp "createdAt") (fun t => Ok (str t)))
        (VStr "N/A"));
    ("qapp_updated_by", when_app qapp (field qapp "updatedBy") (VStr "N/A"));
    ("qapp_updated_at",
      when_app qapp (obind (field qapp "updatedAt") (fun t => Ok (str t)))
        (VStr "N/A"));
    ("qapp_rating_count",
      when_app qapp (py_get qapp "ratingCount" (VInt 0)) (VInt 0));
    ("qapp_is_verified",
      when_app qapp (py_get qapp "isVerified" (VBool false)) (VBool false));
    ("qapp_is_rated_by_user",
      when_app qapp (py_get qapp "isRatedByUser" (VBool false)) (VBool false));
    ("qapp_description", when_app qapp (field qapp "description") (VStr "N/A"));
    ("qapp_categories",
      when_app qapp
        (obind (py_get qapp "categories" (VList [])) (fun cats =>
         joined ", " (fun cat => py_get cat "title" (VStr "")) cats))
        (VStr "N/A"));
    ("app_name", field app "displayName");
    ("app_id", field app "applicationId");
    ("app_arn", field app "applicationArn");
    ("app_description", field app "description");
    ("app_status", field app "status");
    ("app_created_at", obind (field app "createdAt") (fun t => Ok (str t)));
    ("app_updated_at", obind (field app "updatedAt") (fun t => Ok (str t)));
    ("identity_type", field app "identityType");
    ("identity_center_arn", field app "identityCenterApplicationArn");
    ("iam_identity_provider_arn", field app "iamIdentityProviderArn");
    ("client_ids_for_oidc",
      obind (py_get app "clientIdsForOIDC" (VList [])) (py_join ", "));
    ("role_arn", field app "roleArn");
    ("encryption_kms_key",
      obind (py_get app "encryptionConfiguration" (VDict [])) (fun e =>
      py_get e "kmsKeyId" (VStr "AWS Managed")));
    ("attachments_mode", field attachments "attachmentsControlMode");
    ("auto_subscribe", field auto_sub "autoSubscribe");
    ("auto_subscribe_default", field auto_sub "defaultSubscriptionType");
    ("personalization_mode", field personalization "personalizationControlMode");
    ("qapps_mode", field qapps_config "qAppsControlMode");
    ("quicksight_namespace", field quicksight_config "clientNamespace");
    ("blocked_phrases_count",
      obind (py_get blocked_phrases_config "blockedPhrases" (VList [])) py_len);
    ("blocked_phrases",
      obind (py_get blocked_phrases_config "blockedPhrases" (VList []))
        (py_join "; "));
    ("blocked_phrases_system_message",
      field blocked_phrases_config "systemMessageOverride");
    ("creator_mode_control", field creator_mode "creatorModeControl");
    ("hallucination_reduction_control",
      field hallucination_reduction "hallucinationReductionControl");
    ("orchestration_control", field orchestration "control");
    ("response_scope", Ok (controls "responseScope" (VStr "N/A")));
    ("topic_count", py_len topic_configs);
    ("topic_names", joined ", " (fun t => field t "name") topic_configs);
    ("topic_descriptions",
      joined " | " (fun t =>
        obind (field t "name") (fun n =>
        obind (field t "description") (fun d =>
        Ok (VStr (py_str repr n +:+ ": " +:+ py_str repr d)))))
        topic_configs);
    ("error_code",
      obind (py_get app "error" (VDict [])) (fun e => field e "errorCode"));
    ("error_message",
      obind (py_get app "error" (VDict [])) (fun e => field e "errorMessage"));
    ("index_id", Ok (py_or index_id (VStr "N/A")));
    ("data_source_count", py_len (VList data_sources));
    ("data_source_ids",
      joined ", " (fun ds => field ds "dataSourceId") (VList data_sources));
    ("data_source_types",
      joined ", " (fun ds => field ds "type") (VList data_sources));
    ("data_source_names",
      joined ", " (fun ds => field ds "displayName") (VList data_sources));
    ("data_source_statuses",
      joined ", " (fun ds => field ds "status") (VList data_sources));
    ("retriever_count", py_len (VList retrievers));
    ("retriever_ids",
      joined ", " (fun r => field r "retrieverId") (VList retrievers));
    ("retriever_types", joined ", " (fun r => field r "type") (VList retrievers));
    ("retriever_statuses",
      joined ", " (fun r => field r "status") (VList retrievers));
    ("plugin_count", py_len (VList plugins));
    ("plugin_ids", joined ", " (fun p => field p "pluginId") (VList plugins));
    ("plugin_types", joined ", " (fun p => field p "type") (VList plugins));
    ("plugin_statuses", joined ", " (fun p => field p "status") (VList plugins));
    ("export_timestamp", Ok timestamp);
    ("aws_region", Ok region);
    ("aws_account", Ok (py_or account (VStr "N/A")))
  ]).

(** The "Create rows" block. *)
Definition create_rows (include_empty app : value)
    (qapps data_sources retrievers plugins : list value) (index_id : value)
    (chat_controls : dict) (all_data : list dict) : M (list dict) :=
  if truthy (VList qapps) then
    for_each (fun qapp all_data =>
                row <- _create_global_row app qapp data_sources retrievers
                         plugins index_id chat_controls ;;
                ret (all_data ++ [row]))
             qapps all_data
  else if truthy include_empty then
    row <- _create_global_row app VNone data_sources retrievers plugins
             index_id chat_controls ;;
    ret (all_data ++ [row])
  else ret all_data.

(** The body of the [for app in applications] loop. *)
Definition export_application (fuel : nat) (include_empty app : value)
    (all_data : list dict) : M (list dict) :=
  ok! app_id <- py_get app "applicationId" (VStr "N/A") ;;
  ok! app_name <- py_get app "displayName" app_id ;;
  index_id <- Enhanced.first_index_id app_id ;;
  qapps <- Global.get_qapps fuel app_id ;;
  data_sources <- (if truthy index_id
                   then Enhanced.get_data_sources fuel app_id index_id
                   else ret []) ;;
  retrievers <- Global.get_retrievers fuel app_id ;;
  plugins <- Enhanced.get_plugins fuel app_id ;;
  chat_controls <- Enhanced.get_chat_controls app_id ;;
  create_rows include_empty app qapps data_sources retrievers plugins
    index_id chat_controls all_data.

Definition export_all_data (fuel : nat) : M (list dict) :=
  cfg <- self config ;;
  ok! export <- py_get cfg "export" (VDict []) ;;
  ok! include_empty <- py_get export "include_empty_apps" (VBool true) ;;
  applications <- Enhanced.list_applications fuel ;;
  for_each (export_application fuel include_empty) applications [].

End Methods.

(** The keys of a row of [_create_global_row], in order. *)
Definition row_columns : list string :=
  ["qapp_name"; "qapp_id"; "qapp_library_item_id"; "qapp_version"; "qapp_status";
   "qapp_user_count"; "qapp_owner_created_by"; "qapp_created_at";
   "qapp_updated_by"; "qapp_updated_at"; "qapp_rating_count"; "qapp_is_verified";
   "qapp_is_rated_by_user"; "qapp_description"; "qapp_categories";
   "app_name"; "app_id"; "app_arn"; "app_description"; "app_status";
   "app_created_at"; "app_updated_at"; "identity_type"; "identity_center_arn";
   "iam_identity_provider_arn"; "client_ids_for_oidc";
   "role_arn"; "encryption_kms_key"; "attachments_mode"; "auto_subscribe";
   "auto_subscribe_default"; "personalization_mode"; "qapps_mode";
   "quicksight_namespace"; "blocked_phrases_count"; "blocked_phrases";
   "blocked_phrases_system_message"; "creator_mode_control";
   "hallucination_reduction_control"; "orchestration_control"; "response_scope";
   "topic_count"; "topic_names"; "topic_descriptions"; "error_code";
   "error_message"; "index_id"; "data_source_count"; "data_source_ids";
   "data_source_types"; "data_source_names"; "data_source_statuses";
   "retriever_count"; "retriever_ids"; "retriever_types"; "retriever_statuses";
   "plugin_count"; "plugin_ids"; "plugin_types"; "plugin_statuses";
   "export_timestamp"; "aws_region"; "aws_account"].

(** The columns the two exporters fill by the same expressions: all of
    [row_columns] but the Q App name, the two author ids (which the
    enhanced exporter shows under other names) and the time stamp. *)
Definition shared_columns : list string :=
  List.filter (fun k => negb (existsb (String.eqb k)
                              ["qapp_name"; "qapp_owner_created_by";
                               "qapp_updated_by"; "export_timestamp"]))
    row_columns.

End GlobalRows.

(** ** The file name of the CSV export (src/get_qapps_info.py) *)

Module Filename.

(** [s.replace(old, new)] for a non-empty [old]: every occurrence found
    scanning from the left, an occurrence once replaced being skipped
    ([skip] characters of it are still to be passed over). *)
Fixpoint replace_skip (old new : string) (skip : nat) (s : string) : string :=
  match s with
  | EmptyString => EmptyString
  | String c rest =>
      match skip with
      | S n => replace_skip old new n rest
      | O =>
          if String.prefix old s
          then new +:+ replace_skip old new (String.length old - 1) rest
          else String c (replace_skip old new 0 rest)
      end
  end.

Definition str_replace (old new s : string) : string := replace_skip old new 0 s.

(** [v.replace(old, new)] for a literal [old]: only a [str] has this
    method (a date has another [replace], which rejects the
    arguments), and it takes a [str]. *)
Definition py_replace (v : value) (old : string) (new : value) : outcome string :=
  match v with
  | VStr s =>
      match new with
      | VStr n => Ok (str_replace old n s)
      | _ => Raise TypeError
      end
  | VTime _ => Raise TypeError
  | _ => Raise AttributeError
  end.

(** The "Generate filename if not provided" block of [export_to_csv].
    [stamp], [day] and [time] are what the three [strftime] calls
    return. *)
Definition csv_filename (stamp day time : string)
    (config region account filename : value) : outcome value :=
  if truthy filename then Ok filename
  else
    obind (py_get config "export" (VDict [])) (fun export =>
    obind (py_get export "filename_pattern" (VStr "qapps_export_{datetime}"))
      (fun pattern =>
    obind (py_replace pattern "{datetime}" (VStr stamp)) (fun f1 =>
    obind (py_replace (VStr f1) "{date}" (VStr day)) (fun f2 =>
    obind (py_replace (VStr f2) "{time}" (VStr time)) (fun f3 =>
    obind (py_replace (VStr f3) "{region}" region) (fun f4 =>
    obind (if truthy account
           then py_replace (VStr f4) "{account}" account
           else Ok f4) (fun f5 =>
    Ok (VStr (f5 +:+ ".csv"))))))))).

(** A pattern as a sequence of plain text and placeholders. *)
Inductive hole : Type := Datetime | Date | Time | Region | Account.

Inductive piece : Type :=
| Text (s : string)
| Hole (h : hole).

Definition hole_eqb (a b : hole) : bool :=
  match a, b with
  | Datetime, Datetime | Date, Date | Time, Time | Region, Region
  | Account, Account => true
  | _, _ => false
  end.

Definition placeholder (h : hole) : string :=
  match h with
  | Datetime => "{datetime}"
  | Date => "{date}"
  | Time => "{time}"
  | Region => "{region}"
  | Account => "{account}"
  end.

Definition written (p : piece) : string :=
  match p with
  | Text s => s
  | Hole h => placeholder h
  end.

(** The pattern the pieces spell. *)
Definition text_of (pieces : list piece) : string :=
  fold_right (fun p rest => written p +:+ rest) "" pieces.

(** No opening brace in the text. *)
Fixpoint brace_free (s : string) : bool :=
  match s with
  | EmptyString => true
  | String c rest => negb (Ascii.eqb c "{") && brace_free rest
  end.

Definition plain (p : piece) : bool :=
  match p with
  | Text s => brace_free s
  | Hole _ => true
  end.

(** What stands in the file name for a piece. *)
Definition filled (stamp day time region : string) (account : value)
    (p : piece) : string :=
  match p with
  | Text s => s
  | Hole Datetime => stamp
  | Hole Date => day
  | Hole Time => time
  | Hole Region => region
  | Hole Account =>
      match account with
      | VStr a => if truthy account then a else "{account}"
      | _ => "{account}"
      end
  end.

(** The file name without its extension. *)
Definition name_of (stamp day time region : string) (account : value)
    (pieces : list piece) : string :=
  fold_right (fun p rest => filled stamp day time region account p +:+ rest)
    "" pieces.

(** The configured account is absent (falsy) or a text without opening
    brace. *)
Definition account_plain (account : value) : bool :=
  match account with
  | VStr a => brace_free a
  | v => negb (truthy v)
  end.

(** One [replace] seen on the pieces. *)
Definition fill (h : hole) (new : string) (p : piece) : piece :=
  match p with
  | Text s => Text s
  | Hole h' => if hole_eqb h' h then Text new else Hole h'
  end.

End Filename.

(** ** More of the demo account *)

Module Sample.

(** The demo account signed in to its identity store. *)
Definition signed_in : exporter nat :=
  Exporter (VDict []) (VStr "us-east-1") VNone ∅ (VStr "d-9067") 0 [].

(** The demo account with an application in the listing that cannot
    be described. *)
Definition answer (o : op) (args : dict) (w : nat) : reply :=
  match o with
  | ListApplications =>
      Reply [("applications",
              VList [VDict [("applicationId", VStr "app-a")];
                     VDict [("applicationId", VStr "app-gone")]])]
  | _ => Demo.answer o args w
  end.

Definition service : Remote nat := {|
  invoke o args w := (answer o args w, S w);
  clock w := "2026-01-12T09:00:00";
  repr v := "<object>"
|}.

(** Two data sources, the second known by its id only. *)
Definition sources : list value :=
  [VDict [("dataSourceId", VStr "ds-1"); ("type", VStr "S3");
          ("displayName", VStr "Handbook"); ("status", VStr "ACTIVE")];
   VDict [("dataSourceId", VStr "ds-2")]].

(** A configuration that gives the columns as a list of names. *)
Definition listed_columns : dict :=
  [("output", VDict [("columns", VList [VStr "qapp_name"; VStr "user_count"])])].

(** A configuration with a file name pattern. *)
Definition named : dict :=
  [("export", VDict [("filename_pattern", VStr "qapps_{region}_{date}_{account}")])].

End Sample.

(** ** The CSV file of get_qapps_info

    [export_to_csv] hands the configured encoding to [open].  What
    Python's codec registry knows and what a codec can encode is the
    library's; the code only passes the name on and catches what comes
    back. *)

Class Codecs : Type := {
  (** The encoding [open] takes when it is given [None]. *)
  locale_encoding : string;
  (** [codecs.lookup] finds a text encoding of this name. *)
  text_encoding : string -> bool;
  (** The codec encodes the line the writer makes of these cells. *)
  encodes : string -> list value -> bool
}.

Module QAppsCsv.

(** What [open(output_path, 'w', newline='', encoding=encoding)] comes
    to.  An [encoding] that is neither a [str] nor [None] (TypeError)
    or holds a NUL character (ValueError) is refused before the file is
    created; a name the registry does not know as a text encoding
    raises LookupError after the file was created, which leaves it
    empty. *)
Inductive opened : Type :=
| NotCreated
| LeftEmpty
| Opened (codec : string).

(** What the method leaves on disk: nothing, an empty file, or a file
    with the rows written before the [with] block was left,
    [complete] when [writerows] came to its end. *)
Inductive written : Type :=
| NoFile
| Blank (name : string)
| Saved (name : string) (file : csv_file) (complete : bool).

Fixpoint has_nul (s : string) : bool :=
  match s with
  | EmptyString => false
  | String c rest => Ascii.eqb c Ascii.zero || has_nul rest
  end.

(** [output_dir / filename]: only a [str] can be joined to a path. *)
Definition path_name (filename : value) : outcome string :=
  match filename with
  | VStr name => Ok name
  | _ => Raise TypeError
  end.

Section Host.
Context `{Codecs}.

Definition open_text (encoding : value) : opened :=
  match encoding with
  | VNone => Opened locale_encoding
  | VStr name =>
      if has_nul name then NotCreated
      else if text_encoding name then Opened name
      else LeftEmpty
  | _ => NotCreated
  end.

(** [writer.writerows(data)] under [extrasaction='ignore'] on a text
    file with [codec]: each row is written as one line; a line the
    codec cannot encode raises UnicodeEncodeError, and the rows before
    it are in the file.  The rows written, and whether all were. *)
Fixpoint writerows (codec : string) (fieldnames : list string) (data : list dict)
    : list (list value) * bool :=
  match data with
  | [] => ([], true)
  | row :: rest =>
      if encodes codec (cells fieldnames row) then
        let '(records, complete) := writerows codec fieldnames rest in
        (cells fieldnames row :: records, complete)
      else ([], false)
  end.

(** The [try] block of [export_to_csv], whose [except Exception] clause
    catches whatever is raised in it: the settings, the [open], the
    header, the rows. *)
Definition write_file (name : string) (config : value) (data : list dict)
    : written :=
  match QAppsInfo.csv_settings config with
  | Ok (fieldnames, encoding, include_headers) =>
      match open_text encoding with
      | NotCreated => NoFile
      | LeftEmpty => Blank name
      | Opened codec =>
          if truthy include_headers then
            if encodes codec (map VStr fieldnames) then
              let '(records, complete) := writerows codec fieldnames data in
              Saved name (CsvFile fieldnames true records) complete
            else Saved name (CsvFile fieldnames false []) false
          else
            let '(records, complete) := writerows codec fieldnames data in
            Saved name (CsvFile fieldnames false records) complete
      end
  | _ => NoFile
  end.

(** [export_to_csv], with [self.config], [self.aws_region] and
    [self.expected_account] as arguments and [stamp], [day], [time] what
    the three [strftime] calls return.  With no data it returns at
    once.  The file name is made before the [try], so that what its
    block raises leaves the method; the file is named [name] in the
    output directory.  The file system is taken to accept the directory
    and the path, as for the enhanced exporter. *)
Definition export_to_csv (stamp day time : string)
    (config region account : value) (data : list dict) (filename : value)
    : outcome written :=
  match data with
  | [] => Ok NoFile
  | _ :: _ =>
      obind (Filename.csv_filename stamp day time config region account filename)
        (fun filename =>
      obind (path_name filename) (fun name =>
      Ok (write_file name config data)))
  end.

End Host.

End QAppsCsv.

(** ** A workstation's codecs, for the scenarios *)

Module Workstation.

Fixpoint ascii_only (s : string) : bool :=
  match s with
  | EmptyString => true
  | String c rest => Nat.ltb (nat_of_ascii c) 128 && ascii_only rest
  end.

(** Numbers, booleans, [None] and dates print in ASCII; the rows of the
    scenarios hold no lists or objects. *)
Definition ascii_cell (cell : value) : bool :=
  match cell with
  | VStr s => ascii_only s
  | VList _ | VDict _ => false
  | _ => true
  end.

Definition codecs : Codecs := {|
  locale_encoding := "utf-8";
  text_encoding name :=
    existsb (String.eqb name) ["utf-8"; "utf8"; "ascii"; "latin-1"];
  encodes name cells :=
    if String.eqb name "ascii" then forallb ascii_cell cells else true
|}.

(** A configuration that asks for a codec nobody knows, and one that
    asks for ASCII. *)
Definition misspelt : dict :=
  [("export", VDict [("csv", VDict [("encoding", VStr "utf8-typo")])])].


End Workstation.

(** * Properties *)

Import Demo.

(** ** Running code: equations of the monad *)

Section MonadFacts.
Context {W : Type} `{Remote W}.
#[local] Abbreviation M := (Run W).

Lemma bind_ok {A B} (m : M A) (k : A -> M B) s a s' :
  m s = (Ok a, s') -> bind m k s = k a s'.
Proof. intros E. unfold bind. rewrite E. reflexivity. Qed.

Lemma bind_raise {A B} (m : M A) (k : A -> M B) s e s' :
  m s = (Raise e, s') -> bind m k s = (Raise e, s').
Proof. intros E. unfold bind. rewrite E. reflexivity. Qed.

Lemma bind_lift_ok {A B} (o : outcome A) (k : A -> M B) s a :
  o = Ok a -> bind (lift o) k s = k a s.
Proof. intros ->. reflexivity. Qed.

Lemma try_client_ok {A} (m : M A) h s a s' :
  m s = (Ok a, s') -> try_client m h s = (Ok a, s').
Proof. intros E. unfold try_client. rewrite E. reflexivity. Qed.

Lemma try_client_caught {A} (m : M A) h s code s' :
  m s = (Raise (ClientError code), s') -> try_client m h s = h code s'.
Proof. intros E. unfold try_client. rewrite E. reflexivity. Qed.

Lemma remote_reply o args s d w :
  invoke o args (world s) = (Reply d, w) ->
  remote o args s = (Ok d, record_call o args w s).
Proof. intros E. unfold remote. rewrite E. reflexivity. Qed.

Lemma remote_fails o args s code w :
  invoke o args (world s) = (Fails code, w) ->
  remote o args s = (Raise (ClientError code), record_call o args w s).
Proof. intros E. unfold remote. rewrite E. reflexivity. Qed.

Lemma count_calls_app o log1 log2 :
  count_calls o (log1 ++ log2) = count_calls o log1 + count_calls o log2.
Proof. unfold count_calls. rewrite filter_app, length_app. reflexivity. Qed.

End MonadFacts.

(** ** The identity resolver *)

Module EnhancedIdentity.
Import Enhanced Shape Words.

Lemma primary_email_chosen entries :
  forallb is_dict entries = true ->
  primary_email entries =
    Ok (match List.find primary_flagged entries with
        | Some entry => Some (address entry)
        | None => None
        end).
Proof.
  induction entries as [|entry rest IH]; intros Hd; [reflexivity|].
  simpl in Hd. apply andb_prop in Hd as [He Hrest].
  destruct entry; try discriminate. simpl.
  destruct (truthy (dict_get d "Primary" (VBool false))); [reflexivity|].
  apply IH, Hrest.
Qed.

(** [_extract_email] follows the rule of the specification on a
    well-shaped response. *)
Lemma extract_email_chosen response :
  user_response response = true ->
  _extract_email response = Ok (chosen_email (emails_of response)).
Proof.
  unfold user_response, absent_or, _extract_email, emails_of, dict_get.
  destruct (dict_find "Emails" response) as [v|]; [|reflexivity].
  destruct v; try discriminate. simpl. intros Hd.
  destruct l as [|entry rest]; [reflexivity|].
  cbn [truthy obind]. rewrite (primary_email_chosen _ Hd). unfold chosen_email.
  destruct (List.find primary_flagged (entry :: rest)); [reflexivity|].
  simpl. simpl in Hd. apply andb_prop in Hd as [He _].
  destruct entry; try discriminate. reflexivity.
Qed.

Lemma hashable_key uid : hashable uid = true -> exists k, key_of uid = Ok k.
Proof. destruct uid; simpl; intros; try discriminate; eauto. Qed.

Lemma str_eq_true v lit : str_eq v lit = true <-> v = VStr lit.
Proof.
  destruct v; simpl; try (split; intros; discriminate).
  rewrite String.eqb_eq. split; [intros ->; reflexivity | intros [= ->]; reflexivity].
Qed.

Section Resolver.
Context {W : Type} `{Remote W}.

Lemma resolve_hit store uid k cached (s : exporter W) :
  key_of uid = Ok k -> user_cache s !! k = Some cached ->
  get_user_details store uid s = (Ok cached, s).
Proof.
  intros Hk Hc. unfold get_user_details.
  rewrite (bind_lift_ok _ _ _ _ Hk). unfold bind, self. rewrite Hc. reflexivity.
Qed.

Lemma resolve_skip store uid k (s : exporter W) :
  key_of uid = Ok k -> user_cache s !! k = None ->
  negb (truthy store) || str_eq uid "N/A" = true ->
  get_user_details store uid s
    = (Ok (placeholder uid), store_user k (placeholder uid) s).
Proof.
  intros Hk Hc Hskip. unfold get_user_details.
  rewrite (bind_lift_ok _ _ _ _ Hk). unfold bind, self. rewrite Hc, Hskip.
  reflexivity.
Qed.

Lemma resolve_failed store uid k (s : exporter W) code w :
  key_of uid = Ok k -> user_cache s !! k = None ->
  negb (truthy store) || str_eq uid "N/A" = false ->
  invoke DescribeUser (describe_user_args store uid) (world s) = (Fails code, w) ->
  get_user_details store uid s
    = (Ok (placeholder uid),
       store_user k (placeholder uid)
         (record_call DescribeUser (describe_user_args store uid) w s)).
Proof.
  intros Hk Hc Hskip Hr. unfold get_user_details.
  rewrite (bind_lift_ok _ _ _ _ Hk). unfold bind at 1. unfold self.
  rewrite Hc, Hskip.
  erewrite try_client_caught;
    [reflexivity | apply bind_raise, remote_fails, Hr].
Qed.

Lemma resolve_found store uid k (s : exporter W) response w :
  key_of uid = Ok k -> user_cache s !! k = None ->
  negb (truthy store) || str_eq uid "N/A" = false ->
  invoke DescribeUser (describe_user_args store uid) (world s) = (Reply response, w) ->
  user_response response = true ->
  get_user_details store uid s
    = (Ok (resolved response),
       store_user k (resolved response)
         (record_call DescribeUser (describe_user_args store uid) w s)).
Proof.
  intros Hk Hc Hskip Hr Hshape. unfold get_user_details.
  rewrite (bind_lift_ok _ _ _ _ Hk). unfold bind at 1. unfold self.
  rewrite Hc, Hskip.
  apply try_client_ok.
  rewrite (bind_ok _ _ _ _ _ (remote_reply _ _ _ _ _ Hr)).
  rewrite (bind_lift_ok _ _ _ _ (extract_email_chosen _ Hshape)).
  reflexivity.
Qed.

Lemma count_calls_record o o' args w (s : exporter W) :
  count_calls o (calls (record_call o' args w s)) <= count_calls o (calls s) + 1.
Proof.
  simpl. rewrite count_calls_app. unfold count_calls at 2.
  rewrite filter_cons, filter_nil. simpl. case_decide; simpl; lia.
Qed.

(** A call returns, leaves the looked-up record in the cache, and
    makes at most one [describe_user] call. *)
Lemma resolve_returns store uid k (s : exporter W) :
  key_of uid = Ok k ->
  reply_ok user_response
    (fst (invoke DescribeUser (describe_user_args store uid) (world s))) = true ->
  exists info s1,
    get_user_details store uid s = (Ok info, s1)
    /\ user_cache s1 !! k = Some info
    /\ count_calls DescribeUser (calls s1) <= count_calls DescribeUser (calls s) + 1
    /\ (user_cache s !! k = None -> truthy store = false ->
        info = placeholder uid).
Proof.
  intros Hk Hshape.
  destruct (user_cache s !! k) as [cached|] eqn:Hc.
  { exists cached, s. rewrite (resolve_hit _ _ _ _ _ Hk Hc).
    repeat split; [assumption | lia | discriminate]. }
  destruct (negb (truthy store) || str_eq uid "N/A") eqn:Hskip.
  { exists (placeholder uid), (store_user k (placeholder uid) s).
    rewrite (resolve_skip _ _ _ _ Hk Hc Hskip).
    repeat split; [apply lookup_insert_eq | simpl; lia]. }
  destruct (invoke DescribeUser (describe_user_args store uid) (world s))
    as [[response|code] w] eqn:Hr; simpl in Hshape.
  - eexists _, _. rewrite (resolve_found _ _ _ _ _ _ Hk Hc Hskip Hr Hshape).
    repeat split; [apply lookup_insert_eq | apply count_calls_record |].
    intros _ Hno. rewrite Hno in Hskip. discriminate.
  - eexists _, _. rewrite (resolve_failed _ _ _ _ _ _ Hk Hc Hskip Hr).
    repeat split; [apply lookup_insert_eq | apply count_calls_record].
Qed.

(** An entry of the cache is never removed or replaced by a later
    call, whatever it looks up. *)
Lemma user_cache_entries_kept store uid (s : exporter W) k info :
  user_cache s !! k = Some info ->
  user_cache (snd (get_user_details store uid s)) !! k = Some info.
Proof.
  intros Hin. unfold get_user_details.
  destruct (key_of uid) as [k'| |] eqn:Hk; [|exact Hin|exact Hin].
  rewrite (bind_lift_ok _ _ _ _ eq_refl). unfold bind at 1. unfold self.
  destruct (user_cache s !! k') as [cached|] eqn:Hc; [exact Hin|].
  assert (k' <> k) as Hne by congruence.
  destruct (negb (truthy store) || str_eq uid "N/A").
  { simpl. rewrite lookup_insert_ne by exact Hne. exact Hin. }
  unfold try_client, bind, remote.
  destruct (invoke DescribeUser (describe_user_args store uid) (world s))
    as [[response|code] w].
  - unfold lift. destruct (_extract_email response) as [mail|[]|]; simpl;
      try rewrite lookup_insert_ne by exact Hne; exact Hin.
  - simpl. rewrite lookup_insert_ne by exact Hne. exact Hin.
Qed.

(** C2.  Resolving the same principal id twice: both calls return the
    same record, the second leaves the exporter as the first left it
    (so it makes no remote call), and the log gains at most one
    [describe_user] call over the two; this covers a first call that
    cached the placeholder. *)
Theorem get_user_details_idempotent store uid (s : exporter W) :
  hashable uid = true ->
  reply_ok user_response
    (fst (invoke DescribeUser (describe_user_args store uid) (world s))) = true ->
  exists info s1,
    get_user_details store uid s = (Ok info, s1)
    /\ get_user_details store uid s1 = (Ok info, s1)
    /\ count_calls DescribeUser (calls s1)
         <= count_calls DescribeUser (calls s) + 1.
Proof.
  intros Hh Hshape. destruct (hashable_key _ Hh) as [k Hk].
  destruct (resolve_returns store uid k s Hk Hshape)
    as (info & s1 & Hrun & Hcached & Hcount & _).
  exists info, s1. split; [exact Hrun|]. split; [|exact Hcount].
  exact (resolve_hit store uid k info s1 Hk Hcached).
Qed.

(** C3.  On a cache miss [get_user_details] returns and caches the
    placeholder when the identity store id is missing or the principal
    id is "N/A", and when [describe_user] fails; when it answers, the
    record carries the primary-flagged email, else the first email,
    else "N/A". *)
Theorem get_user_details_on_miss store uid k (s : exporter W) :
  key_of uid = Ok k ->
  user_cache s !! k = None ->
  let args := describe_user_args store uid in
  (truthy store = false \/ uid = VStr "N/A" ->
     get_user_details store uid s
       = (Ok (placeholder uid), store_user k (placeholder uid) s))
  /\ (truthy store = true -> uid <> VStr "N/A" ->
      (forall code w,
         invoke DescribeUser args (world s) = (Fails code, w) ->
         get_user_details store uid s
           = (Ok (placeholder uid),
              store_user k (placeholder uid) (record_call DescribeUser args w s)))
      /\ (forall response w,
           invoke DescribeUser args (world s) = (Reply response, w) ->
           user_response response = true ->
           get_user_details store uid s
             = (Ok (UserInfo (dict_get response "UserName" (VStr "N/A"))
                             (chosen_email (emails_of response))
                             (dict_get response "DisplayName" (VStr "N/A"))),
                store_user k (resolved response)
                  (record_call DescribeUser args w s)))).
Proof.
  intros Hk Hc args. split.
  - intros Hskip. apply resolve_skip; [exact Hk | exact Hc |].
    destruct Hskip as [-> | ->]; [reflexivity | apply orb_true_r].
  - intros Hstore Hid.
    assert (negb (truthy store) || str_eq uid "N/A" = false) as Hskip.
    { rewrite Hstore. simpl. destruct (str_eq uid "N/A") eqn:E; [|reflexivity].
      apply str_eq_true in E. contradiction. }
    split.
    + intros code w Hr. exact (resolve_failed _ _ _ _ _ _ Hk Hc Hskip Hr).
    + intros response w Hr Hshape.
      exact (resolve_found _ _ _ _ _ _ Hk Hc Hskip Hr Hshape).
Qed.

(** C9.  The cache is keyed by the principal id alone: once a call
    has resolved [uid] under directory id [d1], a call with any
    directory id [d2], in any later state that still holds the entry,
    returns that record and changes nothing, so no lookup is made.  A
    principal first resolved without a directory id keeps the
    placeholder. *)
Theorem user_cache_keyed_by_principal d1 uid k (s : exporter W) :
  key_of uid = Ok k ->
  reply_ok user_response
    (fst (invoke DescribeUser (describe_user_args d1 uid) (world s))) = true ->
  exists info s1,
    get_user_details d1 uid s = (Ok info, s1)
    /\ (forall d2 (s2 : exporter W),
          user_cache s2 !! k = user_cache s1 !! k ->
          get_user_details d2 uid s2 = (Ok info, s2))
    /\ (user_cache s !! k = None -> truthy d1 = false ->
        info = placeholder uid).
Proof.
  intros Hk Hshape.
  destruct (resolve_returns d1 uid k s Hk Hshape)
    as (info & s1 & Hrun & Hcached & _ & Hplace).
  exists info, s1. split; [exact Hrun|]. split; [|exact Hplace].
  intros d2 s2 Hsame. apply (resolve_hit d2 uid k info s2 Hk).
  rewrite Hsame. exact Hcached.
Qed.

End Resolver.

End EnhancedIdentity.

(** ** The collectors *)

Module Collectors.
Import Paged.

Section Loop.
Context {W : Type} `{Remote W}.
Variables (get_op : op) (get_args : value -> outcome dict).

Lemma hydrate_kept item acc (s : exporter W) args r w :
  get_args item = Ok args ->
  invoke get_op args (world s) = (r, w) ->
  hydrate get_op get_args item acc s
    = (Ok (acc ++ [fallback item r]), record_call get_op args w s).
Proof.
  intros Ha Hr. unfold hydrate. destruct r as [detail|code].
  - apply try_client_ok. rewrite (bind_lift_ok _ _ _ _ Ha).
    rewrite (bind_ok _ _ _ _ _ (remote_reply _ _ _ _ _ Hr)). reflexivity.
  - erewrite try_client_caught; [reflexivity|].
    rewrite (bind_lift_ok _ _ _ _ Ha).
    apply bind_raise, remote_fails, Hr.
Qed.

Lemma detail_replies_length items : forall w,
  Forall (fun item => exists args, get_args item = Ok args) items ->
  length (detail_replies get_op get_args items w) = length items.
Proof.
  induction items as [|item rest IH]; intros w Hall; [reflexivity|].
  inversion Hall as [|? ? [args Ha] Hrest]; subst. simpl. rewrite Ha.
  destruct (invoke get_op args w) as [r w']. simpl. f_equal. apply IH, Hrest.
Qed.

(** The [for item in items] loop with a detail call keeps one element
    per listed item, in order: the detail, or the listed item itself
    where the call failed. *)
Lemma hydrate_loop items : forall acc (s : exporter W),
  Forall (fun item => exists args, get_args item = Ok args) items ->
  exists s',
    for_each (hydrate get_op get_args) items acc s
      = (Ok (acc ++ zip_with fallback items
                      (detail_replies get_op get_args items (world s))), s').
Proof.
  induction items as [|item rest IH]; intros acc s Hall.
  { exists s. simpl. rewrite app_nil_r. reflexivity. }
  inversion Hall as [|? ? [args Ha] Hrest]; subst.
  destruct (invoke get_op args (world s)) as [r w] eqn:Hr.
  destruct (IH (acc ++ [fallback item r]) (record_call get_op args w s) Hrest)
    as [s' Hloop].
  exists s'. cbn [for_each].
  rewrite (bind_ok _ _ _ _ _ (hydrate_kept item acc s args r w Ha Hr)).
  rewrite Hloop. cbn [detail_replies]. rewrite Ha, Hr. simpl.
  rewrite <- app_assoc. reflexivity.
Qed.

Lemma fallback_at items replies i item code :
  items !! i = Some item -> replies !! i = Some (Fails code) ->
  zip_with fallback items replies !! i = Some item.
Proof.
  intros Hi Hr. rewrite lookup_zip_with, Hi. simpl. rewrite Hr. reflexivity.
Qed.

End Loop.

Section Pages.
Context {W : Type} `{Remote W}.
Variables (list_op : op) (params : dict) (items_key : string)
          (body : value -> list value -> Run W (list value)).

(** One turn of the [while True] loop after the list call answered. *)
Lemma pages_turn fuel acc token (s : exporter W) response w items :
  invoke list_op (with_token params token) (world s) = (Reply response, w) ->
  py_iter (dict_get response items_key (VList [])) = Ok items ->
  pages (S fuel) list_op params items_key body acc token s
    = bind (for_each body items acc)
        (fun acc' =>
           if truthy (dict_get response "nextToken" VNone)
           then pages fuel list_op params items_key body acc'
                  (dict_get response "nextToken" VNone)
           else ret acc')
        (record_call list_op (with_token params token) w s).
Proof.
  intros Hr Hitems. cbn [pages].
  rewrite (bind_ok _ _ _ _ _ (remote_reply _ _ _ _ _ Hr)).
  rewrite (bind_lift_ok _ _ _ _ Hitems). reflexivity.
Qed.

(** A failed list call, on whatever page, leaves the loop with the
    [ClientError]. *)
Lemma pages_list_fails fuel acc token (s : exporter W) code w :
  invoke list_op (with_token params token) (world s) = (Fails code, w) ->
  pages (S fuel) list_op params items_key body acc token s
    = (Raise (ClientError code),
       record_call list_op (with_token params token) w s).
Proof.
  intros Hr. cbn [pages]. apply bind_raise, remote_fails, Hr.
Qed.

(** ... and the collector's [except ClientError: return []] turns it
    into the empty list, dropping what earlier pages gave. *)
Lemma collector_list_fails fuel acc token (s : exporter W) code w :
  invoke list_op (with_token params token) (world s) = (Fails code, w) ->
  try_client (pages (S fuel) list_op params items_key body acc token)
             (fun _ => ret []) s
    = (Ok [], record_call list_op (with_token params token) w s).
Proof.
  intros Hr.
  rewrite (try_client_caught _ _ _ _ _ (pages_list_fails fuel acc token s code w Hr)).
  reflexivity.
Qed.

End Pages.

Section OnePage.
Context {W : Type} `{Remote W}.

Lemma has_key_item k item :
  has_key k item = true -> exists v, py_item item k = Ok v.
Proof.
  destruct item; simpl; try discriminate.
  destruct (dict_find k d); [eauto | discriminate].
Qed.

Lemma all_have_args (get_args : value -> outcome dict) k items :
  (forall item, has_key k item = true -> exists args, get_args item = Ok args) ->
  forallb (has_key k) items = true ->
  Forall (fun item => exists args, get_args item = Ok args) items.
Proof.
  intros Hargs Hall. apply Forall_forall. intros item Hin.
  apply Hargs. rewrite forallb_forall in Hall. apply Hall.
  apply list_elem_of_In, Hin.
Qed.

(** A listing of one page, hydrated: the collector returns one element
    per listed item. *)
Lemma collector_one_page list_op params items_key get_op get_args
    fuel (s : exporter W) response w items :
  invoke list_op params (world s) = (Reply response, w) ->
  dict_get response items_key (VList []) = VList items ->
  truthy (dict_get response "nextToken" VNone) = false ->
  Forall (fun item => exists args, get_args item = Ok args) items ->
  exists s',
    try_client (pages (S fuel) list_op params items_key
                  (hydrate get_op get_args) [] VNone)
               (fun _ => ret []) s
      = (Ok (zip_with fallback items (detail_replies get_op get_args items w)), s').
Proof.
  intros Hr Hitems Hlast Hall.
  destruct (hydrate_loop get_op get_args items []
              (record_call list_op params w s) Hall) as [s' Hloop].
  exists s'. apply try_client_ok.
  rewrite (pages_turn list_op params items_key _ fuel [] VNone s response w items);
    [| exact Hr | rewrite Hitems; reflexivity].
  rewrite (bind_ok _ _ _ _ _ Hloop). rewrite Hlast. reflexivity.
Qed.

Lemma global_item_args app item :
  has_key "libraryItemId" item = true ->
  exists args, Global.get_library_item_args app item = Ok args.
Proof.
  intros Hk. destruct (has_key_item _ _ Hk) as [id Hid].
  unfold Global.get_library_item_args. rewrite Hid. simpl. eauto.
Qed.

Lemma qapps_info_item_args app item :
  has_key "libraryItemId" item = true ->
  exists args, QAppsInfo.get_library_item_args app item = Ok args.
Proof. exact (global_item_args app item). Qed.

(** C4.  When the detail call fails for a listed item, the item
    itself is appended in its place.  For the [for item in items] loop
    of any page (any [acc]), and for [get_qapps] and
    [get_qapps_for_application] on a listing of one page: the result
    has one element per listed item, in order, and the element at the
    position of a failed detail call is the listed item. *)
Theorem detail_failure_keeps_summary app items :
  forallb (has_key "libraryItemId") items = true ->
  (forall acc (s : exporter W),
     let replies := detail_replies GetLibraryItem
                      (Global.get_library_item_args app) items (world s) in
     let kept := zip_with fallback items replies in
     (exists s',
        for_each (hydrate GetLibraryItem (Global.get_library_item_args app))
          items acc s = (Ok (acc ++ kept), s'))
     /\ length kept = length items
     /\ (forall i item code,
           items !! i = Some item -> replies !! i = Some (Fails code) ->
           kept !! i = Some item))
  /\ (forall fuel (s : exporter W) response w,
       invoke ListLibraryItems [("instanceId", app); ("limit", VInt 100)] (world s)
         = (Reply response, w) ->
       dict_get response "libraryItems" (VList []) = VList items ->
       truthy (dict_get response "nextToken" VNone) = false ->
       exists s',
         Global.get_qapps (S fuel) app s
           = (Ok (zip_with fallback items
                    (detail_replies GetLibraryItem
                       (Global.get_library_item_args app) items w)), s'))
  /\ (forall fuel (s : exporter W) retrieval max_limit response w,
       py_get (config s) "retrieval" (VDict []) = Ok retrieval ->
       py_get retrieval "max_qapps_per_page" (VInt 100) = Ok max_limit ->
       invoke ListLibraryItems [("instanceId", app); ("limit", max_limit)] (world s)
         = (Reply response, w) ->
       dict_get response "libraryItems" (VList []) = VList items ->
       truthy (dict_get response "nextToken" VNone) = false ->
       exists s',
         QAppsInfo.get_qapps_for_application (S fuel) app s
           = (Ok (zip_with fallback items
                    (detail_replies GetLibraryItem
                       (QAppsInfo.get_library_item_args app) items w)), s')).
Proof.
  intros Hkeys.
  pose proof (all_have_args _ _ _ (global_item_args app) Hkeys) as Hall.
  split; [|split].
  - intros acc s replies kept. split; [|split].
    + apply hydrate_loop, Hall.
    + unfold kept, replies. rewrite length_zip_with.
      rewrite (detail_replies_length _ _ _ _ Hall). lia.
    + intros i item code. apply fallback_at.
  - intros fuel s response w Hr Hitems Hlast.
    apply (collector_one_page _ _ _ _ _ fuel s response w items Hr Hitems Hlast Hall).
  - intros fuel s retrieval max_limit response w Hcfg Hmax Hr Hitems Hlast.
    destruct (collector_one_page ListLibraryItems
                [("instanceId", app); ("limit", max_limit)] "libraryItems"
                GetLibraryItem (QAppsInfo.get_library_item_args app)
                fuel s response w items Hr Hitems Hlast Hall) as [s' Hrun].
    exists s'. unfold QAppsInfo.get_qapps_for_application.
    unfold try_client in *. unfold bind at 1. unfold self.
    rewrite (bind_lift_ok _ _ _ _ Hcfg), (bind_lift_ok _ _ _ _ Hmax).
    exact Hrun.
Qed.

(** C7.  A failed list call makes the collector return the empty list,
    not raise: stated for [get_qapps] of the enhanced exporter and
    [get_retrievers] of the global one, on the first page and (with
    [acc] and [token] free) on any later page; and the caller
    [export_all_data] goes on with the other fetches of the
    application as for a parent without Q Apps. *)
Theorem list_failure_yields_empty fuel app (s : exporter W) code w :
  (invoke ListLibraryItems [("instanceId", app); ("limit", VInt 100)] (world s)
     = (Fails code, w) ->
   Enhanced.get_qapps (S fuel) app s
     = (Ok [], record_call ListLibraryItems
                 [("instanceId", app); ("limit", VInt 100)] w s)
   /\ forall include_empty parent index_id all_data,
        bind (Enhanced.get_qapps (S fuel) app)
             (fun qapps => Enhanced.after_qapps fuel include_empty parent app
                             index_id qapps all_data) s
        = Enhanced.after_qapps fuel include_empty parent app index_id [] all_data
            (record_call ListLibraryItems
               [("instanceId", app); ("limit", VInt 100)] w s))
  /\ (forall acc token,
       let params := [("instanceId", app); ("limit", VInt 100)] in
       invoke ListLibraryItems (with_token params token) (world s) = (Fails code, w) ->
       try_client (pages (S fuel) ListLibraryItems params "libraryItems" keep acc token)
                  (fun _ => ret []) s
         = (Ok [], record_call ListLibraryItems (with_token params token) w s))
  /\ (forall acc token,
       let params := [("applicationId", app); ("maxResults", VInt 50)] in
       invoke ListRetrievers (with_token params token) (world s) = (Fails code, w) ->
       try_client (pages (S fuel) ListRetrievers params "retrievers"
                     (hydrate GetRetriever (Global.get_retriever_args app)) acc token)
                  (fun _ => ret []) s
         = (Ok [], record_call ListRetrievers (with_token params token) w s))
  /\ (invoke ListRetrievers [("applicationId", app); ("maxResults", VInt 50)] (world s)
       = (Fails code, w) ->
     Global.get_retrievers (S fuel) app s
       = (Ok [], record_call ListRetrievers
                   [("applicationId", app); ("maxResults", VInt 50)] w s)).
Proof.
  split; [|split; [|split]].
  - intros Hr.
    pose proof (collector_list_fails ListLibraryItems
                  [("instanceId", app); ("limit", VInt 100)] "libraryItems" keep
                  fuel [] VNone s code w Hr) as Hrun.
    split; [exact Hrun|]. intros include_empty parent index_id all_data.
    unfold bind, Enhanced.get_qapps. rewrite Hrun. reflexivity.
  - intros acc token params Hr. eapply collector_list_fails; exact Hr.
  - intros acc token params Hr. eapply collector_list_fails; exact Hr.
  - intros Hr. apply (collector_list_fails ListRetrievers
                        [("applicationId", app); ("maxResults", VInt 50)]
                        "retrievers" _ fuel [] VNone s code w Hr).
Qed.

End OnePage.

End Collectors.

(** ** Row flattening *)

Module Flatten.
Import Shape Rows EnhancedIdentity.

Lemma gives_str_succeeds o : gives_str o -> succeeds o.
Proof. intros [s ->]. eexists; reflexivity. Qed.

Lemma absent_or_get (p : value -> bool) d k default :
  absent_or p d k = true -> p default = true -> p (dict_get d k default) = true.
Proof.
  unfold absent_or, dict_get. destruct (dict_find k d); auto.
Qed.

Lemma get_dict d k :
  dict_or_absent d k = true -> exists d', dict_get d k (VDict []) = VDict d'.
Proof.
  intros Hs. pose proof (absent_or_get is_dict d k (VDict []) Hs eq_refl) as Hd.
  destruct (dict_get d k (VDict [])); try discriminate. eauto.
Qed.

Lemma get_str d k default :
  str_or_absent d k = true -> gives_str (py_get (VDict d) k (VStr default)).
Proof.
  intros Hs. pose proof (absent_or_get is_str d k (VStr default) Hs eq_refl) as Hd.
  simpl. destruct (dict_get d k (VStr default)); try discriminate.
  eexists; reflexivity.
Qed.

Lemma record_str keys v k default :
  record_of keys v = true -> In k keys -> gives_str (py_get v k (VStr default)).
Proof.
  destruct v; simpl; try discriminate. intros Hall Hin.
  apply get_str. rewrite forallb_forall in Hall. apply Hall, Hin.
Qed.

Lemma record_is_dict keys v : record_of keys v = true -> exists d, v = VDict d.
Proof. destruct v; simpl; try discriminate. eauto. Qed.

Lemma join_strs_total sep items :
  Forall (fun v => exists s, v = VStr s) items -> succeeds (join_strs sep items).
Proof.
  induction items as [|v rest IH]; intros Hall; [eexists; reflexivity|].
  inversion Hall as [|? ? [s ->] Hrest]; subst.
  destruct (IH Hrest) as [r Hr]. simpl. rewrite Hr.
  destruct rest; eexists; reflexivity.
Qed.

Lemma map_ok_strs (f : value -> outcome value) items :
  Forall (fun x => gives_str (f x)) items ->
  exists ys, map_ok f items = Ok ys /\ Forall (fun v => exists s, v = VStr s) ys.
Proof.
  induction items as [|x rest IH]; intros Hall.
  { exists []. split; [reflexivity | constructor]. }
  inversion Hall as [|? ? [s Hs] Hrest]; subst.
  destruct (IH Hrest) as (ys & Hys & Hstr).
  exists (VStr s :: ys). simpl. rewrite Hs. simpl. rewrite Hys. simpl.
  split; [reflexivity | constructor; eauto].
Qed.

Lemma joined_total sep f items :
  Forall (fun x => gives_str (f x)) items -> gives_str (joined sep f (VList items)).
Proof.
  intros Hall. destruct (map_ok_strs f items Hall) as (ys & Hys & Hstr).
  destruct (join_strs_total sep ys Hstr) as [r Hr].
  unfold joined. simpl. rewrite Hys. simpl. rewrite Hr. simpl.
  eexists; reflexivity.
Qed.

Lemma joined_records sep keys k default items :
  forallb (record_of keys) items = true -> In k keys ->
  gives_str (joined sep (fun x => py_get x k (VStr default)) (VList items)).
Proof.
  intros Hall Hin. apply joined_total. apply Forall_forall. intros x Hx.
  apply (record_str keys); [|exact Hin].
  rewrite forallb_forall in Hall. apply Hall, list_elem_of_In, Hx.
Qed.

Lemma py_join_total sep v :
  list_of is_str v = true -> gives_str (py_join sep v).
Proof.
  destruct v; simpl; try discriminate. intros Hall.
  assert (Forall (fun v => exists s, v = VStr s) l) as Hstr.
  { apply Forall_forall. intros x Hx. rewrite forallb_forall in Hall.
    specialize (Hall x (proj1 (list_elem_of_In _ _) Hx)).
    destruct x; try discriminate. eauto. }
  destruct (join_strs_total sep l Hstr) as [r Hr].
  unfold py_join. simpl. rewrite Hr. eexists; reflexivity.
Qed.

Lemma literal_total fields :
  Forall (fun f => succeeds (snd f)) fields ->
  exists d, literal fields = Ok d /\ dict_keys d = map fst fields.
Proof.
  induction fields as [|[k e] rest IH]; intros Hall.
  { exists []. split; reflexivity. }
  inversion Hall as [|? ? [v Hv] Hrest]; subst. simpl in Hv. subst e.
  destruct (IH Hrest) as (d & Hd & Hkeys).
  exists ((k, v) :: d). simpl. rewrite Hd. simpl. rewrite Hkeys.
  split; reflexivity.
Qed.

Lemma literal_find fields d k v :
  literal fields = Ok d -> field_find k fields = Some (Ok v) ->
  dict_find k d = Some v.
Proof.
  revert d. induction fields as [|[k' e] rest IH]; intros d; [discriminate|].
  simpl. destruct e as [x| |]; simpl; try discriminate.
  destruct (literal rest) as [d'| |] eqn:Hrest; simpl; try discriminate.
  intros [= <-]. simpl. destruct (String.eqb k k').
  - intros [= ->]. reflexivity.
  - apply IH. reflexivity.
Qed.

Lemma dict_keys_set k v d : dict_keys (dict_set k v d) = key_add k (dict_keys d).
Proof.
  unfold key_add. induction d as [|[k' v'] d IH]; [reflexivity|].
  simpl. destruct (String.eqb k k') eqn:E.
  - apply String.eqb_eq in E. subst. reflexivity.
  - simpl. rewrite IH. destruct (existsb (String.eqb k) (dict_keys d)); reflexivity.
Qed.

Lemma dict_keys_update e : forall d,
  dict_keys (dict_update d e)
    = fold_left (fun ks k => key_add k ks) (dict_keys e) (dict_keys d).
Proof.
  unfold dict_update. induction e as [|[k v] e IH]; intros d; [reflexivity|].
  simpl. rewrite IH, dict_keys_set. reflexivity.
Qed.

Lemma dict_find_set k k' v d :
  dict_find k (dict_set k' v d) = if String.eqb k k' then Some v else dict_find k d.
Proof.
  induction d as [|[k0 v0] d IH]; simpl.
  - destruct (String.eqb k k'); reflexivity.
  - destruct (String.eqb k' k0) eqn:E0; simpl.
    + apply String.eqb_eq in E0. subst k0. destruct (String.eqb k k'); reflexivity.
    + destruct (String.eqb k k0) eqn:E1.
      * apply String.eqb_eq in E1. subst k0.
        rewrite String.eqb_sym, E0. reflexivity.
      * exact IH.
Qed.

Lemma dict_find_update e : forall d k,
  dict_find k (dict_update d e)
    = match dict_find k (rev e) with
      | Some v => Some v
      | None => dict_find k d
      end.
Proof.
  unfold dict_update. induction e as [|[k' v'] e IH]; intros d k; [reflexivity|].
  simpl. rewrite IH, dict_find_set.
  assert (forall (l : dict), dict_find k (l ++ [(k', v')])
            = match dict_find k l with
              | Some v => Some v
              | None => if String.eqb k k' then Some v' else None
              end) as Happ.
  { induction l as [|[k0 v0] l IHl]; simpl; [reflexivity|].
    destruct (String.eqb k k0); [reflexivity | exact IHl]. }
  rewrite Happ. destruct (dict_find k (rev e)); [reflexivity|].
  destruct (String.eqb k k'); reflexivity.
Qed.

Section DataRow.
Context {W : Type} `{Remote W}.
#[local] Arguments dict_update : simpl never.

Ltac field_ok :=
  simpl;
  first
    [ eexists; reflexivity
    | apply gives_str_succeeds; eapply joined_records; [eassumption | simpl; tauto]
    ].

Lemma categories_ok q :
  absent_or (list_of (record_of ["title"])) q "categories" = true ->
  succeeds (obind (py_get (VDict q) "categories" (VList []))
              (fun cats => joined ", " (fun cat => py_get cat "title" (VStr "")) cats)).
Proof.
  intros Hc. pose proof (absent_or_get _ q "categories" (VList []) Hc eq_refl) as Hl.
  simpl. destruct (dict_get q "categories" (VList [])); try discriminate.
  apply gives_str_succeeds. eapply joined_records; [exact Hl | simpl; tauto].
Qed.

Lemma encryption_ok d :
  dict_or_absent d "encryptionConfiguration" = true ->
  succeeds (obind (py_get (VDict d) "encryptionConfiguration" (VDict []))
              (fun e => py_get e "kmsKeyId" (VStr "AWS Managed"))).
Proof.
  intros He. destruct (get_dict d _ He) as [d' Hd']. simpl. rewrite Hd'.
  eexists; reflexivity.
Qed.

Lemma parent_dict app : parent app = true ->
  exists d, app = VDict d /\
    forallb (dict_or_absent d)
      ["attachmentsConfiguration"; "autoSubscriptionConfiguration";
       "personalizationConfiguration"; "qAppsConfiguration";
       "quickSightConfiguration"; "encryptionConfiguration"; "error"] = true
    /\ absent_or (list_of is_str) d "clientIdsForOIDC" = true.
Proof.
  destruct app; simpl; try discriminate. intros Hp.
  apply andb_prop in Hp as [H1 H2]. eauto.
Qed.

Lemma data_row_total app qapp (s : exporter W) :
  parent app = true -> app_child qapp = true ->
  exists row,
    QAppsInfo._create_data_row app qapp s = (Ok row, s)
    /\ dict_keys row = data_row_columns
    /\ (truthy qapp = false -> holds QAppsInfo.no_qapp_part row).
Proof.
  intros Hp Hq. destruct (parent_dict app Hp) as (d & -> & Hcfg & _).
  rewrite forallb_forall in Hcfg.
  assert (dict_or_absent d "encryptionConfiguration" = true) as Henc
    by (apply Hcfg; simpl; tauto).
  unfold QAppsInfo._create_data_row.
  match goal with |- context [bind (lift (literal ?fs)) _] =>
    destruct (literal_total fs) as (row0 & Hrow0 & Hkeys0) end.
  { repeat (apply Forall_cons; split; [try field_ok|]); [|constructor].
    apply encryption_ok, Henc. }
  rewrite (bind_lift_ok _ _ _ _ Hrow0).
  destruct qapp as [| ? | ? | ? | ? | ? |q]; try discriminate.
  - simpl. eexists. split; [reflexivity|]. split.
    + rewrite !dict_keys_update, Hkeys0. reflexivity.
    + intros _. repeat constructor; cbn [fst snd];
        rewrite !dict_find_update; reflexivity.
  - simpl in Hq. apply andb_prop in Hq as [Hq _]. apply andb_prop in Hq as [Hcat _].
    destruct q as [|kv q'].
    + simpl. eexists. split; [reflexivity|]. split.
      * rewrite !dict_keys_update, Hkeys0. reflexivity.
      * intros _. repeat constructor; cbn [fst snd];
          rewrite !dict_find_update; reflexivity.
    + cbn [truthy]. set (q := kv :: q') in *.
      match goal with |- context [bind (lift (literal ?fs)) _] =>
        destruct (literal_total fs) as (part & Hpart & Hkeys1) end.
      { repeat (apply Forall_cons; split; [try field_ok|]); [|constructor].
        apply categories_ok, Hcat. }
      rewrite (bind_lift_ok _ _ _ _ Hpart). simpl.
      eexists. split; [reflexivity|]. split; [|discriminate].
      rewrite !dict_keys_update, Hkeys0, Hkeys1. reflexivity.
Qed.
End DataRow.

Section GlobalRow.
Context {W : Type} `{Remote W}.
#[local] Arguments dict_update : simpl never.

Lemma controls_shape (p : value -> bool) (cc : dict) k default :
  absent_or p cc k = true -> p default = true ->
  p (if truthy (VDict cc) then dict_get cc k default else default) = true.
Proof.
  intros Ha Hd. destruct (truthy (VDict cc)); [|exact Hd].
  apply absent_or_get; assumption.
Qed.

Lemma is_dict_inv v : is_dict v = true -> exists d, v = VDict d.
Proof. destruct v; try discriminate. eauto. Qed.

Lemma hashable_get q k :
  absent_or hashable q k = true ->
  exists id key, py_get (VDict q) k (VStr "N/A") = Ok id /\ key_of id = Ok key.
Proof.
  intros Hh. pose proof (absent_or_get hashable q k (VStr "N/A") Hh eq_refl) as Hid.
  destruct (hashable_key _ Hid) as [key Hkey]. simpl. eauto.
Qed.

Lemma author_id qapp k :
  app_child qapp = true -> In k ["createdBy"; "updatedBy"] ->
  exists id key,
    when_app qapp (py_get qapp k (VStr "N/A")) (VStr "N/A") = Ok id
    /\ key_of id = Ok key
    /\ (qapp = VNone -> id = VStr "N/A").
Proof.
  intros Hq Hk. destruct qapp as [| ? | ? | ? | ? | ? |q]; try discriminate.
  - exists (VStr "N/A"), (KStr "N/A"). split; [|split]; reflexivity.
  - simpl in Hq. apply andb_prop in Hq as [Hq Hu]. apply andb_prop in Hq as [_ Hc].
    assert (absent_or hashable q k = true) as Hh.
    { simpl in Hk. destruct Hk as [<-|[<-|[]]]; assumption. }
    destruct (hashable_get q k Hh) as (id & key & Hid & Hkey).
    unfold when_app. destruct (truthy (VDict q)).
    + exists id, key. split; [|split]; [exact Hid | exact Hkey | discriminate].
    + exists (VStr "N/A"), (KStr "N/A"). split; [|split]; [reflexivity .. | discriminate].
Qed.

Lemma resolve_total store uid k (s : exporter W) :
  directory_ok -> key_of uid = Ok k ->
  exists info s1, Enhanced.get_user_details store uid s = (Ok info, s1).
Proof.
  intros Hdir Hk.
  destruct (resolve_returns store uid k s Hk (Hdir _ _)) as (info & s1 & Hrun & _).
  eauto.
Qed.

Lemma when_app_total qapp e absent :
  (truthy qapp = true -> succeeds e) -> succeeds (when_app qapp e absent).
Proof.
  unfold when_app. destruct (truthy qapp); intros He; [auto | eexists; reflexivity].
Qed.

Lemma py_len_list l : succeeds (py_len (VList l)).
Proof. eexists; reflexivity. Qed.

Lemma topic_lines_total repr items :
  forallb (record_of ["name"]) items = true ->
  gives_str (joined " | " (fun t =>
    obind (py_get t "name" (VStr "N/A")) (fun n =>
    obind (py_get t "description" (VStr "N/A")) (fun d =>
    Ok (VStr (py_str repr n +:+ ": " +:+ py_str repr d))))) (VList items)).
Proof.
  intros Hall. apply joined_total. apply Forall_forall. intros t Ht.
  rewrite forallb_forall in Hall. specialize (Hall t (proj1 (list_elem_of_In _ _) Ht)).
  destruct (record_is_dict _ _ Hall) as [d ->]. simpl. eexists; reflexivity.
Qed.

Lemma bind_lift_get {B} d k default (cont : value -> Run W B) s :
  bind (lift (py_get (VDict d) k default)) cont s = cont (dict_get d k default) s.
Proof. reflexivity. Qed.

Lemma controls_dict cc k :
  dict_or_absent cc k = true ->
  exists d', (if truthy (VDict cc) then dict_get cc k (VDict []) else VDict [])
             = VDict d'.
Proof.
  intros Hk. apply is_dict_inv. apply (controls_shape is_dict); [exact Hk | reflexivity].
Qed.

Lemma list_of_inv p v : list_of p v = true -> exists l, v = VList l /\ forallb p l = true.
Proof. destruct v; simpl; try discriminate. eauto. Qed.

Lemma get_list p d k :
  absent_or (list_of p) d k = true ->
  exists l, dict_get d k (VList []) = VList l /\ forallb p l = true.
Proof.
  intros Hk. apply list_of_inv. apply absent_or_get; [exact Hk | reflexivity].
Qed.

Ltac fields_ok :=
  repeat (apply Forall_cons; split; [cbn [snd]|]); try apply Forall_nil.

Lemma global_row_total app qapp data_sources retrievers plugins index_id cc
    (s : exporter W) :
  directory_ok ->
  parent app = true -> app_child qapp = true ->
  forallb data_source data_sources = true ->
  forallb retriever retrievers = true ->
  forallb plugin plugins = true ->
  chat_controls cc = true ->
  exists row s',
    Enhanced._create_global_row app qapp data_sources retrievers plugins
      index_id cc s = (Ok row, s')
    /\ dict_keys row = global_row_columns
    /\ (qapp = VNone -> holds no_app_columns row).
Proof.
  intros Hdir Hp Hq Hds Hrs Hps Hcc.
  destruct (parent_dict app Hp) as (d & -> & Hcfg & Hoidc).
  rewrite forallb_forall in Hcfg.
  destruct (get_dict d "attachmentsConfiguration") as [att Hatt];
    [apply Hcfg; simpl; tauto|].
  destruct (get_dict d "autoSubscriptionConfiguration") as [aut Haut];
    [apply Hcfg; simpl; tauto|].
  destruct (get_dict d "personalizationConfiguration") as [per Hper];
    [apply Hcfg; simpl; tauto|].
  destruct (get_dict d "qAppsConfiguration") as [qac Hqac];
    [apply Hcfg; simpl; tauto|].
  destruct (get_dict d "quickSightConfiguration") as [qsc Hqsc];
    [apply Hcfg; simpl; tauto|].
  destruct (get_dict d "encryptionConfiguration") as [enc Henc];
    [apply Hcfg; simpl; tauto|].
  destruct (get_dict d "error") as [err Herr]; [apply Hcfg; simpl; tauto|].
  destruct (get_list _ d _ Hoidc) as (ids & Hids & Hidstr).
  unfold chat_controls in Hcc.
  apply andb_prop in Hcc as [Hcc Htopics]. apply andb_prop in Hcc as [Hblocked Hmodes].
  rewrite forallb_forall in Hmodes.
  destruct (controls_dict cc "creatorModeConfiguration") as [cmc Hcmc];
    [apply Hmodes; simpl; tauto|].
  destruct (controls_dict cc "hallucinationReductionConfiguration") as [hrc Hhrc];
    [apply Hmodes; simpl; tauto|].
  destruct (controls_dict cc "orchestrationConfiguration") as [orc Horc];
    [apply Hmodes; simpl; tauto|].
  pose proof (controls_shape blocked_phrases cc "blockedPhrases" (VDict [])
                Hblocked eq_refl) as Hbp.
  destruct (if truthy (VDict cc) then dict_get cc "blockedPhrases" (VDict [])
            else VDict []) as [| ? | ? | ? | ? | ? |bp] eqn:Ebp; try discriminate.
  simpl in Hbp. destruct (get_list _ bp _ Hbp) as (phrases & Hphrases & Hphstr).
  pose proof (controls_shape (list_of (record_of ["name"])) cc
                "topicConfigurations" (VList []) Htopics eq_refl) as Htp.
  destruct (if truthy (VDict cc) then dict_get cc "topicConfigurations" (VList [])
            else VList []) as [| ? | ? | ? | ? | ? |?] eqn:Etp; try discriminate.
  simpl in Htp.
  destruct (author_id qapp "createdBy" Hq) as (cid & ck & Hcid & Hck & Hcna);
    [simpl; tauto|].
  destruct (author_id qapp "updatedBy" Hq) as (uid & uk & Huid & Huk & Huna);
    [simpl; tauto|].
  assert (qapp = VNone \/ exists q, qapp = VDict q
            /\ absent_or (list_of (record_of ["title"])) q "categories" = true)
    as Hcases.
  { destruct qapp as [| ? | ? | ? | ? | ? |q]; try discriminate; [left; reflexivity|].
    right. exists q. simpl in Hq. apply andb_prop in Hq as [Hq _].
    apply andb_prop in Hq as [Hq _]. split; [reflexivity | exact Hq]. }
  clear Hq.
  unfold Enhanced._create_global_row. cbv zeta.
  rewrite !bind_lift_get.
  rewrite (bind_lift_ok _ _ _ _ Hcid), (bind_lift_ok _ _ _ _ Huid).
  unfold bind at 1. unfold self at 1.
  destruct (resolve_total (identity_store_id s) cid ck s Hdir Hck)
    as (cinfo & s1 & Hc1).
  rewrite (bind_ok _ _ _ _ _ Hc1).
  destruct (resolve_total (identity_store_id s) uid uk s1 Hdir Huk)
    as (uinfo & s2 & Hc2).
  rewrite (bind_ok _ _ _ _ _ Hc2).
  unfold bind, now_iso, self, lift.
  rewrite Ebp, Etp, Hatt, Haut, Hper, Hqac, Hqsc, Hcmc, Hhrc, Horc.
  match goal with |- context [literal ?fs] =>
    destruct (literal_total fs) as (row & Hrow & Hkeys) end.
  2:{ exists row, s2. rewrite Hrow. split; [reflexivity|]. split; [exact Hkeys|].
      intros ->. rewrite (Hcna eq_refl), (Huna eq_refl) in Hrow.
      repeat constructor; cbn [fst snd];
        apply (literal_find _ _ _ _ Hrow); reflexivity. }
  clear Hc1 Hc2 Hcid Huid.
  destruct Hcases as [-> | (q & -> & Hcat)]; fields_ok.
  all: try (unfold when_app; cbn [truthy]; eexists; reflexivity).
  all: try (apply when_app_total; intros _).
  all: try (eexists; reflexivity).
  all: try (apply gives_str_succeeds; eapply joined_records;
            [eassumption | simpl; tauto]).
  all: try (apply py_len_list).
  all: cbn [py_get obind]; rewrite ?Hphrases, ?Hids, ?Henc, ?Herr.
  all: try (eexists; reflexivity).
  all: try (destruct (get_list _ q _ Hcat) as (cats & -> & Hcats);
            apply gives_str_succeeds; eapply joined_records;
            [eassumption | simpl; tauto]).
  all: try (apply gives_str_succeeds, py_join_total; assumption).
  all: try (apply gives_str_succeeds, topic_lines_total; assumption).
Qed.
End GlobalRow.

Section Keys.
Context {W : Type} `{Remote W}.
#[local] Arguments dict_update : simpl never.

Lemma bind_inv {A B} (m : Run W A) (k : A -> Run W B) s b s' :
  bind m k s = (Ok b, s') ->
  exists a s1, m s = (Ok a, s1) /\ k a s1 = (Ok b, s').
Proof.
  unfold bind. destruct (m s) as [[a|e|] s1]; try discriminate. eauto.
Qed.

Lemma literal_keys fields d :
  literal fields = Ok d -> dict_keys d = map fst fields.
Proof.
  revert d. induction fields as [|[k e] rest IH]; intros d.
  { intros [= <-]. reflexivity. }
  simpl. destruct e as [v| |]; simpl; try discriminate.
  destruct (literal rest) as [d'| |]; simpl; try discriminate.
  intros [= <-]. simpl. rewrite (IH d' eq_refl). reflexivity.
Qed.

Lemma lift_inv {A} (o : outcome A) (s s' : exporter W) a :
  lift o s = (Ok a, s') -> o = Ok a /\ s' = s.
Proof. unfold lift. intros [= -> ->]. split; reflexivity. Qed.

(** Whatever the inputs, a row that [_create_data_row] returns has
    the 25 keys of [data_row_columns], in that order. *)
Lemma data_row_keys app qapp (s s' : exporter W) row :
  QAppsInfo._create_data_row app qapp s = (Ok row, s') ->
  dict_keys row = data_row_columns.
Proof.
  unfold QAppsInfo._create_data_row. intros Hrun.
  apply bind_inv in Hrun as (row0 & s0 & Hrow0 & Hrun).
  apply lift_inv in Hrow0 as [Hrow0 ->].
  apply bind_inv in Hrun as (part & s1 & Hpart & Hrun).
  apply lift_inv in Hpart as [Hpart ->].
  unfold bind, now_iso, self, ret in Hrun. injection Hrun as <- <-.
  apply literal_keys in Hrow0.
  assert (dict_keys part = dict_keys QAppsInfo.no_qapp_part) as Hkeys.
  { destruct (truthy qapp).
    - apply literal_keys in Hpart. rewrite Hpart. reflexivity.
    - injection Hpart as <-. reflexivity. }
  rewrite !dict_keys_update, Hrow0, Hkeys. reflexivity.
Qed.

(** Whatever the inputs, a row that [_create_global_row] returns has
    the keys of [global_row_columns], in that order. *)
Lemma global_row_keys app qapp data_sources retrievers plugins index_id cc
    (s s' : exporter W) row :
  Enhanced._create_global_row app qapp data_sources retrievers plugins
    index_id cc s = (Ok row, s') ->
  dict_keys row = global_row_columns.
Proof.
  unfold Enhanced._create_global_row. cbv zeta. intros Hrun.
  repeat (apply bind_inv in Hrun as (? & ? & _ & Hrun)).
  apply lift_inv in Hrun as [Hrow _].
  apply literal_keys in Hrow. rewrite Hrow. reflexivity.
Qed.
End Keys.

Section RowBlocks.
Context {W : Type} `{Remote W}.

Lemma global_rows_loop app data_sources retrievers plugins index_id cc qapps :
  directory_ok ->
  parent app = true ->
  forallb data_source data_sources = true ->
  forallb retriever retrievers = true ->
  forallb plugin plugins = true ->
  chat_controls cc = true ->
  forallb app_child qapps = true ->
  forall all_data (s : exporter W),
  exists rows s',
    for_each (fun qapp all_data =>
                row <- Enhanced._create_global_row app qapp data_sources
                         retrievers plugins index_id cc ;;
                ret (all_data ++ [row]))
             qapps all_data s = (Ok (all_data ++ rows), s')
    /\ length rows = length qapps
    /\ Forall (fun row => dict_keys row = global_row_columns) rows.
Proof.
  intros Hdir Hp Hds Hrs Hps Hcc.
  induction qapps as [|qapp rest IH]; intros Hq all_data s.
  { exists [], s. simpl. rewrite app_nil_r. repeat split. constructor. }
  simpl in Hq. apply andb_prop in Hq as [Hq Hrest].
  destruct (global_row_total app qapp data_sources retrievers plugins index_id
              cc s Hdir Hp Hq Hds Hrs Hps Hcc) as (row & s1 & Hrow & Hkeys & _).
  destruct (IH Hrest (all_data ++ [row]) s1) as (rows & s' & Hloop & Hlen & Hall).
  exists (row :: rows), s'. cbn [for_each].
  erewrite bind_ok; [|erewrite bind_ok; [reflexivity | exact Hrow]].
  rewrite Hloop, <- app_assoc. simpl. repeat split; [lia|].
  constructor; assumption.
Qed.

(** The rows [export_all_data] adds for one application. *)
Lemma global_rows_total include_empty app qapps data_sources retrievers plugins
    index_id cc all_data (s : exporter W) :
  directory_ok ->
  parent app = true ->
  forallb app_child qapps = true ->
  forallb data_source data_sources = true ->
  forallb retriever retrievers = true ->
  forallb plugin plugins = true ->
  chat_controls cc = true ->
  exists rows s',
    Enhanced.create_rows include_empty app qapps data_sources retrievers plugins
      index_id cc all_data s = (Ok (all_data ++ rows), s')
    /\ length rows = rows_for include_empty qapps
    /\ Forall (fun row => dict_keys row = global_row_columns) rows
    /\ (qapps = [] -> Forall (holds no_app_columns) rows).
Proof.
  intros Hdir Hp Hq Hds Hrs Hps Hcc. unfold Enhanced.create_rows.
  destruct qapps as [|qapp rest].
  - cbn [truthy rows_for]. destruct (truthy include_empty).
    + destruct (global_row_total app VNone data_sources retrievers plugins
                  index_id cc s Hdir Hp eq_refl Hds Hrs Hps Hcc)
        as (row & s' & Hrow & Hkeys & Hnone).
      exists [row], s'. rewrite (bind_ok _ _ _ _ _ Hrow).
      split; [reflexivity|]. split; [reflexivity|].
      split; [constructor; [exact Hkeys | constructor]|].
      intros _. constructor; [apply Hnone; reflexivity | constructor].
    + exists [], s. rewrite app_nil_r. repeat split; constructor.
  - cbn [truthy rows_for].
    destruct (global_rows_loop app data_sources retrievers plugins index_id cc
                (qapp :: rest) Hdir Hp Hds Hrs Hps Hcc Hq all_data s)
      as (rows & s' & Hloop & Hlen & Hall).
    exists rows, s'. repeat split; try assumption. discriminate.
Qed.

Lemma data_rows_loop app qapps :
  parent app = true ->
  forallb app_child qapps = true ->
  forall all_data (s : exporter W),
  exists rows,
    for_each (fun qapp all_data =>
                row <- QAppsInfo._create_data_row app qapp ;;
                ret (all_data ++ [row]))
             qapps all_data s = (Ok (all_data ++ rows), s)
    /\ length rows = length qapps
    /\ Forall (fun row => dict_keys row = data_row_columns) rows.
Proof.
  intros Hp. induction qapps as [|qapp rest IH]; intros Hq all_data s.
  { exists []. simpl. rewrite app_nil_r. repeat split. constructor. }
  simpl in Hq. apply andb_prop in Hq as [Hq Hrest].
  destruct (data_row_total app qapp s Hp Hq) as (row & Hrow & Hkeys & _).
  destruct (IH Hrest (all_data ++ [row]) s) as (rows & Hloop & Hlen & Hall).
  exists (row :: rows). cbn [for_each].
  erewrite bind_ok; [|erewrite bind_ok; [reflexivity | exact Hrow]].
  rewrite Hloop, <- app_assoc. simpl. repeat split; [lia|].
  constructor; assumption.
Qed.

(** The rows [retrieve_all_data] adds for one application. *)
Lemma data_rows_total include_empty app qapps all_data (s : exporter W) :
  parent app = true ->
  forallb app_child qapps = true ->
  exists rows,
    QAppsInfo.create_rows include_empty app qapps all_data s
      = (Ok (all_data ++ rows), s)
    /\ length rows = rows_for include_empty qapps
    /\ Forall (fun row => dict_keys row = data_row_columns) rows
    /\ (qapps = [] -> Forall (holds QAppsInfo.no_qapp_part) rows).
Proof.
  intros Hp Hq. unfold QAppsInfo.create_rows.
  destruct qapps as [|qapp rest].
  - cbn [truthy rows_for]. destruct (truthy include_empty).
    + destruct (data_row_total app VNone s Hp eq_refl) as (row & Hrow & Hkeys & Hnone).
      exists [row]. rewrite (bind_ok _ _ _ _ _ Hrow).
      split; [reflexivity|]. split; [reflexivity|].
      split; [constructor; [exact Hkeys | constructor]|].
      intros _. constructor; [apply Hnone; reflexivity | constructor].
    + exists []. rewrite app_nil_r. repeat split; constructor.
  - cbn [truthy rows_for].
    destruct (data_rows_loop app (qapp :: rest) Hp Hq all_data s)
      as (rows & Hloop & Hlen & Hall).
    exists rows. repeat split; try assumption. discriminate.
Qed.

(** C1.  For an application with the app-children [qapps], the row
    block of [export_all_data] and of [retrieve_all_data] appends
    exactly [length qapps] rows; with no app-children it appends one
    row, holding the placeholders of the app fields, when
    [include_empty_apps] is on, and nothing when it is off. *)
Theorem one_row_per_app_child include_empty app qapps data_sources retrievers
    plugins index_id cc all_data (s : exporter W) :
  directory_ok ->
  parent app = true ->
  forallb app_child qapps = true ->
  forallb data_source data_sources = true ->
  forallb retriever retrievers = true ->
  forallb plugin plugins = true ->
  chat_controls cc = true ->
  (exists rows s',
     Enhanced.create_rows include_empty app qapps data_sources retrievers
       plugins index_id cc all_data s = (Ok (all_data ++ rows), s')
     /\ length rows = match qapps with
                      | [] => if truthy include_empty then 1 else 0
                      | _ :: _ => length qapps
                      end
     /\ (qapps = [] -> Forall (holds no_app_columns) rows))
  /\ (exists rows,
       QAppsInfo.create_rows include_empty app qapps all_data s
         = (Ok (all_data ++ rows), s)
       /\ length rows = match qapps with
                        | [] => if truthy include_empty then 1 else 0
                        | _ :: _ => length qapps
                        end
       /\ (qapps = [] -> Forall (holds QAppsInfo.no_qapp_part) rows)).
Proof.
  intros Hdir Hp Hq Hds Hrs Hps Hcc. split.
  - destruct (global_rows_total include_empty app qapps data_sources retrievers
                plugins index_id cc all_data s Hdir Hp Hq Hds Hrs Hps Hcc)
      as (rows & s' & Hrun & Hlen & _ & Hnone).
    exists rows, s'. auto.
  - destruct (data_rows_total include_empty app qapps all_data s Hp Hq)
      as (rows & Hrun & Hlen & _ & Hnone).
    exists rows. auto.
Qed.

Lemma absent_global_row_run (s : exporter W) :
  sentinel_ok s ->
  exists s',
    Enhanced._create_global_row (VDict []) VNone [] [] [] VNone [] s
      = (Ok (absent_global_row (identity_store_id s) (VStr (clock (world s)))
               (aws_region s) (expected_account s)), s')
    /\ world s' = world s /\ calls s' = calls s.
Proof.
  intros Hs. unfold Enhanced._create_global_row. cbv zeta.
  rewrite !bind_lift_get.
  rewrite !(bind_lift_ok (when_app VNone _ _) _ _ (VStr "N/A") eq_refl).
  unfold bind at 1. unfold self at 1.
  assert (negb (truthy (identity_store_id s)) || str_eq (VStr "N/A") "N/A" = true)
    as Hskip by apply orb_true_r.
  destruct Hs as [Hnone|Hsome].
  - rewrite (bind_ok _ _ _ _ _
               (resolve_skip _ (VStr "N/A") (KStr "N/A") s eq_refl Hnone Hskip)).
    erewrite bind_ok;
      [|apply (resolve_hit _ (VStr "N/A") (KStr "N/A") (Enhanced.placeholder (VStr "N/A")));
        [reflexivity | apply lookup_insert_eq]].
    eexists. split; [reflexivity | split; reflexivity].
  - rewrite (bind_ok _ _ _ _ _
               (resolve_hit _ (VStr "N/A") (KStr "N/A") _ s eq_refl Hsome)).
    rewrite (bind_ok _ _ _ _ _
               (resolve_hit _ (VStr "N/A") (KStr "N/A") _ s eq_refl Hsome)).
    eexists. split; [reflexivity | split; reflexivity].
Qed.

(** C8, amended.  Row flattening returns a row, with the fixed
    columns, for every tuple whose fields, where present, have the
    shapes the service documents (nested configurations are objects,
    collections are lists of objects with string attributes, author
    ids are scalars) and a directory that answers in shape; and for
    the tuple with nothing in it the row holds the placeholder in
    every field read from the tuple, next to the exporter's own
    identity store id, clock, region and account. *)
Theorem flattening_total_on_shaped_input app qapp data_sources retrievers
    plugins index_id cc (s : exporter W) :
  (directory_ok ->
   parent app = true -> app_child qapp = true ->
   forallb data_source data_sources = true ->
   forallb retriever retrievers = true ->
   forallb plugin plugins = true ->
   chat_controls cc = true ->
   (exists row s',
      Enhanced._create_global_row app qapp data_sources retrievers plugins
        index_id cc s = (Ok row, s')
      /\ dict_keys row = global_row_columns)
   /\ (exists row,
        QAppsInfo._create_data_row app qapp s = (Ok row, s)
        /\ dict_keys row = data_row_columns))
  /\ (sentinel_ok s ->
      exists s',
        Enhanced._create_global_row (VDict []) VNone [] [] [] VNone [] s
          = (Ok (absent_global_row (identity_store_id s) (VStr (clock (world s)))
                   (aws_region s) (expected_account s)), s'))
  /\ QAppsInfo._create_data_row (VDict []) VNone s
      = (Ok (absent_data_row (VStr (clock (world s))) (aws_region s)
               (expected_account s)), s).
Proof.
  split; [|split].
  - intros Hdir Hp Hq Hds Hrs Hps Hcc. split.
    + destruct (global_row_total app qapp data_sources retrievers plugins
                  index_id cc s Hdir Hp Hq Hds Hrs Hps Hcc)
        as (row & s' & Hrow & Hkeys & _).
      exists row, s'. auto.
    + destruct (data_row_total app qapp s Hp Hq) as (row & Hrow & Hkeys & _).
      exists row. auto.
  - intros Hs. destruct (absent_global_row_run s Hs) as (s' & Hrun & _).
    exists s'. exact Hrun.
  - reflexivity.
Qed.

End RowBlocks.

(** C8, as stated, fails: an application whose [encryptionConfiguration]
    is present but null makes both flatteners raise [AttributeError]
    (the [.get] chained on it); so does any nested field that is
    present with another type than the code expects. *)
Lemma flattening_raises_on_null_configuration :
  fst (Enhanced._create_global_row
         (VDict [("encryptionConfiguration", VNone)]) VNone [] [] [] VNone []
         Demo.start) = Raise AttributeError
  /\ fst (QAppsInfo._create_data_row
            (VDict [("encryptionConfiguration", VNone)]) VNone Demo.start)
     = Raise AttributeError.
Proof. split; vm_compute; reflexivity. Qed.

End Flatten.

(** ** CSV export *)

Module Csv.
Import Shape Rows Flatten.




Lemma section_get d k x : section d k = Some x -> dict_get d k (VDict []) = VDict x.
Proof.
  unfold section. destruct (dict_get d k (VDict [])); try discriminate.
  intros [= ->]. reflexivity.
Qed.





Section Writer.
Context {W : Type} `{Remote W} `{Codecs}.


End Writer.


End Csv.

(** ** Aggregation over the applications *)

Module Aggregation.
Import Shape Rows Paged Collectors Flatten.

Section FailedFetch.
Context {W : Type} `{Remote W}.

Lemma enhanced_empty_listing fuel app (s : exporter W) response w :
  invoke ListLibraryItems [("instanceId", app); ("limit", VInt 100)] (world s)
    = (Reply response, w) ->
  dict_get response "libraryItems" (VList []) = VList [] ->
  truthy (dict_get response "nextToken" VNone) = false ->
  Enhanced.get_qapps (S fuel) app s
    = (Ok [], record_call ListLibraryItems
                [("instanceId", app); ("limit", VInt 100)] w s).
Proof.
  intros Hr Hitems Hlast. unfold Enhanced.get_qapps. apply try_client_ok.
  rewrite (pages_turn _ _ _ _ fuel [] VNone s response w []);
    [| exact Hr | rewrite Hitems; reflexivity].
  cbn [for_each]. unfold bind, ret. rewrite Hlast. reflexivity.
Qed.

Lemma qapps_info_fetch_empty fuel app (s : exporter W) r w :
  default_page_size s ->
  invoke ListLibraryItems [("instanceId", app); ("limit", VInt 100)] (world s)
    = (r, w) ->
  match r with
  | Fails _ => True
  | Reply response =>
      dict_get response "libraryItems" (VList []) = VList []
      /\ truthy (dict_get response "nextToken" VNone) = false
  end ->
  QAppsInfo.get_qapps_for_application (S fuel) app s
    = (Ok [], record_call ListLibraryItems
                [("instanceId", app); ("limit", VInt 100)] w s).
Proof.
  intros (retrieval & Hcfg & Hmax) Hr Hshape.
  unfold QAppsInfo.get_qapps_for_application.
  destruct r as [response|code].
  - destruct Hshape as [Hitems Hlast]. apply try_client_ok.
    unfold bind at 1. unfold self.
    rewrite (bind_lift_ok _ _ _ _ Hcfg), (bind_lift_ok _ _ _ _ Hmax).
    rewrite (pages_turn _ _ _ _ fuel [] VNone s response w []);
      [| exact Hr | rewrite Hitems; reflexivity].
    cbn [for_each]. unfold bind, ret. rewrite Hlast. reflexivity.
  - erewrite try_client_caught; [reflexivity|].
    unfold bind at 1. unfold self.
    rewrite (bind_lift_ok _ _ _ _ Hcfg), (bind_lift_ok _ _ _ _ Hmax).
    apply pages_list_fails. exact Hr.
Qed.

(** C10.  A failed list call and a listing with no items give the
    same value, the empty list, in both classes; the row block then
    sees no difference: with [include_empty_apps] on it appends one
    row holding the placeholders of the app fields, with it off it
    appends nothing. *)
Theorem failed_fetch_same_as_no_apps fuel app_id (s1 s2 : exporter W)
    code w1 response w2 :
  let params := [("instanceId", app_id); ("limit", VInt 100)] in
  invoke ListLibraryItems params (world s1) = (Fails code, w1) ->
  invoke ListLibraryItems params (world s2) = (Reply response, w2) ->
  dict_get response "libraryItems" (VList []) = VList [] ->
  truthy (dict_get response "nextToken" VNone) = false ->
  (Enhanced.get_qapps (S fuel) app_id s1
     = (Ok [], record_call ListLibraryItems params w1 s1)
   /\ Enhanced.get_qapps (S fuel) app_id s2
      = (Ok [], record_call ListLibraryItems params w2 s2))
  /\ (default_page_size s1 -> default_page_size s2 ->
      QAppsInfo.get_qapps_for_application (S fuel) app_id s1
        = (Ok [], record_call ListLibraryItems params w1 s1)
      /\ QAppsInfo.get_qapps_for_application (S fuel) app_id s2
         = (Ok [], record_call ListLibraryItems params w2 s2))
  /\ (forall include_empty app data_sources retrievers plugins index_id cc
             all_data (s : exporter W),
        directory_ok -> parent app = true ->
        forallb data_source data_sources = true ->
        forallb retriever retrievers = true ->
        forallb plugin plugins = true ->
        chat_controls cc = true ->
        exists rows s',
          Enhanced.create_rows include_empty app [] data_sources retrievers
            plugins index_id cc all_data s = (Ok (all_data ++ rows), s')
          /\ length rows = (if truthy include_empty then 1 else 0)
          /\ Forall (holds no_app_columns) rows)
  /\ (forall include_empty app all_data (s : exporter W),
        parent app = true ->
        exists rows,
          QAppsInfo.create_rows include_empty app [] all_data s
            = (Ok (all_data ++ rows), s)
          /\ length rows = (if truthy include_empty then 1 else 0)
          /\ Forall (holds QAppsInfo.no_qapp_part) rows).
Proof.
  intros params Hfail Hreply Hitems Hlast. split; [|split; [|split]].
  - split.
    + apply (collector_list_fails ListLibraryItems params "libraryItems" keep
               fuel [] VNone s1 code w1 Hfail).
    + apply (enhanced_empty_listing fuel app_id s2 response w2 Hreply Hitems Hlast).
  - intros Hc1 Hc2. split.
    + apply (qapps_info_fetch_empty fuel app_id s1 (Fails code) w1 Hc1 Hfail I).
    + apply (qapps_info_fetch_empty fuel app_id s2 (Reply response) w2 Hc2 Hreply
               (conj Hitems Hlast)).
  - intros include_empty app data_sources retrievers plugins index_id cc
      all_data s Hdir Hp Hds Hrs Hps Hcc.
    destruct (global_rows_total include_empty app [] data_sources retrievers
                plugins index_id cc all_data s Hdir Hp eq_refl Hds Hrs Hps Hcc)
      as (rows & s' & Hrun & Hlen & _ & Hnone).
    exists rows, s'. split; [exact Hrun|]. split; [exact Hlen | apply Hnone; reflexivity].
  - intros include_empty app all_data s Hp.
    destruct (data_rows_total include_empty app [] all_data s Hp eq_refl)
      as (rows & Hrun & Hlen & _ & Hnone).
    exists rows. split; [exact Hrun|]. split; [exact Hlen | apply Hnone; reflexivity].
Qed.

(** When IAM Identity Center has nothing to return, the discovery
    block calls [list_instances] and leaves [identity_store_id]
    unset, so the block of the next application calls again. *)
Lemma discovery_not_kept_when_empty app (s : exporter W) arn r w :
  truthy (identity_store_id s) = false ->
  py_get app "identityType" VNone = Ok (VStr "AWS_IAM_IDC") ->
  py_get app "identityCenterApplicationArn" VNone = Ok arn ->
  truthy arn = true ->
  invoke ListInstances [] (world s) = (r, w) ->
  match r with
  | Fails _ => True
  | Reply response => truthy (dict_get response "Instances" VNone) = false
  end ->
  Enhanced.discover_identity_store app s
    = (Ok tt, store_identity_store_id VNone (record_call ListInstances [] w s)).
Proof.
  intros Hstore Htype Harn Htruthy Hr Hnone.
  unfold Enhanced.discover_identity_store. unfold bind at 1. unfold self.
  rewrite Hstore. cbn [negb].
  rewrite (bind_lift_ok _ _ _ _ Htype).
  change (str_eq (VStr "AWS_IAM_IDC") "AWS_IAM_IDC") with true. cbv iota.
  rewrite (bind_lift_ok _ _ _ _ Harn). rewrite Htruthy.
  assert (Enhanced.get_identity_store_id arn s
            = (Ok VNone, record_call ListInstances [] w s)) as Hfound.
  { unfold Enhanced.get_identity_store_id. destruct r as [response|code].
    - apply try_client_ok.
      rewrite (bind_ok _ _ _ _ _ (remote_reply _ _ _ _ _ Hr)).
      rewrite Hnone. reflexivity.
    - erewrite try_client_caught; [reflexivity|].
      apply bind_raise, remote_fails, Hr. }
  rewrite (bind_ok _ _ _ _ _ Hfound). reflexivity.
Qed.

End FailedFetch.

(** C5 fails on the code: in the demo account, where both applications
    use IAM Identity Center and [list_instances] returns no instance,
    one run of [export_all_data] calls [list_instances] twice, once per
    application, and still exports its three rows. *)
Lemma discovery_repeated_when_nothing_found :
  count_calls ListInstances (calls (snd (Enhanced.export_all_data 3 Demo.start))) = 2
  /\ (exists rows, fst (Enhanced.export_all_data 3 Demo.start) = Ok rows
                   /\ length rows = 3).
Proof.
  split; [vm_compute; reflexivity|].
  eexists. split; [vm_compute; reflexivity | reflexivity].
Qed.

End Aggregation.

(** ** The statements at work on the demo account *)

Module Scenarios.
Import Shape Rows Paged Words.

Lemma demo_directory_ok : @directory_ok nat Demo.service.
Proof.
  intros args w. simpl.
  destruct (str_eq (dict_get args "UserId" VNone) "user-1"); reflexivity.
Defined.

Lemma one_row_per_app_child_witness :
  (exists rows s',
     Enhanced.create_rows (VBool true) Demo.alpha
       [Demo.library_item "q1" "user-1"; Demo.library_item "q2" "user-1"]
       [] [] [] VNone Demo.alpha_controls [] Demo.start = (Ok ([] ++ rows), s')
     /\ length rows = 2
     /\ ([Demo.library_item "q1" "user-1"; Demo.library_item "q2" "user-1"] = [] ->
         Forall (holds no_app_columns) rows))
  /\ (exists rows,
       QAppsInfo.create_rows (VBool true) Demo.alpha
         [Demo.library_item "q1" "user-1"; Demo.library_item "q2" "user-1"]
         [] Demo.start = (Ok ([] ++ rows), Demo.start)
       /\ length rows = 2
       /\ ([Demo.library_item "q1" "user-1"; Demo.library_item "q2" "user-1"] = [] ->
           Forall (holds QAppsInfo.no_qapp_part) rows)).
Proof.
  apply (Flatten.one_row_per_app_child (VBool true) Demo.alpha
           [Demo.library_item "q1" "user-1"; Demo.library_item "q2" "user-1"]
           [] [] [] VNone Demo.alpha_controls [] Demo.start);
    [exact demo_directory_ok | reflexivity ..].
Defined.

Lemma get_user_details_idempotent_witness :
  exists info s1,
    Enhanced.get_user_details (VStr "d-9067") (VStr "user-1") Demo.start = (Ok info, s1)
    /\ Enhanced.get_user_details (VStr "d-9067") (VStr "user-1") s1 = (Ok info, s1)
    /\ count_calls DescribeUser (calls s1)
         <= count_calls DescribeUser (calls Demo.start) + 1.
Proof.
  apply (EnhancedIdentity.get_user_details_idempotent
           (VStr "d-9067") (VStr "user-1") Demo.start); reflexivity.
Defined.

Lemma get_user_details_on_miss_witness :
  Enhanced.get_user_details VNone (VStr "user-1") Demo.start
    = (Ok (Enhanced.placeholder (VStr "user-1")),
       store_user (KStr "user-1") (Enhanced.placeholder (VStr "user-1")) Demo.start).
Proof.
  apply (EnhancedIdentity.get_user_details_on_miss
           VNone (VStr "user-1") (KStr "user-1") Demo.start);
    [reflexivity | reflexivity | left; reflexivity].
Defined.

Lemma detail_failure_keeps_summary_witness :
  let replies := detail_replies GetLibraryItem
                   (Global.get_library_item_args (VStr "app-five"))
                   Demo.five_items (world Demo.start) in
  let kept := zip_with fallback Demo.five_items replies in
  (exists s',
     for_each (hydrate GetLibraryItem (Global.get_library_item_args (VStr "app-five")))
       Demo.five_items [] Demo.start = (Ok ([] ++ kept), s'))
  /\ length kept = length Demo.five_items
  /\ (forall i item code,
        Demo.five_items !! i = Some item -> replies !! i = Some (Fails code) ->
        kept !! i = Some item).
Proof.
  apply (proj1 (Collectors.detail_failure_keeps_summary
                  (VStr "app-five") Demo.five_items eq_refl)).
Defined.

Lemma list_failure_yields_empty_witness :
  Enhanced.get_qapps 1 (VStr "app-denied") Demo.start
    = (Ok [], record_call ListLibraryItems
                [("instanceId", VStr "app-denied"); ("limit", VInt 100)] 1 Demo.start).
Proof.
  apply (proj1 (Collectors.list_failure_yields_empty 0 (VStr "app-denied")
                  Demo.start "AccessDeniedException" 1)).
  reflexivity.
Defined.

Lemma user_cache_keyed_by_principal_witness :
  exists info s1,
    Enhanced.get_user_details VNone (VStr "user-1") Demo.start = (Ok info, s1)
    /\ (forall d2 (s2 : exporter nat),
          user_cache s2 !! KStr "user-1" = user_cache s1 !! KStr "user-1" ->
          Enhanced.get_user_details d2 (VStr "user-1") s2 = (Ok info, s2))
    /\ (user_cache Demo.start !! KStr "user-1" = None -> truthy VNone = false ->
        info = Enhanced.placeholder (VStr "user-1")).
Proof.
  apply (EnhancedIdentity.user_cache_keyed_by_principal
           VNone (VStr "user-1") (KStr "user-1") Demo.start); reflexivity.
Defined.

Lemma failed_fetch_same_as_no_apps_witness :
  Enhanced.get_qapps 1 (VStr "app-denied") Demo.start
    = (Ok [], record_call ListLibraryItems
                [("instanceId", VStr "app-denied"); ("limit", VInt 100)] 1 Demo.start)
  /\ Enhanced.get_qapps 1 (VStr "app-denied") Demo.later
     = (Ok [], record_call ListLibraryItems
                 [("instanceId", VStr "app-denied"); ("limit", VInt 100)] 101 Demo.later).
Proof.
  refine (proj1 (Aggregation.failed_fetch_same_as_no_apps 0 (VStr "app-denied")
                   Demo.start Demo.later "AccessDeniedException" 1
                   [("libraryItems", VList [])] 101 _ _ _ _));
    reflexivity.
Defined.


Lemma flattening_total_on_shaped_input_witness :
  (exists row s',
     Enhanced._create_global_row Demo.alpha (Demo.library_item "q1" "user-1")
       [] [] [] VNone Demo.alpha_controls Demo.start = (Ok row, s')
     /\ dict_keys row = global_row_columns)
  /\ (exists row,
       QAppsInfo._create_data_row Demo.alpha (Demo.library_item "q1" "user-1")
         Demo.start = (Ok row, Demo.start)
       /\ dict_keys row = data_row_columns).
Proof.
  apply (proj1 (Flatten.flattening_total_on_shaped_input Demo.alpha
                  (Demo.library_item "q1" "user-1") [] [] [] VNone
                  Demo.alpha_controls Demo.start));
    [exact demo_directory_ok | reflexivity ..].
Defined.

(** The scenario of the specification for the collector: five listed
    items, the detail call of the third refused; five items come back
    and the third is the listed one. *)
Example five_listed_third_refused :
  exists kept,
    fst (Global.get_qapps 1 (VStr "app-five") Demo.start) = Ok kept
    /\ length kept = 5
    /\ kept !! 2 = Some (Demo.library_item "i3" "user-1")
    /\ fst (QAppsInfo.get_qapps_for_application 1 (VStr "app-five") Demo.start)
       = Ok kept.
Proof.
  eexists. split; [vm_compute; reflexivity|].
  split; [reflexivity|]. split; [reflexivity | vm_compute; reflexivity].
Qed.

(** The end-to-end scenario: application Alpha with two library items
    and one blocked phrase, application Beta with none; three rows, the
    counts of Alpha's rows equal, Beta's row with the placeholders. *)
Example two_applications_three_rows :
  exists a1 a2 b,
    fst (Enhanced.export_all_data 3 Demo.start) = Ok [a1; a2; b]
    /\ dict_find "blocked_phrases_count" a1 = Some (VInt 1)
    /\ dict_find "blocked_phrases_count" a2 = Some (VInt 1)
    /\ dict_find "topic_count" a1 = Some (VInt 0)
    /\ dict_find "topic_count" a2 = Some (VInt 0)
    /\ dict_find "qapp_user_count" b = Some (VInt 0)
    /\ dict_find "qapp_name" b = Some (VStr "No Q Apps").
Proof.
  eexists _, _, _. split; [vm_compute; reflexivity|].
  repeat split.
Qed.

End Scenarios.

(** * Further properties of the exporters *)

(** ** Composing footprints *)

Module Frames.
Import Footprint.

Section Compose.
Context {W : Type} `{Remote W}.
Variable R : exporter W -> exporter W -> Prop.
Hypothesis R_refl : forall s, R s s.
Hypothesis R_trans : forall s1 s2 s3, R s1 s2 -> R s2 s3 -> R s1 s3.

Lemma respects_ret {A} (a : A) : respects R (ret a).
Proof. intros s. apply R_refl. Qed.

Lemma respects_lift {A} (o : outcome A) : respects R (lift o).
Proof. intros s. apply R_refl. Qed.

Lemma respects_self {A} (field : exporter W -> A) : respects R (self field).
Proof. intros s. apply R_refl. Qed.

Lemma respects_now : respects R now_iso.
Proof. intros s. apply R_refl. Qed.

Lemma respects_bind {A B} (m : Run W A) (k : A -> Run W B) :
  respects R m -> (forall a, respects R (k a)) -> respects R (bind m k).
Proof.
  intros Hm Hk s. unfold bind. specialize (Hm s).
  destruct (m s) as [[a|e|] s1]; simpl in *; [|exact Hm|exact Hm].
  apply (R_trans _ _ _ Hm), Hk.
Qed.

Lemma respects_try {A} (m : Run W A) (h : string -> Run W A) :
  respects R m -> (forall code, respects R (h code)) -> respects R (try_client m h).
Proof.
  intros Hm Hh s. unfold try_client. specialize (Hm s).
  destruct (m s) as [[a|[code| | | |]|] s1]; simpl in *; try exact Hm.
  apply (R_trans _ _ _ Hm), Hh.
Qed.

Lemma respects_for_each {A B} (body : A -> B -> Run W B) l :
  (forall x acc, respects R (body x acc)) ->
  forall acc, respects R (for_each body l acc).
Proof.
  intros Hbody. induction l as [|x rest IH]; intros acc.
  - apply respects_ret.
  - cbn [for_each]. apply respects_bind; [apply Hbody | exact IH].
Qed.

Lemma respects_remote o args :
  (forall s w, R s (record_call o args w s)) -> respects R (remote o args).
Proof.
  intros Hcall s. unfold remote.
  destruct (invoke o args (world s)) as [[d|code] w]; apply Hcall.
Qed.

Lemma respects_hydrate get_op get_args item acc :
  (forall args s w, R s (record_call get_op args w s)) ->
  respects R (hydrate get_op get_args item acc).
Proof.
  intros Hcall. unfold hydrate. apply respects_try.
  - apply respects_bind; [apply respects_lift|]. intros args.
    apply respects_bind; [apply respects_remote, Hcall|]. intros detail.
    apply respects_ret.
  - intros code. apply respects_ret.
Qed.

Lemma respects_pages list_op params items_key body :
  (forall args s w, R s (record_call list_op args w s)) ->
  (forall item acc, respects R (body item acc)) ->
  forall fuel acc token,
    respects R (pages fuel list_op params items_key body acc token).
Proof.
  intros Hcall Hbody. induction fuel as [|fuel IH]; intros acc token.
  - apply respects_lift.
  - cbn [pages]. apply respects_bind; [apply respects_remote, Hcall|].
    intros response. apply respects_bind; [apply respects_lift|]. intros items.
    apply respects_bind; [apply respects_for_each, Hbody|]. intros acc'.
    destruct (truthy (dict_get response "nextToken" VNone));
      [apply IH | apply respects_ret].
Qed.

End Compose.

Section FrameFacts.
Context {W : Type} `{Remote W}.

Lemma frame_refl ops (s : exporter W) : frame ops s s.
Proof.
  repeat split. exists []. split; [rewrite app_nil_r; reflexivity | constructor].
Qed.

Lemma frame_trans ops (s1 s2 s3 : exporter W) :
  frame ops s1 s2 -> frame ops s2 s3 -> frame ops s1 s3.
Proof.
  intros (Hc1 & Hr1 & Ha1 & Hu1 & Hi1 & made1 & Hm1 & Hf1)
         (Hc2 & Hr2 & Ha2 & Hu2 & Hi2 & made2 & Hm2 & Hf2).
  repeat split; try congruence.
  exists (made1 ++ made2). split.
  - rewrite Hm2, Hm1, app_assoc. reflexivity.
  - apply Forall_app. split; assumption.
Qed.

Lemma frame_call ops o args w (s : exporter W) :
  In o ops -> frame ops s (record_call o args w s).
Proof.
  intros Hin. repeat split. exists [Call o args]. split; [reflexivity|].
  constructor; [exact Hin | constructor].
Qed.

Lemma frame_weaken ops ops' (s s' : exporter W) :
  (forall o, In o ops -> In o ops') -> frame ops s s' -> frame ops' s s'.
Proof.
  intros Hsub (Hc & Hr & Ha & Hu & Hi & made & Hm & Hf).
  repeat split; try assumption. exists made. split; [exact Hm|].
  eapply Forall_impl; [exact Hf|]. intros c. apply Hsub.
Qed.

(** A collector: a paged listing with a detail call per item, inside
    [try ... except ClientError: return []]. *)
Lemma collector_frame list_op get_op params items_key get_args fuel :
  respects (frame [list_op; get_op])
    (try_client
       (pages fuel list_op params items_key (hydrate get_op get_args) [] VNone)
       (fun _ => ret [])).
Proof.
  pose proof (frame_refl [list_op; get_op]) as Hrefl.
  pose proof (frame_trans [list_op; get_op]) as Htrans.
  apply respects_try; [exact Htrans| |intros; apply respects_ret, Hrefl].
  apply respects_pages; [exact Hrefl | exact Htrans | |].
  - intros args s w. apply frame_call. simpl. tauto.
  - intros item acc. apply respects_hydrate; [exact Hrefl | exact Htrans|].
    intros args s w. apply frame_call. simpl. tauto.
Qed.

Lemma respects_weaken {A} (R1 R2 : exporter W -> exporter W -> Prop) (m : Run W A) :
  (forall s s', R1 s s' -> R2 s s') -> respects R1 m -> respects R2 m.
Proof. intros Himp Hm s. apply Himp, Hm. Qed.

Lemma chat_controls_frame app :
  respects (frame [GetChatControlsConfiguration]) (Enhanced.get_chat_controls app).
Proof.
  unfold Enhanced.get_chat_controls.
  apply respects_try; [apply frame_trans| |intros; apply respects_ret, frame_refl].
  apply respects_remote. intros s w. apply frame_call. simpl. tauto.
Qed.

Lemma first_index_frame app :
  respects (frame [ListIndices]) (Enhanced.first_index_id app).
Proof.
  pose proof (frame_refl [ListIndices]) as Hrefl.
  pose proof (frame_trans [ListIndices]) as Htrans.
  unfold Enhanced.first_index_id.
  apply respects_try; [exact Htrans| |intros; apply respects_ret, Hrefl].
  apply respects_bind; [exact Htrans| |].
  - apply respects_remote. intros s w. apply frame_call. simpl. tauto.
  - intros indices. destruct (truthy (dict_get indices "indices" VNone));
      [|apply respects_ret, Hrefl].
    repeat (apply respects_bind; [exact Htrans | apply respects_lift, Hrefl | intros ?]).
    apply respects_ret, Hrefl.
Qed.

Lemma enhanced_qapps_frame fuel app :
  respects (frame [ListLibraryItems]) (Enhanced.get_qapps fuel app).
Proof.
  pose proof (frame_refl [ListLibraryItems]) as Hrefl.
  pose proof (frame_trans [ListLibraryItems]) as Htrans.
  unfold Enhanced.get_qapps.
  apply respects_try; [exact Htrans| |intros; apply respects_ret, Hrefl].
  apply respects_pages; [exact Hrefl | exact Htrans | |].
  - intros args s w. apply frame_call. simpl. tauto.
  - intros item acc. apply respects_ret, Hrefl.
Qed.

Lemma qapps_info_qapps_frame fuel app :
  respects (frame [ListLibraryItems; GetLibraryItem])
    (QAppsInfo.get_qapps_for_application fuel app).
Proof.
  pose proof (frame_refl [ListLibraryItems; GetLibraryItem]) as Hrefl.
  pose proof (frame_trans [ListLibraryItems; GetLibraryItem]) as Htrans.
  unfold QAppsInfo.get_qapps_for_application.
  apply respects_try; [exact Htrans| |intros; apply respects_ret, Hrefl].
  apply respects_bind; [exact Htrans | apply respects_self, Hrefl | intros cfg].
  repeat (apply respects_bind; [exact Htrans | apply respects_lift, Hrefl | intros ?]).
  apply respects_pages; [exact Hrefl | exact Htrans | |].
  - intros args s w. apply frame_call. simpl. tauto.
  - intros item acc. apply respects_hydrate; [exact Hrefl | exact Htrans|].
    intros args s w. apply frame_call. simpl. tauto.
Qed.

Lemma qapps_info_applications_frame fuel :
  respects (frame [ListApplications; GetApplication])
    (QAppsInfo.list_qbusiness_applications fuel).
Proof.
  pose proof (frame_refl [ListApplications; GetApplication]) as Hrefl.
  pose proof (frame_trans [ListApplications; GetApplication]) as Htrans.
  unfold QAppsInfo.list_qbusiness_applications.
  apply respects_try; [exact Htrans| |intros; apply respects_ret, Hrefl].
  apply respects_bind; [exact Htrans | apply respects_self, Hrefl | intros cfg].
  repeat (apply respects_bind; [exact Htrans | apply respects_lift, Hrefl | intros ?]).
  apply respects_pages; [exact Hrefl | exact Htrans | |].
  - intros args s w. apply frame_call. simpl. tauto.
  - intros item acc. apply respects_hydrate; [exact Hrefl | exact Htrans|].
    intros args s w. apply frame_call. simpl. tauto.
Qed.

(** X1.  Each collector calls only its own list operation and its own
    detail operation, and changes nothing of the exporter but the world
    and the call log, whatever its outcome: not the identity cache, not
    the identity store id, not the configuration.  [get_qapps] of the
    enhanced exporter makes no [get_library_item] call. *)
Theorem collectors_call_only_their_operations fuel app index_id :
  respects (frame [ListApplications; GetApplication]) (Enhanced.list_applications fuel)
  /\ respects (frame [ListLibraryItems]) (Enhanced.get_qapps fuel app)
  /\ respects (frame [ListDataSources; GetDataSource])
       (Enhanced.get_data_sources fuel app index_id)
  /\ respects (frame [ListRetrievers; GetRetriever]) (Enhanced.get_retrievers fuel app)
  /\ respects (frame [ListPlugins; GetPlugin]) (Enhanced.get_plugins fuel app)
  /\ respects (frame [GetChatControlsConfiguration]) (Enhanced.get_chat_controls app)
  /\ respects (frame [ListIndices]) (Enhanced.first_index_id app)
  /\ respects (frame [ListLibraryItems; GetLibraryItem]) (Global.get_qapps fuel app)
  /\ respects (frame [ListRetrievers; GetRetriever]) (Global.get_retrievers fuel app)
  /\ respects (frame [ListLibraryItems; GetLibraryItem])
       (QAppsInfo.get_qapps_for_application fuel app)
  /\ respects (frame [ListApplications; GetApplication])
       (QAppsInfo.list_qbusiness_applications fuel).
Proof.
  split; [apply collector_frame|].
  split; [apply enhanced_qapps_frame|].
  split; [apply collector_frame|].
  split; [apply collector_frame|].
  split; [apply collector_frame|].
  split; [apply chat_controls_frame|].
  split; [apply first_index_frame|].
  split; [apply collector_frame|].
  split; [apply collector_frame|].
  split; [apply qapps_info_qapps_frame | apply qapps_info_applications_frame].
Qed.

End FrameFacts.

End Frames.

(** ** Invariants of a whole run *)

Module WholeRun.
Import Footprint Frames Shape EnhancedIdentity.

Ltac walk Hrefl Htrans leaf :=
  repeat (first
    [ exact Hrefl | exact Htrans | leaf
    | apply respects_ret | apply respects_lift | apply respects_self
    | apply respects_now | apply respects_bind | apply respects_for_each
    | apply respects_try
    | match goal with |- forall _, _ => intro end ]).

Section Generic.
Context {W : Type} `{Remote W}.
Variable R : exporter W -> exporter W -> Prop.
Hypothesis R_refl : forall s, R s s.
Hypothesis R_trans : forall s1 s2 s3, R s1 s2 -> R s2 s3 -> R s1 s3.
Hypothesis R_collect : forall s s', frame inventory_ops s s' -> R s s'.
Hypothesis R_resolve :
  forall store uid, respects R (Enhanced.get_user_details store uid).
Hypothesis R_discover :
  forall app, respects R (Enhanced.discover_identity_store app).

Lemma collected {A} ops (m : Run W A) :
  (forall o, In o ops -> In o inventory_ops) ->
  respects (frame ops) m -> respects R m.
Proof.
  intros Hsub Hm. apply (respects_weaken (frame ops)); [|exact Hm].
  intros s s' Hf. apply R_collect. exact (frame_weaken _ _ _ _ Hsub Hf).
Qed.

Ltac inventory := unfold inventory_ops; simpl; intuition.

Lemma global_row_respects app qapp data_sources retrievers plugins index_id cc :
  respects R (Enhanced._create_global_row app qapp data_sources retrievers
                plugins index_id cc).
Proof.
  unfold Enhanced._create_global_row. cbv zeta.
  walk R_refl R_trans ltac:(apply R_resolve).
Qed.

Lemma create_rows_respects include_empty app qapps data_sources retrievers
    plugins index_id cc all_data :
  respects R (Enhanced.create_rows include_empty app qapps data_sources
                retrievers plugins index_id cc all_data).
Proof.
  unfold Enhanced.create_rows.
  destruct (truthy (VList qapps)); [|destruct (truthy include_empty)].
  - apply respects_for_each; [exact R_refl | exact R_trans|].
    intros qapp acc. apply respects_bind; [exact R_trans | apply global_row_respects|].
    intros row. apply respects_ret, R_refl.
  - apply respects_bind; [exact R_trans | apply global_row_respects|].
    intros row. apply respects_ret, R_refl.
  - apply respects_ret, R_refl.
Qed.

Lemma after_qapps_respects fuel include_empty app app_id index_id qapps all_data :
  respects R (Enhanced.after_qapps fuel include_empty app app_id index_id qapps
                all_data).
Proof.
  unfold Enhanced.after_qapps.
  apply respects_bind; [exact R_trans| |intros data_sources].
  { destruct (truthy index_id); [|apply respects_ret, R_refl].
    apply (collected [ListDataSources; GetDataSource]); [inventory|].
    apply collector_frame. }
  apply respects_bind; [exact R_trans| |intros retrievers].
  { apply (collected [ListRetrievers; GetRetriever]); [inventory|].
    apply collector_frame. }
  apply respects_bind; [exact R_trans| |intros plugins].
  { apply (collected [ListPlugins; GetPlugin]); [inventory|].
    apply collector_frame. }
  apply respects_bind; [exact R_trans| |intros cc].
  { apply (collected [GetChatControlsConfiguration]); [inventory|].
    apply chat_controls_frame. }
  apply create_rows_respects.
Qed.

Lemma export_application_respects fuel include_empty app all_data :
  respects R (Enhanced.export_application fuel include_empty app all_data).
Proof.
  unfold Enhanced.export_application.
  apply respects_bind; [exact R_trans | apply respects_lift, R_refl | intros app_id].
  apply respects_bind; [exact R_trans | apply respects_lift, R_refl | intros app_name].
  apply respects_bind; [exact R_trans | apply R_discover | intros _].
  apply respects_bind; [exact R_trans| |intros index_id].
  { apply (collected [ListIndices]); [inventory | apply first_index_frame]. }
  apply respects_bind; [exact R_trans| |intros qapps].
  { apply (collected [ListLibraryItems]); [inventory | apply enhanced_qapps_frame]. }
  apply after_qapps_respects.
Qed.

Lemma export_all_data_respects fuel : respects R (Enhanced.export_all_data fuel).
Proof.
  unfold Enhanced.export_all_data.
  apply respects_bind; [exact R_trans | apply respects_self, R_refl | intros cfg].
  apply respects_bind; [exact R_trans | apply respects_lift, R_refl | intros export].
  apply respects_bind; [exact R_trans | apply respects_lift, R_refl | intros include].
  apply respects_bind; [exact R_trans| |intros applications].
  { apply (collected [ListApplications; GetApplication]); [inventory|].
    apply collector_frame. }
  apply respects_for_each; [exact R_refl | exact R_trans|].
  intros app acc. apply export_application_respects.
Qed.

End Generic.

Section Leaves.
Context {W : Type} `{Remote W}.

Ltac fields :=
  cbn [snd record_call store_user store_identity_store_id ret
       config aws_region expected_account identity_store_id user_cache calls].

Lemma count_calls_outside o ops made :
  ~ In o ops -> Forall (fun c => In (call_op c) ops) made -> count_calls o made = 0.
Proof.
  intros Hout Hall. unfold count_calls.
  induction Hall as [|c rest Hc Hrest IH]; [reflexivity|].
  rewrite filter_cons. case_decide as Heq; [|exact IH].
  exfalso. apply Hout. rewrite <- Heq. exact Hc.
Qed.

Lemma frame_count o ops (s s' : exporter W) :
  ~ In o ops -> frame ops s s' -> count_calls o (calls s') = count_calls o (calls s).
Proof.
  intros Hout (_ & _ & _ & _ & _ & made & -> & Hall).
  rewrite count_calls_app, (count_calls_outside o ops made Hout Hall). lia.
Qed.

Lemma resolve_no_key store uid (s : exporter W) o :
  key_of uid = o -> (forall k, o <> Ok k) ->
  snd (Enhanced.get_user_details store uid s) = s.
Proof.
  intros Hk Hno. unfold Enhanced.get_user_details, bind, lift. rewrite Hk.
  destruct o as [k| |]; [destruct (Hno k eq_refl) | reflexivity | reflexivity].
Qed.

Lemma resolve_reply store uid k (s : exporter W) response w :
  key_of uid = Ok k -> user_cache s !! k = None ->
  negb (truthy store) || str_eq uid "N/A" = false ->
  invoke DescribeUser (Enhanced.describe_user_args store uid) (world s)
    = (Reply response, w) ->
  let called := record_call DescribeUser (Enhanced.describe_user_args store uid) w s in
  Enhanced.get_user_details store uid s
    = match Enhanced._extract_email response with
      | Ok mail =>
          let info := UserInfo (dict_get response "UserName" (VStr "N/A")) mail
                        (dict_get response "DisplayName" (VStr "N/A")) in
          (Ok info, store_user k info called)
      | Raise (ClientError _) =>
          (Ok (Enhanced.placeholder uid),
           store_user k (Enhanced.placeholder uid) called)
      | Raise e => (Raise e, called)
      | Timeout => (Timeout, called)
      end.
Proof.
  intros Hk Hc Hskip Hr called. unfold Enhanced.get_user_details.
  rewrite (bind_lift_ok _ _ _ _ Hk). unfold bind at 1. unfold self.
  rewrite Hc, Hskip. unfold try_client.
  rewrite (bind_ok _ _ _ _ _ (remote_reply _ _ _ _ _ Hr)).
  unfold bind, lift.
  destruct (Enhanced._extract_email response) as [mail|[]|]; reflexivity.
Qed.

(** What one call of [get_user_details] can do to the exporter. *)
Lemma resolver_footprint store uid (s : exporter W) :
  let s' := snd (Enhanced.get_user_details store uid s) in
  config s' = config s /\ aws_region s' = aws_region s
  /\ expected_account s' = expected_account s
  /\ identity_store_id s' = identity_store_id s
  /\ user_cache s ⊆ user_cache s'
  /\ (exists made, calls s' = calls s ++ made
                   /\ Forall (fun c => In (call_op c) [DescribeUser]) made)
  /\ (directory_ok ->
      count_calls DescribeUser (calls s') + size (user_cache s)
      <= count_calls DescribeUser (calls s) + size (user_cache s')).
Proof.
  assert (forall s0 : exporter W,
            exists made, calls s0 = calls s0 ++ made
                         /\ Forall (fun c => In (call_op c) [DescribeUser]) made)
    as Hnone.
  { intros s0. exists []. rewrite app_nil_r. split; [reflexivity | constructor]. }
  assert (forall args,
            exists made,
              calls s ++ [Call DescribeUser args] = calls s ++ made
              /\ Forall (fun c => In (call_op c) [DescribeUser]) made) as Hone.
  { intros args. exists [Call DescribeUser args]. split; [reflexivity|].
    constructor; [left; reflexivity | constructor]. }
  cbv zeta.
  destruct (key_of uid) as [k| |] eqn:Hk.
  2,3: rewrite (resolve_no_key store uid s _ Hk); [|discriminate]; fields;
       repeat split; [reflexivity | apply Hnone | intros _; lia].
  destruct (user_cache s !! k) as [cached|] eqn:Hc.
  { rewrite (resolve_hit store uid k cached s Hk Hc). fields.
    repeat split; [reflexivity | apply Hnone | intros _; lia]. }
  destruct (negb (truthy store) || str_eq uid "N/A") eqn:Hskip.
  { rewrite (resolve_skip store uid k s Hk Hc Hskip). fields.
    repeat split;
      [apply insert_subseteq, Hc | apply Hnone
      | intros _; rewrite (map_size_insert_None _ _ _ Hc); lia]. }
  destruct (invoke DescribeUser (Enhanced.describe_user_args store uid) (world s))
    as [[response|code] w] eqn:Hr.
  2:{ rewrite (resolve_failed store uid k s code w Hk Hc Hskip Hr). fields.
      repeat split; [apply insert_subseteq, Hc | apply Hone|].
      intros _. rewrite (map_size_insert_None _ _ _ Hc), count_calls_app.
      unfold count_calls at 2. rewrite filter_cons, filter_nil.
      case_decide; simpl; lia. }
  rewrite (resolve_reply store uid k s response w Hk Hc Hskip Hr). cbv zeta.
  destruct (Enhanced._extract_email response) as [mail|e|] eqn:He.
  - fields. repeat split; [apply insert_subseteq, Hc | apply Hone|].
    intros _. rewrite (map_size_insert_None _ _ _ Hc), count_calls_app.
    unfold count_calls at 2. rewrite filter_cons, filter_nil.
    case_decide; simpl; lia.
  - destruct e; fields; repeat split;
      try reflexivity; try apply Hone; try (apply insert_subseteq, Hc).
    all: intros Hdir;
      specialize (Hdir (Enhanced.describe_user_args store uid) (world s));
      rewrite Hr in Hdir; cbn in Hdir;
      rewrite (extract_email_chosen _ Hdir) in He; discriminate.
  - fields. repeat split; [reflexivity | apply Hone|].
    intros Hdir. specialize (Hdir (Enhanced.describe_user_args store uid) (world s)).
    rewrite Hr in Hdir. cbn in Hdir.
    rewrite (extract_email_chosen _ Hdir) in He. discriminate.
Qed.

Lemma identity_store_frame arn :
  respects (frame [ListInstances]) (Enhanced.get_identity_store_id arn).
Proof.
  pose proof (frame_refl (W:=W) [ListInstances]) as Hrefl.
  pose proof (frame_trans (W:=W) [ListInstances]) as Htrans.
  unfold Enhanced.get_identity_store_id.
  apply respects_try; [exact Htrans| |intros; apply respects_ret, Hrefl].
  apply respects_bind; [exact Htrans| |].
  - apply respects_remote. intros s w. apply frame_call. simpl. tauto.
  - intros response. destruct (truthy (dict_get response "Instances" VNone));
      [|apply respects_ret, Hrefl].
    repeat (apply respects_bind; [exact Htrans | apply respects_lift, Hrefl | intros ?]).
    apply respects_ret, Hrefl.
Qed.

Lemma discover_respects (R : exporter W -> exporter W -> Prop) app :
  (forall s, R s s) ->
  (forall s1 s2 s3, R s1 s2 -> R s2 s3 -> R s1 s3) ->
  (forall s s', frame [ListInstances] s s' -> R s s') ->
  (forall v s, R s (store_identity_store_id v s)) ->
  respects R (Enhanced.discover_identity_store app).
Proof.
  intros Hrefl Htrans Hframe Hset. unfold Enhanced.discover_identity_store.
  apply respects_bind; [exact Htrans | apply respects_self, Hrefl | intros store].
  destruct (negb (truthy store)); [|apply respects_ret, Hrefl].
  apply respects_bind; [exact Htrans | apply respects_lift, Hrefl | intros identity_type].
  destruct (str_eq identity_type "AWS_IAM_IDC"); [|apply respects_ret, Hrefl].
  apply respects_bind; [exact Htrans | apply respects_lift, Hrefl | intros arn].
  destruct (truthy arn); [|apply respects_ret, Hrefl].
  apply respects_bind; [exact Htrans| |intros found].
  - apply (respects_weaken (frame [ListInstances])); [exact Hframe|].
    apply identity_store_frame.
  - intros s. apply Hset.
Qed.

(** *** The identity cache only grows *)

Lemma cache_grows_refl (s : exporter W) : cache_grows s s.
Proof. unfold cache_grows. reflexivity. Qed.

Lemma cache_grows_trans (s1 s2 s3 : exporter W) :
  cache_grows s1 s2 -> cache_grows s2 s3 -> cache_grows s1 s3.
Proof. unfold cache_grows. intros H12 H23. etransitivity; eassumption. Qed.

Lemma frame_cache_grows ops (s s' : exporter W) : frame ops s s' -> cache_grows s s'.
Proof. intros (_ & _ & _ & Hu & _). unfold cache_grows. rewrite Hu. reflexivity. Qed.

(** X2.  Over a whole run of [export_all_data], and over any single
    [get_user_details] call, whatever the outcome, an identity that is
    in the cache stays there with the same record: entries are added,
    never removed or replaced. *)
Theorem cached_identities_never_change fuel store uid (s : exporter W) :
  user_cache s ⊆ user_cache (snd (Enhanced.export_all_data fuel s))
  /\ user_cache s ⊆ user_cache (snd (Enhanced.get_user_details store uid s)).
Proof.
  assert (forall store uid,
            respects (W:=W) cache_grows (Enhanced.get_user_details store uid))
    as Hresolve.
  { intros store' uid' s'. apply resolver_footprint. }
  split; [|apply Hresolve].
  apply (export_all_data_respects cache_grows cache_grows_refl cache_grows_trans).
  - intros s1 s2. apply frame_cache_grows.
  - exact Hresolve.
  - intros app. apply discover_respects;
      [exact cache_grows_refl | exact cache_grows_trans
      | intros s1 s2; apply frame_cache_grows
      | intros v s1; exact (cache_grows_refl s1)].
Qed.

(** *** One lookup per principal *)

Lemma lookups_cached_refl (s : exporter W) : lookups_cached s s.
Proof. split; [apply cache_grows_refl | lia]. Qed.

Lemma lookups_cached_trans (s1 s2 s3 : exporter W) :
  lookups_cached s1 s2 -> lookups_cached s2 s3 -> lookups_cached s1 s3.
Proof.
  intros [Hg12 Hc12] [Hg23 Hc23]. split; [eapply cache_grows_trans; eassumption | lia].
Qed.

Lemma frame_lookups_cached ops (s s' : exporter W) :
  ~ In DescribeUser ops -> frame ops s s' -> lookups_cached s s'.
Proof.
  intros Hout Hf. split; [eapply frame_cache_grows, Hf|].
  rewrite (frame_count DescribeUser ops s s' Hout Hf).
  destruct Hf as (_ & _ & _ & -> & _). lia.
Qed.

(** X3.  When the directory answers in shape, a whole run of
    [export_all_data] adds at least one cache entry for every
    [describe_user] call it makes, whatever its outcome; since an entry
    is added only for an identity that was not cached and never leaves
    the cache, no principal id is looked up twice. *)
Theorem one_lookup_per_principal fuel (s : exporter W) :
  directory_ok ->
  let s' := snd (Enhanced.export_all_data fuel s) in
  user_cache s ⊆ user_cache s'
  /\ count_calls DescribeUser (calls s') + size (user_cache s)
     <= count_calls DescribeUser (calls s) + size (user_cache s').
Proof.
  intros Hdir.
  apply (export_all_data_respects lookups_cached lookups_cached_refl
           lookups_cached_trans).
  - intros s1 s2. apply frame_lookups_cached. unfold inventory_ops. simpl.
    intuition discriminate.
  - intros store uid s1.
    pose proof (resolver_footprint store uid s1) as (_ & _ & _ & _ & Hg & _ & Hc).
    split; [exact Hg | exact (Hc Hdir)].
  - intros app. apply discover_respects;
      [exact lookups_cached_refl | exact lookups_cached_trans
      | intros s1 s2; apply frame_lookups_cached; simpl; intuition discriminate
      | intros v s1; exact (lookups_cached_refl s1)].
Qed.

(** *** The identity store id, once known *)

Lemma store_kept_refl (s : exporter W) : store_kept s s.
Proof. intros _. split; reflexivity. Qed.

Lemma store_kept_trans (s1 s2 s3 : exporter W) :
  store_kept s1 s2 -> store_kept s2 s3 -> store_kept s1 s3.
Proof.
  intros H12 H23 Hknown. destruct (H12 Hknown) as [Hid Hn].
  rewrite <- Hid in Hknown. destruct (H23 Hknown) as [Hid' Hn'].
  split; congruence.
Qed.

Lemma frame_store_kept ops (s s' : exporter W) :
  ~ In ListInstances ops -> frame ops s s' -> store_kept s s'.
Proof.
  intros Hout Hf _. split; [apply Hf | exact (frame_count _ _ _ _ Hout Hf)].
Qed.

Lemma discover_known app (s : exporter W) :
  truthy (identity_store_id s) = true ->
  Enhanced.discover_identity_store app s = (Ok tt, s).
Proof.
  intros Hknown. unfold Enhanced.discover_identity_store, bind, self.
  rewrite Hknown. reflexivity.
Qed.

(** X4.  Once [identity_store_id] holds a value, the rest of a run
    keeps it and makes no further [list_instances] call, whatever the
    applications and whatever the outcome: stated for a whole
    [export_all_data] and for the loop over any remaining
    applications. *)
Theorem identity_store_id_kept_once_known fuel include_empty applications all_data
    (s : exporter W) :
  truthy (identity_store_id s) = true ->
  (let s' := snd (Enhanced.export_all_data fuel s) in
   identity_store_id s' = identity_store_id s
   /\ count_calls ListInstances (calls s') = count_calls ListInstances (calls s))
  /\ (let s' := snd (for_each (Enhanced.export_application fuel include_empty)
                       applications all_data s) in
      identity_store_id s' = identity_store_id s
      /\ count_calls ListInstances (calls s') = count_calls ListInstances (calls s)).
Proof.
  assert (forall s1 s2 : exporter W, frame inventory_ops s1 s2 -> store_kept s1 s2)
    as Hcollect.
  { intros s1 s2. apply frame_store_kept. unfold inventory_ops. simpl.
    intuition discriminate. }
  assert (forall store uid,
            respects (W:=W) store_kept (Enhanced.get_user_details store uid))
    as Hresolve.
  { intros store uid s1 _.
    pose proof (resolver_footprint store uid s1)
      as (_ & _ & _ & Hid & _ & (made & Hmade & Hall) & _).
    split; [exact Hid|]. rewrite Hmade, count_calls_app.
    rewrite (count_calls_outside ListInstances [DescribeUser] made); [lia| |exact Hall].
    simpl. intuition discriminate. }
  assert (forall app, respects (W:=W) store_kept (Enhanced.discover_identity_store app))
    as Hdiscover.
  { intros app s1 Hknown. rewrite (discover_known app s1 Hknown).
    split; reflexivity. }
  intros Hknown. split.
  - apply (export_all_data_respects store_kept store_kept_refl store_kept_trans
             Hcollect Hresolve Hdiscover fuel s Hknown).
  - apply (respects_for_each store_kept store_kept_refl store_kept_trans
             (Enhanced.export_application fuel include_empty) applications
             (fun app acc => export_application_respects store_kept store_kept_refl
                               store_kept_trans Hcollect Hresolve Hdiscover
                               fuel include_empty app acc)
             all_data s Hknown).
Qed.

End Leaves.

End WholeRun.

(** ** Edge cases of the collectors and of the resolver *)

Module Edges.
Import Shape Paged Collectors EnhancedIdentity Listing.

Section Collect.
Context {W : Type} `{Remote W}.

Lemma for_each_app {A B} (body : A -> B -> Run W B) l1 l2 acc (s : exporter W) :
  for_each body (l1 ++ l2) acc s = bind (for_each body l1 acc) (for_each body l2) s.
Proof.
  revert acc s. induction l1 as [|x l1 IH]; intros acc s; [reflexivity|].
  cbn [for_each app]. unfold bind.
  destruct (body x acc s) as [[acc'|e|] s1]; [|reflexivity|reflexivity].
  rewrite IH. reflexivity.
Qed.

Lemma hydrate_escapes get_op get_args item acc (s : exporter W) e :
  get_args item = Raise e -> (forall code, e <> ClientError code) ->
  hydrate get_op get_args item acc s = (Raise e, s).
Proof.
  intros Ha He. unfold hydrate, try_client, bind, lift. rewrite Ha.
  destruct e; try reflexivity. destruct (He code eq_refl).
Qed.

(** A page with an item whose arguments cannot be built: the loop
    stops there with the exception, after the detail calls of the items
    before it. *)
Lemma page_escapes list_op params items_key get_op get_args fuel
    (s : exporter W) response w good bad rest e :
  invoke list_op params (world s) = (Reply response, w) ->
  dict_get response items_key (VList []) = VList (good ++ bad :: rest) ->
  Forall (fun item => exists args, get_args item = Ok args) good ->
  get_args bad = Raise e -> (forall code, e <> ClientError code) ->
  fst (try_client
         (pages (S fuel) list_op params items_key (hydrate get_op get_args) [] VNone)
         (fun _ => ret []) s) = Raise e.
Proof.
  intros Hr Hitems Hgood Hbad He.
  destruct (hydrate_loop get_op get_args good [] (record_call list_op params w s) Hgood)
    as [s1 Hloop].
  unfold try_client.
  rewrite (pages_turn list_op params items_key _ fuel [] VNone s response w
             (good ++ bad :: rest) Hr); [|rewrite Hitems; reflexivity].
  unfold bind at 1. rewrite for_each_app.
  rewrite (bind_ok _ _ _ _ _ Hloop). cbn [for_each]. unfold bind at 1.
  rewrite (hydrate_escapes get_op get_args bad _ s1 e Hbad He).
  destruct e; try reflexivity. destruct (He code eq_refl).
Qed.

(** X5.  A listed library item that carries no [libraryItemId] makes
    [get_qapps] of the global exporter and [get_qapps_for_application]
    raise [KeyError]: the subscript is evaluated inside the [try], but
    neither [except ClientError] clause catches it, so the items
    collected so far are lost and the exception reaches the caller. *)
Theorem item_without_id_raises fuel app (s : exporter W) response w good bad rest :
  invoke ListLibraryItems [("instanceId", app); ("limit", VInt 100)] (world s)
    = (Reply response, w) ->
  dict_get response "libraryItems" (VList []) = VList (good ++ VDict bad :: rest) ->
  forallb (has_key "libraryItemId") good = true ->
  dict_find "libraryItemId" bad = None ->
  fst (Global.get_qapps (S fuel) app s) = Raise (KeyError "libraryItemId")
  /\ (default_page_size s ->
      fst (QAppsInfo.get_qapps_for_application (S fuel) app s)
        = Raise (KeyError "libraryItemId")).
Proof.
  intros Hr Hitems Hgood Hbad.
  pose proof (all_have_args _ _ _ (global_item_args app) Hgood) as Hall.
  assert (Global.get_library_item_args app (VDict bad)
            = Raise (KeyError "libraryItemId")) as Hraise.
  { unfold Global.get_library_item_args. simpl. rewrite Hbad. reflexivity. }
  assert (forall code, KeyError "libraryItemId" <> ClientError code) as Hother
    by discriminate.
  split.
  - apply (page_escapes _ _ _ _ _ fuel s response w good (VDict bad) rest _
             Hr Hitems Hall Hraise Hother).
  - intros (retrieval & Hcfg & Hmax).
    pose proof (page_escapes ListLibraryItems
                  [("instanceId", app); ("limit", VInt 100)] "libraryItems"
                  GetLibraryItem (QAppsInfo.get_library_item_args app)
                  fuel s response w good (VDict bad) rest _
                  Hr Hitems Hall Hraise Hother) as Hrun.
    unfold QAppsInfo.get_qapps_for_application.
    unfold try_client in *. unfold bind at 1. unfold self.
    rewrite (bind_lift_ok _ _ _ _ Hcfg), (bind_lift_ok _ _ _ _ Hmax).
    exact Hrun.
Qed.

(** The keyword arguments of the [get_application] call for a listed
    application. *)
Lemma application_args item :
  has_key "applicationId" item = true ->
  exists args,
    obind (py_item item "applicationId") (fun id => Ok [("applicationId", id)])
      = Ok args.
Proof.
  intros Hk. destruct (has_key_item _ _ Hk) as [id Hid]. rewrite Hid. simpl. eauto.
Qed.

(** X6.  [list_applications] keeps an application whose
    [get_application] call fails: on a listing of one page it returns
    one element per listed application, in order, the detail where the
    call answered and the list summary where it failed. *)
Theorem application_detail_failure_keeps_summary fuel (s : exporter W)
    response w items :
  invoke ListApplications [("maxResults", VInt 50)] (world s) = (Reply response, w) ->
  dict_get response "applications" (VList []) = VList items ->
  truthy (dict_get response "nextToken" VNone) = false ->
  forallb (has_key "applicationId") items = true ->
  let replies :=
    detail_replies GetApplication
      (fun app => obind (py_item app "applicationId")
                    (fun id => Ok [("applicationId", id)])) items w in
  (exists s',
     Enhanced.list_applications (S fuel) s = (Ok (zip_with fallback items replies), s'))
  /\ length (zip_with fallback items replies) = length items
  /\ (forall i item code,
        items !! i = Some item -> replies !! i = Some (Fails code) ->
        zip_with fallback items replies !! i = Some item).
Proof.
  intros Hr Hitems Hlast Hkeys replies.
  pose proof (all_have_args _ _ _ application_args Hkeys) as Hall.
  split; [|split].
  - apply (collector_one_page _ _ _ _ _ fuel s response w items Hr Hitems Hlast Hall).
  - unfold replies. rewrite length_zip_with, (detail_replies_length _ _ _ _ Hall). lia.
  - intros i item code. apply fallback_at.
Qed.

(** X7.  When the call that lists the applications fails, the export
    is empty rather than an exception: [export_all_data] and
    [retrieve_all_data] return no rows after that single call. *)
Theorem no_applications_when_listing_fails fuel (s : exporter W) export
    include_empty code w :
  py_get (config s) "export" (VDict []) = Ok export ->
  py_get export "include_empty_apps" (VBool true) = Ok include_empty ->
  invoke ListApplications [("maxResults", VInt 50)] (world s) = (Fails code, w) ->
  Enhanced.export_all_data (S fuel) s
    = (Ok [], record_call ListApplications [("maxResults", VInt 50)] w s)
  /\ (forall retrieval,
        py_get (config s) "retrieval" (VDict []) = Ok retrieval ->
        py_get retrieval "max_applications_per_page" (VInt 50) = Ok (VInt 50) ->
        QAppsInfo.retrieve_all_data (S fuel) s
          = (Ok [], record_call ListApplications [("maxResults", VInt 50)] w s)).
Proof.
  intros Hexport Hinclude Hr. split.
  - unfold Enhanced.export_all_data. unfold bind at 1. unfold self.
    rewrite (bind_lift_ok _ _ _ _ Hexport), (bind_lift_ok _ _ _ _ Hinclude).
    unfold Enhanced.list_applications.
    rewrite (bind_ok _ _ _ _ _
               (collector_list_fails ListApplications [("maxResults", VInt 50)]
                  "applications" _ fuel [] VNone s code w Hr)).
    reflexivity.
  - intros retrieval Hcfg Hmax.
    assert (QAppsInfo.list_qbusiness_applications (S fuel) s
              = (Ok [], record_call ListApplications [("maxResults", VInt 50)] w s))
      as Hlist.
    { unfold QAppsInfo.list_qbusiness_applications.
      erewrite try_client_caught; [reflexivity|].
      unfold bind at 1. unfold self.
      rewrite (bind_lift_ok _ _ _ _ Hcfg), (bind_lift_ok _ _ _ _ Hmax).
      apply pages_list_fails. exact Hr. }
    unfold QAppsInfo.retrieve_all_data. unfold bind at 1. unfold self.
    rewrite (bind_lift_ok _ _ _ _ Hexport), (bind_lift_ok _ _ _ _ Hinclude).
    rewrite (bind_ok _ _ _ _ _ Hlist). reflexivity.
Qed.

Lemma count_calls_record_same o args w (s : exporter W) :
  count_calls o (calls (record_call o args w s)) = S (count_calls o (calls s)).
Proof.
  cbn [calls record_call]. rewrite count_calls_app. unfold count_calls at 2.
  rewrite filter_cons, filter_nil. case_decide; [simpl; lia | contradiction].
Qed.

(** The loop of [get_qapps] over a listing of several pages. *)
Lemma keep_loop items : forall acc (s : exporter W),
  for_each keep items acc s = (Ok (acc ++ items), s).
Proof.
  induction items as [|item rest IH]; intros acc s.
  - simpl. rewrite app_nil_r. reflexivity.
  - cbn [for_each]. unfold bind, keep at 1, ret. rewrite IH, <- app_assoc. reflexivity.
Qed.

Lemma pages_follow_listing params listed w' :
  forall w token, listing ListLibraryItems params "libraryItems" w token listed w' ->
  forall fuel acc (s : exporter W),
    world s = w -> length listed <= fuel ->
    exists s',
      pages fuel ListLibraryItems params "libraryItems" keep acc token s
        = (Ok (acc ++ concat listed), s')
      /\ world s' = w'
      /\ count_calls ListLibraryItems (calls s')
         = count_calls ListLibraryItems (calls s) + length listed
      /\ user_cache s' = user_cache s.
Proof.
  intros w token Hlisting.
  induction Hlisting as [w token response w' items Hr Hitems Hlast
                        |w token response w' items pages w'' Hr Hitems Hmore Hrest IH];
    intros fuel acc s Hw Hfuel; (destruct fuel as [|fuel]; [simpl in Hfuel; lia|]);
    subst w.
  - exists (record_call ListLibraryItems (with_token params token) w' s).
    rewrite (pages_turn _ _ _ _ fuel acc token s response w' items Hr Hitems).
    rewrite (bind_ok _ _ _ _ _ (keep_loop items acc _)). rewrite Hlast.
    cbn [concat length]. rewrite app_nil_r.
    split; [reflexivity|]. split; [reflexivity|]. split; [|reflexivity].
    rewrite count_calls_record_same. lia.
  - destruct (IH fuel (acc ++ items)
                (record_call ListLibraryItems (with_token params token) w' s)
                eq_refl ltac:(simpl in Hfuel; lia))
      as (s' & Hrun & Hworld & Hcount & Hcache).
    exists s'.
    rewrite (pages_turn _ _ _ _ fuel acc token s response w' items Hr Hitems).
    rewrite (bind_ok _ _ _ _ _ (keep_loop items acc _)). rewrite Hmore.
    rewrite Hrun. cbn [concat length]. rewrite <- app_assoc.
    split; [reflexivity|]. split; [exact Hworld|]. split; [|exact Hcache].
    rewrite Hcount, count_calls_record_same. lia.
Qed.

(** X8.  [get_qapps] of the enhanced exporter follows the cursor to
    the end: when the service lists the library items over several
    pages, each response but the last carrying the [nextToken] of the
    next call, the result is the items of all pages in the order
    listed, after exactly one list call per page. *)
Theorem get_qapps_collects_every_page fuel app (s : exporter W) listed w' :
  listing ListLibraryItems [("instanceId", app); ("limit", VInt 100)]
    "libraryItems" (world s) VNone listed w' ->
  length listed <= fuel ->
  exists s',
    Enhanced.get_qapps fuel app s = (Ok (concat listed), s')
    /\ world s' = w'
    /\ count_calls ListLibraryItems (calls s')
       = count_calls ListLibraryItems (calls s) + length listed.
Proof.
  intros Hlisting Hfuel.
  destruct (pages_follow_listing _ listed w' (world s) VNone Hlisting fuel [] s
              eq_refl Hfuel) as (s' & Hrun & Hworld & Hcount & _).
  exists s'. unfold Enhanced.get_qapps.
  rewrite (try_client_ok _ _ _ _ _ Hrun). repeat split; assumption.
Qed.

End Collect.

Section Resolve.
Context {W : Type} `{Remote W}.

Lemma primary_email_no_client_error entries code :
  Enhanced.primary_email entries <> Raise (ClientError code).
Proof.
  induction entries as [|entry rest IH]; [discriminate|].
  simpl. destruct entry; simpl; try discriminate.
  destruct (truthy (dict_get d "Primary" (VBool false))); [discriminate | exact IH].
Qed.

(** [_extract_email] on a reply whose first email entry is not an
    object. *)
Lemma extract_email_plain_address response entry rest :
  dict_get response "Emails" (VList []) = VList (entry :: rest) ->
  is_dict entry = false ->
  Enhanced._extract_email response = Raise AttributeError.
Proof.
  intros Hemails Hentry. unfold Enhanced._extract_email. rewrite Hemails.
  cbn [truthy py_iter obind Enhanced.primary_email].
  destruct entry; try discriminate; reflexivity.
Qed.

(** X9.  A [describe_user] reply whose [Emails] begins with something
    other than an object makes [get_user_details] raise
    [AttributeError] after the call; nothing is cached, so the same
    principal id would be looked up again. *)
Theorem unparsed_reply_is_not_cached store uid k (s : exporter W)
    response w entry rest :
  key_of uid = Ok k ->
  user_cache s !! k = None ->
  truthy store = true -> uid <> VStr "N/A" ->
  invoke DescribeUser (Enhanced.describe_user_args store uid) (world s)
    = (Reply response, w) ->
  dict_get response "Emails" (VList []) = VList (entry :: rest) ->
  is_dict entry = false ->
  Enhanced.get_user_details store uid s
    = (Raise AttributeError,
       record_call DescribeUser (Enhanced.describe_user_args store uid) w s)
  /\ user_cache (snd (Enhanced.get_user_details store uid s)) !! k = None.
Proof.
  intros Hk Hc Hstore Hid Hr Hemails Hentry.
  assert (negb (truthy store) || str_eq uid "N/A" = false) as Hskip.
  { rewrite Hstore. simpl. destruct (str_eq uid "N/A") eqn:E; [|reflexivity].
    apply str_eq_true in E. contradiction. }
  assert (Enhanced.get_user_details store uid s
            = (Raise AttributeError,
               record_call DescribeUser (Enhanced.describe_user_args store uid) w s))
    as Hrun.
  { unfold Enhanced.get_user_details.
    rewrite (bind_lift_ok _ _ _ _ Hk). unfold bind at 1. unfold self.
    rewrite Hc, Hskip. unfold try_client.
    rewrite (bind_ok _ _ _ _ _ (remote_reply _ _ _ _ _ Hr)).
    unfold bind, lift.
    rewrite (extract_email_plain_address response entry rest Hemails Hentry).
    reflexivity. }
  split; [exact Hrun|]. rewrite Hrun. exact Hc.
Qed.

(** X10.  [get_identity_store_id] returns the [IdentityStoreId] of the
    first instance that [list_instances] reports, and [None] when the
    call fails or reports no instance; a first instance without the key
    raises [KeyError], which nothing catches.  The ARN it is given plays
    no part. *)
Theorem identity_store_id_of_first_instance arn (s : exporter W) r w :
  invoke ListInstances [] (world s) = (r, w) ->
  let called := record_call ListInstances [] w s in
  (forall response first rest id,
     r = Reply response ->
     dict_get response "Instances" VNone = VList (VDict first :: rest) ->
     dict_find "IdentityStoreId" first = Some id ->
     Enhanced.get_identity_store_id arn s = (Ok id, called))
  /\ (forall response first rest,
        r = Reply response ->
        dict_get response "Instances" VNone = VList (VDict first :: rest) ->
        dict_find "IdentityStoreId" first = None ->
        Enhanced.get_identity_store_id arn s
          = (Raise (KeyError "IdentityStoreId"), called))
  /\ (match r with
      | Fails _ => True
      | Reply response => truthy (dict_get response "Instances" VNone) = false
      end ->
      Enhanced.get_identity_store_id arn s = (Ok VNone, called))
  /\ (forall arn', Enhanced.get_identity_store_id arn' s
                   = Enhanced.get_identity_store_id arn s).
Proof.
  intros Hr called. split; [|split; [|split]].
  - intros response first rest id -> Hinst Hid.
    unfold Enhanced.get_identity_store_id. apply try_client_ok.
    rewrite (bind_ok _ _ _ _ _ (remote_reply _ _ _ _ _ Hr)).
    rewrite Hinst. cbn [truthy].
    assert (dict_find "Instances" response = Some (VList (VDict first :: rest)))
      as Hfind.
    { unfold dict_get in Hinst. destruct (dict_find "Instances" response);
        [congruence | discriminate]. }
    unfold bind, lift. cbn [py_item]. rewrite Hfind. cbn [py_first py_item].
    rewrite Hid. reflexivity.
  - intros response first rest -> Hinst Hid.
    unfold Enhanced.get_identity_store_id, try_client.
    rewrite (bind_ok _ _ _ _ _ (remote_reply _ _ _ _ _ Hr)).
    rewrite Hinst. cbn [truthy].
    assert (dict_find "Instances" response = Some (VList (VDict first :: rest)))
      as Hfind.
    { unfold dict_get in Hinst. destruct (dict_find "Instances" response);
        [congruence | discriminate]. }
    unfold bind, lift. cbn [py_item]. rewrite Hfind. cbn [py_first py_item].
    rewrite Hid. reflexivity.
  - intros Hnone. unfold Enhanced.get_identity_store_id.
    destruct r as [response|code].
    + apply try_client_ok.
      rewrite (bind_ok _ _ _ _ _ (remote_reply _ _ _ _ _ Hr)).
      rewrite Hnone. reflexivity.
    + erewrite try_client_caught; [reflexivity|].
      apply bind_raise, remote_fails, Hr.
  - reflexivity.
Qed.

End Resolve.

End Edges.

(** ** What a row says about the collections *)

Module RowFacts.
Import Shape Rows Flatten Summary Footprint Frames WholeRun EnhancedIdentity.

Lemma literal_find_inv fields d k e :
  literal fields = Ok d -> field_find k fields = Some e ->
  exists v, e = Ok v /\ dict_find k d = Some v.
Proof.
  revert d. induction fields as [|[k' e'] rest IH]; intros d; [discriminate|].
  simpl. destruct e' as [x| |]; simpl; try discriminate.
  destruct (literal rest) as [d'| |] eqn:Hrest; simpl; try discriminate.
  intros [= <-]. simpl. destruct (String.eqb k k').
  - intros [= <-]. eauto.
  - intros Hfind. apply (IH d' eq_refl Hfind).
Qed.

Lemma join_strs_concat sep (l : list string) :
  join_strs sep (map VStr l) = Ok (String.concat sep l).
Proof.
  induction l as [|x rest IH]; [reflexivity|].
  cbn [map join_strs]. rewrite IH. destruct rest; reflexivity.
Qed.

Lemma join_strs_inv sep items s :
  join_strs sep items = Ok s -> exists l, items = map VStr l.
Proof.
  revert s. induction items as [|v rest IH]; intros s; [exists []; reflexivity|].
  destruct v; try discriminate. cbn [join_strs].
  destruct rest as [|v' rest'].
  - intros _. exists [s0]. reflexivity.
  - destruct (join_strs sep (v' :: rest')) as [r| |] eqn:Hrest; try discriminate.
    destruct (IH r eq_refl) as [l Hl]. intros _. exists (s0 :: l).
    simpl. rewrite Hl. reflexivity.
Qed.

Lemma map_ok_attribute k items : forall l,
  map_ok (fun x => py_get x k (VStr "N/A")) items = Ok (map VStr l) ->
  l = map (attribute k) items.
Proof.
  induction items as [|x rest IH]; intros l.
  { destruct l; [reflexivity | discriminate]. }
  cbn [map_ok]. destruct x; cbn [py_get obind]; try discriminate.
  destruct (map_ok (fun x => py_get x k (VStr "N/A")) rest) as [ys| |] eqn:Hrest;
    cbn [obind]; try discriminate.
  destruct l as [|s l]; [discriminate|]. cbn [map]. intros [= Hs Hys].
  subst ys. rewrite <- (IH l eq_refl). cbn [map attribute]. rewrite Hs. reflexivity.
Qed.

(** A joined column that was computed is the join of the attributes, in
    the order of the collection. *)
Lemma joined_attribute sep k items v :
  joined sep (fun x => py_get x k (VStr "N/A")) (VList items) = Ok v ->
  v = VStr (String.concat sep (map (attribute k) items)).
Proof.
  unfold joined. cbn [py_iter obind].
  destruct (map_ok (fun x => py_get x k (VStr "N/A")) items) as [ys| |] eqn:Hmap;
    cbn [obind]; try discriminate.
  destruct (join_strs sep ys) as [s| |] eqn:Hjoin; cbn [obind]; try discriminate.
  intros [= <-]. destruct (join_strs_inv sep ys s Hjoin) as [l ->].
  rewrite join_strs_concat in Hjoin. injection Hjoin as <-.
  rewrite (map_ok_attribute k items l Hmap). reflexivity.
Qed.

Section Rows.
Context {W : Type} `{Remote W}.

(** The dict literal behind a returned row. *)
Ltac row_literal Hrun Hrow :=
  unfold Enhanced._create_global_row in Hrun; cbv zeta in Hrun;
  repeat (apply bind_inv in Hrun as (? & ? & _ & Hrun));
  apply lift_inv in Hrun as [Hrow _].

Ltac joined_column Hrow :=
  match goal with
  | |- dict_find ?k _ = Some _ =>
      let Hv := fresh in
      destruct (literal_find_inv _ _ k _ Hrow eq_refl) as (? & Hv & ->);
      first [ apply joined_attribute in Hv; rewrite Hv; reflexivity
            | simpl in Hv; injection Hv as <-; reflexivity ]
  end.

Lemma summaries_of_row app qapp data_sources retrievers plugins
    index_id cc (s s' : exporter W) row :
  Enhanced._create_global_row app qapp data_sources retrievers plugins
    index_id cc s = (Ok row, s') ->
  holds (summary "data_source_count"
           [("data_source_ids", "dataSourceId"); ("data_source_types", "type");
            ("data_source_names", "displayName"); ("data_source_statuses", "status")]
           data_sources) row
  /\ holds (summary "retriever_count"
             [("retriever_ids", "retrieverId"); ("retriever_types", "type");
              ("retriever_statuses", "status")] retrievers) row
  /\ holds (summary "plugin_count"
             [("plugin_ids", "pluginId"); ("plugin_types", "type");
              ("plugin_statuses", "status")] plugins) row
  /\ dict_find "index_id" row = Some (py_or index_id (VStr "N/A")).
Proof.
  intros Hrun. row_literal Hrun Hrow.
  unfold holds, summary. cbn [map fst snd].
  repeat split; repeat (apply Forall_cons; split; [cbn [fst snd]|]);
    try apply Forall_nil_2; joined_column Hrow.
Qed.

(** X11.  In every row that [_create_global_row] returns, the count
    columns are the lengths of the three collections it was given and
    the joined columns list the members' attributes in the order of the
    collection, "N/A" standing for a missing one; [index_id] is "N/A"
    when there is no index. *)
Theorem row_summarises_collections app qapp data_sources retrievers plugins
    index_id cc (s s' : exporter W) row :
  Enhanced._create_global_row app qapp data_sources retrievers plugins
    index_id cc s = (Ok row, s') ->
  holds (summary "data_source_count"
           [("data_source_ids", "dataSourceId"); ("data_source_types", "type");
            ("data_source_names", "displayName"); ("data_source_statuses", "status")]
           data_sources) row
  /\ holds (summary "retriever_count"
             [("retriever_ids", "retrieverId"); ("retriever_types", "type");
              ("retriever_statuses", "status")] retrievers) row
  /\ holds (summary "plugin_count"
             [("plugin_ids", "pluginId"); ("plugin_types", "type");
              ("plugin_statuses", "status")] plugins) row
  /\ dict_find "index_id" row = Some (py_or index_id (VStr "N/A")).
Proof. apply summaries_of_row. Qed.

(** *** The "N/A" sentinel *)

Lemma key_of_sentinel uid : key_of uid = Ok (KStr "N/A") -> uid = VStr "N/A".
Proof.
  destruct uid as [|b|n|str|t|l|d]; try discriminate.
  intros [= ->]. reflexivity.
Qed.

Lemma sentinel_insert (m : gmap key user_info) k info :
  (k = KStr "N/A" -> info = Enhanced.placeholder (VStr "N/A")) ->
  m !! KStr "N/A" = None \/ m !! KStr "N/A" = Some (Enhanced.placeholder (VStr "N/A")) ->
  <[k:=info]> m !! KStr "N/A" = None
  \/ <[k:=info]> m !! KStr "N/A" = Some (Enhanced.placeholder (VStr "N/A")).
Proof.
  intros Hk Hm. destruct (decide (k = KStr "N/A")) as [->|Hne].
  - right. rewrite lookup_insert_eq, (Hk eq_refl). reflexivity.
  - rewrite lookup_insert_ne by exact Hne. exact Hm.
Qed.

Ltac fields :=
  cbn [snd record_call store_user store_identity_store_id ret
       config aws_region expected_account identity_store_id user_cache calls].

Lemma resolve_keeps_sentinel store uid (s : exporter W) :
  sentinel_kept s (snd (Enhanced.get_user_details store uid s)).
Proof.
  unfold sentinel_kept, sentinel_ok. intros Hs.
  destruct (key_of uid) as [k| |] eqn:Hk.
  2,3: rewrite (resolve_no_key store uid s _ Hk); [exact Hs | discriminate].
  destruct (user_cache s !! k) as [cached|] eqn:Hc.
  { rewrite (resolve_hit store uid k cached s Hk Hc). exact Hs. }
  destruct (negb (truthy store) || str_eq uid "N/A") eqn:Hskip.
  { rewrite (resolve_skip store uid k s Hk Hc Hskip). fields.
    apply sentinel_insert; [|exact Hs].
    intros ->. rewrite (key_of_sentinel uid Hk). reflexivity. }
  assert (k <> KStr "N/A") as Hne.
  { intros ->. rewrite (key_of_sentinel uid Hk) in Hskip.
    rewrite orb_true_r in Hskip. discriminate. }
  destruct (invoke DescribeUser (Enhanced.describe_user_args store uid) (world s))
    as [[response|code] w] eqn:Hr.
  2:{ rewrite (resolve_failed store uid k s code w Hk Hc Hskip Hr). fields.
      apply sentinel_insert; [intros Heq; destruct (Hne Heq) | exact Hs]. }
  rewrite (resolve_reply store uid k s response w Hk Hc Hskip Hr). cbv zeta.
  destruct (Enhanced._extract_email response) as [mail|e|]; [|destruct e|]; fields;
    try exact Hs; apply sentinel_insert;
    solve [intros Heq; destruct (Hne Heq) | exact Hs].
Qed.

Lemma resolve_sentinel store (s : exporter W) :
  sentinel_ok s ->
  exists s',
    Enhanced.get_user_details store (VStr "N/A") s
      = (Ok (Enhanced.placeholder (VStr "N/A")), s')
    /\ user_cache s' !! KStr "N/A" = Some (Enhanced.placeholder (VStr "N/A")).
Proof.
  assert (negb (truthy store) || str_eq (VStr "N/A") "N/A" = true)
    as Hskip by apply orb_true_r.
  intros [Hnone|Hsome].
  - rewrite (resolve_skip _ (VStr "N/A") (KStr "N/A") s eq_refl Hnone Hskip).
    eexists. split; [reflexivity|]. fields. apply lookup_insert_eq.
  - rewrite (resolve_hit _ (VStr "N/A") (KStr "N/A") _ s eq_refl Hsome).
    eexists. split; [reflexivity | exact Hsome].
Qed.

Lemma sentinel_kept_refl (s : exporter W) : sentinel_kept s s.
Proof. intros Hs. exact Hs. Qed.

Lemma sentinel_kept_trans (s1 s2 s3 : exporter W) :
  sentinel_kept s1 s2 -> sentinel_kept s2 s3 -> sentinel_kept s1 s3.
Proof. unfold sentinel_kept. auto. Qed.

Lemma frame_sentinel_kept ops (s s' : exporter W) :
  frame ops s s' -> sentinel_kept s s'.
Proof.
  intros (_ & _ & _ & Hu & _). unfold sentinel_kept, sentinel_ok. rewrite Hu. auto.
Qed.

(** X12.  The cache entry of the "N/A" sentinel, empty or the
    placeholder when a run of [export_all_data] starts, is so when it
    ends, whatever the outcome; and then the row of an application
    without Q Apps shows "N/A" in every creator and updater column,
    whatever the directory holds. *)
Theorem sentinel_row_names_nobody fuel (s : exporter W) :
  sentinel_ok s ->
  sentinel_ok (snd (Enhanced.export_all_data fuel s))
  /\ (forall app data_sources retrievers plugins index_id cc row s',
        Enhanced._create_global_row app VNone data_sources retrievers plugins
          index_id cc s = (Ok row, s') ->
        holds no_author_columns row).
Proof.
  intros Hs. split.
  - apply (export_all_data_respects sentinel_kept sentinel_kept_refl
             sentinel_kept_trans); [| | |exact Hs].
    + intros s1 s2. apply frame_sentinel_kept.
    + intros store uid s1. apply resolve_keeps_sentinel.
    + intros app. apply discover_respects;
        [exact sentinel_kept_refl | exact sentinel_kept_trans
        | intros s1 s2; apply frame_sentinel_kept
        | intros v s1 Hs1; exact Hs1].
  - intros app data_sources retrievers plugins index_id cc row s' Hrun.
    unfold Enhanced._create_global_row in Hrun. cbv zeta in Hrun.
    do 5 (apply bind_inv in Hrun as (? & ? & Hl & Hrun);
          apply lift_inv in Hl as [_ ->]).
    apply bind_inv in Hrun as (creator_id & ? & Hl & Hrun).
    apply lift_inv in Hl as [Hcreator ->]. injection Hcreator as <-.
    apply bind_inv in Hrun as (updater_id & ? & Hl & Hrun).
    apply lift_inv in Hl as [Hupdater ->]. injection Hupdater as <-.
    apply bind_inv in Hrun as (store & ? & Hstore & Hrun).
    unfold self in Hstore. injection Hstore as <- <-.
    apply bind_inv in Hrun as (creator & s1 & Hc & Hrun).
    destruct (resolve_sentinel (identity_store_id s) s Hs) as (s1' & Hc' & Hs1).
    rewrite Hc' in Hc. injection Hc as <- <-.
    apply bind_inv in Hrun as (updater & s2 & Hu & Hrun).
    destruct (resolve_sentinel (identity_store_id s) s1' (or_intror Hs1))
      as (s2' & Hu' & _).
    rewrite Hu' in Hu. injection Hu as <- <-.
    repeat (apply bind_inv in Hrun as (? & ? & _ & Hrun)).
    apply lift_inv in Hrun as [Hrow _].
    unfold holds, no_author_columns.
    repeat (apply Forall_cons; split; [cbn [fst snd]|]); try apply Forall_nil_2.
    all: match goal with
         | |- dict_find ?k _ = Some _ =>
             let Hv := fresh in
             destruct (literal_find_inv _ _ k _ Hrow eq_refl) as (? & Hv & ->);
             injection Hv as <-; reflexivity
         end.
Qed.

(** *** Rows appended by a run *)

Lemma appends_for_each {A} P (body : A -> list dict -> Run W (list dict)) l :
  (forall x, appends P (body x)) -> appends P (for_each body l).
Proof.
  intros Hbody. induction l as [|x l IH]; intros acc s out s' Hrun.
  - injection Hrun as <- <-. exists []. rewrite app_nil_r. split; constructor.
  - cbn [for_each] in Hrun. apply bind_inv in Hrun as (mid & s1 & Hx & Hrun).
    destruct (Hbody x _ _ _ _ Hx) as (rows1 & -> & H1).
    destruct (IH _ _ _ _ Hrun) as (rows2 & -> & H2).
    exists (rows1 ++ rows2). rewrite app_assoc.
    split; [reflexivity | apply Forall_app; split; assumption].
Qed.

Lemma appends_create_rows P include_empty app qapps data_sources retrievers
    plugins index_id cc :
  (forall qapp (s s' : exporter W) row,
     Enhanced._create_global_row app qapp data_sources retrievers plugins
       index_id cc s = (Ok row, s') -> P row) ->
  appends P (Enhanced.create_rows include_empty app qapps data_sources
               retrievers plugins index_id cc).
Proof.
  intros Hrow.
  assert (forall qapp,
            appends P (fun all_data =>
              bind (Enhanced._create_global_row app qapp data_sources retrievers
                      plugins index_id cc)
                   (fun row => ret (all_data ++ [row])))) as Hone.
  { intros qapp acc s out s' Hrun.
    apply bind_inv in Hrun as (row & s1 & Hr & Hrun). injection Hrun as <- <-.
    exists [row]. split; [reflexivity|].
    apply Forall_cons; split; [exact (Hrow _ _ _ _ Hr) | apply Forall_nil_2]. }
  unfold Enhanced.create_rows. intros acc.
  destruct (truthy (VList qapps)); [|destruct (truthy include_empty)].
  - apply (appends_for_each P _ qapps Hone).
  - apply Hone.
  - intros s out s' Hrun. injection Hrun as <- <-.
    exists []. rewrite app_nil_r. split; constructor.
Qed.

Lemma appends_after_qapps P fuel include_empty app app_id index_id qapps :
  (forall qapp data_sources retrievers plugins cc (s s' : exporter W) row,
     (truthy index_id = false -> data_sources = []) ->
     Enhanced._create_global_row app qapp data_sources retrievers plugins
       index_id cc s = (Ok row, s') -> P row) ->
  appends P (Enhanced.after_qapps fuel include_empty app app_id index_id qapps).
Proof.
  intros Hrow acc s out s' Hrun. unfold Enhanced.after_qapps in Hrun.
  apply bind_inv in Hrun as (data_sources & s1 & Hds & Hrun).
  apply bind_inv in Hrun as (retrievers & s2 & _ & Hrun).
  apply bind_inv in Hrun as (plugins & s3 & _ & Hrun).
  apply bind_inv in Hrun as (cc & s4 & _ & Hrun).
  apply (appends_create_rows P include_empty app qapps data_sources retrievers
           plugins index_id cc) in Hrun; [exact Hrun|].
  intros qapp t t' row. apply Hrow.
  intros Hno. rewrite Hno in Hds. injection Hds as <- _. reflexivity.
Qed.

Lemma appends_export_application P fuel include_empty app :
  (forall qapp data_sources retrievers plugins index_id cc (s s' : exporter W) row,
     Enhanced._create_global_row app qapp data_sources retrievers plugins
       index_id cc s = (Ok row, s') -> P row) ->
  appends P (Enhanced.export_application fuel include_empty app).
Proof.
  intros Hrow acc s out s' Hrun. unfold Enhanced.export_application in Hrun.
  do 5 (apply bind_inv in Hrun as (? & ? & _ & Hrun)).
  apply (appends_after_qapps P) in Hrun; [exact Hrun|].
  intros qapp data_sources retrievers plugins cc t t' row _. apply Hrow.
Qed.

(** *** An application without index *)

Lemma not_called_frame o ops (s s' : exporter W) :
  ~ In o ops -> frame ops s s' -> not_called o s s'.
Proof. intros Hout Hf. apply (frame_count o ops s s' Hout Hf). Qed.

Lemma not_called_trans o (s1 s2 s3 : exporter W) :
  not_called o s1 s2 -> not_called o s2 s3 -> not_called o s1 s3.
Proof. unfold not_called. intros H12 H23. rewrite H23. exact H12. Qed.

Lemma not_called_resolve o store uid (s : exporter W) :
  o <> DescribeUser -> not_called o s (snd (Enhanced.get_user_details store uid s)).
Proof.
  intros Ho.
  pose proof (resolver_footprint store uid s)
    as (_ & _ & _ & _ & _ & (made & Hmade & Hall) & _).
  unfold not_called. rewrite Hmade, count_calls_app.
  rewrite (count_calls_outside o [DescribeUser] made); [lia| |exact Hall].
  simpl. intuition congruence.
Qed.

Lemma not_called_create_rows o include_empty app qapps data_sources retrievers
    plugins index_id cc all_data :
  o <> DescribeUser ->
  respects (not_called o)
    (Enhanced.create_rows (W:=W) include_empty app qapps data_sources retrievers
       plugins index_id cc all_data).
Proof.
  intros Ho.
  assert (forall s : exporter W, not_called o s s) as Hrefl by reflexivity.
  pose proof (not_called_trans o) as Htrans.
  assert (forall qapp,
            respects (not_called o)
              (Enhanced._create_global_row (W:=W) app qapp data_sources retrievers
                 plugins index_id cc)) as Hrow.
  { assert (forall store uid,
              respects (W:=W) (not_called o) (Enhanced.get_user_details store uid))
      as Hresolve.
    { intros store uid t. apply not_called_resolve. exact Ho. }
    intros qapp. unfold Enhanced._create_global_row. cbv zeta.
    walk Hrefl Htrans ltac:(apply Hresolve). }
  unfold Enhanced.create_rows.
  destruct (truthy (VList qapps)); [|destruct (truthy include_empty)].
  - apply respects_for_each; [exact Hrefl | exact Htrans|].
    intros qapp acc. apply respects_bind; [exact Htrans | apply Hrow|].
    intros row. apply respects_ret, Hrefl.
  - apply respects_bind; [exact Htrans | apply Hrow|].
    intros row. apply respects_ret, Hrefl.
  - apply respects_ret, Hrefl.
Qed.

(** X13.  For an application without index ([index_id] empty or
    [None]) the exporter calls neither [list_data_sources] nor
    [get_data_source], whatever else happens, and every row it adds
    for the application reports no data source: count 0, empty joined
    columns, index "N/A". *)
Theorem no_index_no_data_sources fuel include_empty app app_id index_id qapps
    all_data (s : exporter W) :
  truthy index_id = false ->
  let run := Enhanced.after_qapps fuel include_empty app app_id index_id qapps
               all_data s in
  count_calls ListDataSources (calls (snd run)) = count_calls ListDataSources (calls s)
  /\ count_calls GetDataSource (calls (snd run)) = count_calls GetDataSource (calls s)
  /\ (forall out, fst run = Ok out ->
        exists rows, out = all_data ++ rows
                     /\ Forall (holds no_data_source_columns) rows).
Proof.
  intros Hno. cbv zeta.
  assert (forall o, o = ListDataSources \/ o = GetDataSource ->
            respects (not_called o)
              (Enhanced.after_qapps (W:=W) fuel include_empty app app_id index_id
                 qapps all_data)) as Hcalls.
  { intros o Ho.
    assert (forall t : exporter W, not_called o t t) as Hrefl by reflexivity.
    pose proof (not_called_trans o) as Htrans.
    unfold Enhanced.after_qapps. rewrite Hno.
    apply respects_bind; [exact Htrans | apply respects_ret, Hrefl | intros ds].
    apply respects_bind; [exact Htrans| |intros retrievers].
    { apply (respects_weaken (frame [ListRetrievers; GetRetriever]));
        [|apply collector_frame].
      intros t t'. apply not_called_frame. simpl. intuition congruence. }
    apply respects_bind; [exact Htrans| |intros plugins].
    { apply (respects_weaken (frame [ListPlugins; GetPlugin]));
        [|apply collector_frame].
      intros t t'. apply not_called_frame. simpl. intuition congruence. }
    apply respects_bind; [exact Htrans| |intros cc].
    { apply (respects_weaken (frame [GetChatControlsConfiguration]));
        [|apply chat_controls_frame].
      intros t t'. apply not_called_frame. simpl. intuition congruence. }
    apply not_called_create_rows. intuition congruence. }
  split; [apply (Hcalls ListDataSources); left; reflexivity|].
  split; [apply (Hcalls GetDataSource); right; reflexivity|].
  intros out Hout.
  destruct (Enhanced.after_qapps fuel include_empty app app_id index_id qapps
              all_data s) as [o s'] eqn:Hrun.
  cbn [fst] in Hout. subst o.
  apply (appends_after_qapps (holds no_data_source_columns)) in Hrun; [exact Hrun|].
  intros qapp data_sources retrievers plugins cc t t' row Hds Hrow.
  rewrite (Hds Hno) in Hrow.
  destruct (summaries_of_row _ _ _ _ _ _ _ _ _ _ Hrow) as (Hsum & _ & _ & Hidx).
  unfold holds, no_data_source_columns.
  apply Forall_cons; split.
  { cbn [fst snd]. rewrite Hidx. unfold py_or. rewrite Hno. reflexivity. }
  exact Hsum.
Qed.

End Rows.

End RowFacts.

(** ** From the collected rows to the CSV file *)

Module Files.
Import Shape Rows Flatten Summary RowFacts Csv.

Lemma dict_find_other k v k' (d : dict) :
  k' <> k -> dict_find k' ((k, v) :: d) = dict_find k' d.
Proof.
  intros Hne. cbn [dict_find]. destruct (String.eqb k' k) eqn:Heq; [|reflexivity].
  apply String.eqb_eq in Heq. contradiction.
Qed.

(** The cells of a row under its own keys are its values, in order. *)
Lemma cells_own_keys (row : dict) :
  NoDup (dict_keys row) -> cells (dict_keys row) row = map snd row.
Proof.
  unfold cells, dict_keys. induction row as [|[k v] rest IH]; [reflexivity|].
  cbn [map fst snd]. intros Hnd. apply NoDup_cons in Hnd as [Hk Hrest]. f_equal.
  - unfold dict_get. cbn [dict_find]. rewrite String.eqb_refl. reflexivity.
  - rewrite <- (IH Hrest). apply map_ext_in. intros key Hkey.
    unfold dict_get. rewrite dict_find_other; [reflexivity|].
    intros ->. apply Hk. apply list_elem_of_In. exact Hkey.
Qed.

Lemma keys_known (columns : list string) :
  forallb (fun k => existsb (String.eqb k) columns) columns = true.
Proof.
  apply forallb_forall. intros k Hk. apply existsb_exists.
  exists k. split; [exact Hk | apply String.eqb_refl].
Qed.

Lemma uniform_rows_written columns data :
  NoDup columns -> Forall (fun row => dict_keys row = columns) data ->
  writerows_raise columns data = map (map snd) data.
Proof.
  intros Hnd Hall. induction Hall as [|row rest Hrow Hrest IH]; [reflexivity|].
  cbn [writerows_raise map]. rewrite Hrow, keys_known, IH. f_equal.
  rewrite <- Hrow. apply cells_own_keys. rewrite Hrow. exact Hnd.
Qed.

Lemma global_row_columns_distinct : NoDup global_row_columns.
Proof. refine (bool_decide_unpack (NoDup global_row_columns) _). vm_compute. reflexivity. Qed.

Lemma data_row_columns_distinct : NoDup data_row_columns.
Proof. refine (bool_decide_unpack (NoDup data_row_columns) _). vm_compute. reflexivity. Qed.

Lemma all_fieldnames_complete : QAppsInfo.all_fieldnames ≡ₚ data_row_columns.
Proof.
  refine (bool_decide_unpack (QAppsInfo.all_fieldnames ≡ₚ data_row_columns) _).
  vm_compute. reflexivity.
Qed.

Lemma dict_find_key k (d : dict) :
  In k (dict_keys d) -> exists v, dict_find k d = Some v.
Proof.
  induction d as [|[k' v'] rest IH]; [intros []|].
  cbn [dict_keys map fst dict_find]. destruct (String.eqb k k') eqn:Heq; [eauto|].
  intros [Hhead|Htail]; [|apply IH, Htail].
  subst k'. rewrite String.eqb_refl in Heq. discriminate.
Qed.

Lemma cells_found columns (row : dict) :
  (forall col, In col columns -> In col (dict_keys row)) ->
  Forall2 (fun col cell => dict_find col row = Some cell) columns (cells columns row).
Proof.
  unfold cells. induction columns as [|col rest IH]; intros Hin; [constructor|].
  cbn [map]. constructor.
  - destruct (dict_find_key col row (Hin col (or_introl eq_refl))) as [v Hv].
    unfold dict_get. rewrite Hv. reflexivity.
  - apply IH. intros c Hc. apply Hin. right. exact Hc.
Qed.

Lemma enabled_columns_kept cc cols kept :
  QAppsInfo.enabled_columns cc cols = Ok kept -> forall col, In col kept -> In col cols.
Proof.
  revert kept. induction cols as [|c rest IH]; intros kept.
  { intros [= <-] col []. }
  cbn [QAppsInfo.enabled_columns].
  destruct (py_get cc c (VBool true)) as [flag| |]; cbn [obind]; try discriminate.
  destruct (QAppsInfo.enabled_columns cc rest) as [kept'| |]; cbn [obind];
    try discriminate.
  intros [= <-] col Hcol. destruct (truthy flag).
  - destruct Hcol as [<-|Hcol]; [left; reflexivity | right; apply (IH kept' eq_refl), Hcol].
  - right. apply (IH kept' eq_refl), Hcol.
Qed.

Lemma csv_settings_columns cfg columns encoding hdr :
  QAppsInfo.csv_settings cfg = Ok (columns, encoding, hdr) ->
  forall col, In col columns -> In col QAppsInfo.all_fieldnames.
Proof.
  unfold QAppsInfo.csv_settings.
  destruct (py_get cfg "output" (VDict [])) as [output| |]; cbn [obind]; try discriminate.
  destruct (py_get output "columns" (VDict [])) as [cc| |]; cbn [obind]; try discriminate.
  destruct (QAppsInfo.fieldnames_for cc) as [fs| |] eqn:Hfs; cbn [obind]; try discriminate.
  intros Hrest.
  assert (fs = columns) as <-.
  { repeat match type of Hrest with
           | obind ?o _ = _ => destruct o; cbn [obind] in Hrest; try discriminate
           end.
    injection Hrest as -> _ _. reflexivity. }
  unfold QAppsInfo.fieldnames_for in Hfs. destruct (truthy cc).
  - apply (enabled_columns_kept _ _ _ Hfs).
  - injection Hfs as <-. auto.
Qed.

(** The rows [writerows] wrote are the leading rows, all of them when
    it came to its end. *)
Lemma writerows_leading `{Codecs} codec columns data : forall records complete,
  QAppsCsv.writerows codec columns data = (records, complete) ->
  records = map (cells columns) (take (length records) data)
  /\ (complete = true -> length records = length data).
Proof.
  induction data as [|row rest IH]; intros records complete.
  { intros [= <- <-]. split; reflexivity. }
  cbn [QAppsCsv.writerows].
  destruct (encodes codec (cells columns row)).
  - destruct (QAppsCsv.writerows codec columns rest) as [records' complete'].
    intros [= <- <-]. destruct (IH records' complete' eq_refl) as [Hrecords Hall].
    cbn [length take map]. split.
    + f_equal. exact Hrecords.
    + intros Hc. rewrite (Hall Hc). reflexivity.
  - intros [= <- <-]. split; [reflexivity | discriminate].
Qed.


(** What a saved file says about the [try] block that wrote it. *)
Lemma saved_file `{Codecs} name cfg data name' file complete :
  QAppsCsv.write_file name cfg data = QAppsCsv.Saved name' file complete ->
  exists encoding hdr,
    QAppsInfo.csv_settings cfg = Ok (fieldnames file, encoding, hdr)
    /\ name' = name
    /\ records file = map (cells (fieldnames file)) (take (length (records file)) data)
    /\ (complete = true -> length (records file) = length data).
Proof.
  unfold QAppsCsv.write_file.
  destruct (QAppsInfo.csv_settings cfg) as [[[columns encoding] hdr]| |];
    try discriminate.
  destruct (QAppsCsv.open_text encoding) as [| |codec]; try discriminate.
  destruct (QAppsCsv.writerows codec columns data) as [recs done] eqn:Hrows.
  destruct (writerows_leading codec columns data recs done Hrows)
    as [Hrecords Hall].
  destruct (truthy hdr); [destruct (encodes codec (map VStr columns))|];
    intros [= <- <- <-]; exists encoding, hdr; cbn [fieldnames records];
    repeat split; try assumption; try reflexivity; discriminate.
Qed.

Lemma export_saved `{Codecs} stamp day time cfg region account data filename
    name file complete :
  QAppsCsv.export_to_csv stamp day time cfg region account data filename
    = Ok (QAppsCsv.Saved name file complete) ->
  exists name', QAppsCsv.write_file name' cfg data = QAppsCsv.Saved name file complete.
Proof.
  unfold QAppsCsv.export_to_csv. destruct data as [|first rest]; [discriminate|].
  destruct (Filename.csv_filename stamp day time cfg region account filename)
    as [given| |]; cbn [obind]; try discriminate.
  destruct (QAppsCsv.path_name given) as [name'| |]; cbn [obind]; try discriminate.
  intros [= Hfile]. eauto.
Qed.

Section Runs.
Context {W : Type} `{Remote W} `{Codecs}.

(** X14.  When [export_all_data] returns, every row has the same 69
    columns in the same order, so [export_to_csv] of the enhanced
    exporter, which takes its columns from the first row, accepts
    every row: the file has those columns and, row by row, exactly the
    values of the collected rows in their order. *)
Theorem exported_rows_fill_the_csv fuel (s s' : exporter W) rows :
  Enhanced.export_all_data fuel s = (Ok rows, s') ->
  Forall (fun row => dict_keys row = global_row_columns) rows
  /\ (rows <> [] ->
      EnhancedCsv.export_to_csv rows
        = Some (CsvFile global_row_columns true (map (map snd) rows))).
Proof.
  intros Hrun. unfold Enhanced.export_all_data in Hrun.
  do 4 (apply bind_inv in Hrun as (? & ? & _ & Hrun)).
  apply (appends_for_each (fun row => dict_keys row = global_row_columns)) in Hrun.
  2:{ intros app. apply appends_export_application.
      intros qapp ds rs ps idx cc t t' row. apply global_row_keys. }
  destruct Hrun as (out & -> & Hall). cbn [app].
  split; [exact Hall|]. intros Hsome.
  destruct out as [|first rest]; [contradiction|].
  unfold EnhancedCsv.export_to_csv.
  pose proof (Forall_inv Hall) as Hfirst. cbn beta in Hfirst. rewrite Hfirst.
  rewrite (uniform_rows_written _ _ global_row_columns_distinct Hall). reflexivity.
Qed.

Lemma appends_data_rows include_empty app qapps :
  appends (W:=W) (fun row => dict_keys row = data_row_columns)
    (QAppsInfo.create_rows include_empty app qapps).
Proof.
  assert (forall qapp,
            appends (W:=W) (fun row => dict_keys row = data_row_columns)
              (fun all_data =>
                 bind (QAppsInfo._create_data_row app qapp)
                      (fun row => ret (all_data ++ [row])))) as Hone.
  { intros qapp acc s out s' Hrun.
    apply bind_inv in Hrun as (row & s1 & Hr & Hrun). injection Hrun as <- <-.
    exists [row]. split; [reflexivity|].
    apply Forall_cons; split; [exact (data_row_keys _ _ _ _ _ Hr) | apply Forall_nil_2]. }
  unfold QAppsInfo.create_rows. intros acc.
  destruct (truthy (VList qapps)); [|destruct (truthy include_empty)].
  - apply (appends_for_each _ _ qapps Hone).
  - apply Hone.
  - intros s out s' Hrun. injection Hrun as <- <-.
    exists []. rewrite app_nil_r. split; constructor.
Qed.

(** X15.  When [retrieve_all_data] returns, every row has the 25
    columns of [_create_data_row]; in the file [export_to_csv] then
    leaves, the records are the leading rows in their order, all of
    them when the writing came to its end, every cell is the value the
    row holds under the cell's column (none is filled in with the empty
    default), and with no column switched off each record holds all the
    values of its row. *)
Theorem retrieved_rows_fill_the_csv fuel (s s' : exporter W) rows
    stamp day time cfg region account filename name file complete :
  QAppsInfo.retrieve_all_data fuel s = (Ok rows, s') ->
  QAppsCsv.export_to_csv stamp day time cfg region account rows filename
    = Ok (QAppsCsv.Saved name file complete) ->
  Forall (fun row => dict_keys row = data_row_columns) rows
  /\ Forall2 (fun row record =>
               Forall2 (fun col cell => dict_find col row = Some cell)
                 (fieldnames file) record
               /\ (fieldnames file = QAppsInfo.all_fieldnames ->
                   record ≡ₚ map snd row))
       (take (length (records file)) rows) (records file)
  /\ (complete = true -> length (records file) = length rows).
Proof.
  intros Hrun Hfile. unfold QAppsInfo.retrieve_all_data in Hrun.
  do 4 (apply bind_inv in Hrun as (? & ? & _ & Hrun)).
  apply (appends_for_each (fun row => dict_keys row = data_row_columns)) in Hrun.
  2:{ intros app acc t out t' Happ. unfold QAppsInfo.retrieve_application in Happ.
      do 4 (apply bind_inv in Happ as (? & ? & _ & Happ)).
      apply appends_data_rows in Happ. exact Happ. }
  destruct Hrun as (out & -> & Hall). cbn [app] in *.
  split; [exact Hall|].
  apply export_saved in Hfile as [name' Hfile].
  apply saved_file in Hfile as (encoding & hdr & Hset & _ & Hrecords & Hcomplete).
  split; [|exact Hcomplete].
  pose proof (csv_settings_columns cfg _ encoding hdr Hset) as Hsub.
  assert (forall data,
            Forall (fun row => dict_keys row = data_row_columns) data ->
            Forall2 (fun row record =>
                       Forall2 (fun col cell => dict_find col row = Some cell)
                         (fieldnames file) record
                       /\ (fieldnames file = QAppsInfo.all_fieldnames ->
                           record ≡ₚ map snd row))
              data (map (cells (fieldnames file)) data)) as Hcells.
  { intros data Hdata.
    induction Hdata as [|row more Hrow Hmore IH]; [constructor|].
    cbn [map]. constructor; [|exact IH]. split.
    - apply cells_found. intros col Hcol. rewrite Hrow.
      apply (Permutation_in col all_fieldnames_complete), Hsub, Hcol.
    - intros ->.
      rewrite <- cells_own_keys by (rewrite Hrow; exact data_row_columns_distinct).
      unfold cells. apply Permutation_map. rewrite Hrow.
      exact all_fieldnames_complete. }
  rewrite Hrecords at 2. apply Hcells. apply Forall_take. exact Hall.
Qed.

End Runs.

Section Settings.
Context `{Codecs}.

(** X16.  A column configuration that is not a dictionary but is
    truthy (a list of column names, a string) makes [export_to_csv] of
    get_qapps_info write no file at all, whatever the data; with a
    falsy one ([None], an empty list) a file that is written has all
    25 columns. *)
Theorem column_list_writes_no_file stamp day time region account filename name
    c o columns first rest :
  section c "output" = Some o ->
  dict_find "columns" o = Some columns ->
  is_dict columns = false ->
  Filename.csv_filename stamp day time (VDict c) region account filename
    = Ok (VStr name) ->
  (truthy columns = true ->
   QAppsCsv.export_to_csv stamp day time (VDict c) region account
     (first :: rest) filename = Ok QAppsCsv.NoFile)
  /\ (truthy columns = false ->
      forall name' file complete,
        QAppsCsv.export_to_csv stamp day time (VDict c) region account
          (first :: rest) filename = Ok (QAppsCsv.Saved name' file complete) ->
        fieldnames file = QAppsInfo.all_fieldnames).
Proof.
  intros Ho Hcols Hshape Hname.
  assert (QAppsInfo.csv_settings (VDict c)
          = obind (QAppsInfo.fieldnames_for columns) (fun fieldnames =>
            obind (py_get (VDict c) "export" (VDict [])) (fun export =>
            obind (py_get export "csv" (VDict [])) (fun csv =>
            obind (py_get csv "encoding" (VStr "utf-8")) (fun encoding =>
            obind (py_get (VDict c) "export" (VDict [])) (fun export' =>
            obind (py_get export' "csv" (VDict [])) (fun csv' =>
            obind (py_get csv' "include_headers" (VBool true)) (fun include_headers =>
            Ok (fieldnames, encoding, include_headers))))))))) as Hset.
  { unfold QAppsInfo.csv_settings. cbn [py_get obind].
    rewrite (section_get _ _ _ Ho). cbn [py_get obind].
    unfold dict_get. rewrite Hcols. reflexivity. }
  split; intros Ht.
  - unfold QAppsCsv.export_to_csv. rewrite Hname. cbn [obind QAppsCsv.path_name].
    unfold QAppsCsv.write_file. rewrite Hset.
    unfold QAppsInfo.fieldnames_for. rewrite Ht.
    destruct columns; try discriminate; reflexivity.
  - intros name' file complete Hfile.
    apply export_saved in Hfile as [given Hfile].
    apply saved_file in Hfile as (encoding & hdr & Hsaved & _).
    rewrite Hset in Hsaved. unfold QAppsInfo.fieldnames_for in Hsaved.
    rewrite Ht in Hsaved. cbn [obind] in Hsaved.
    repeat match type of Hsaved with
           | obind ?o _ = _ => destruct o; cbn [obind] in Hsaved; try discriminate
           end.
    injection Hsaved as <- _ _. reflexivity.
Qed.


End Settings.

End Files.

(** ** The exporter without user details *)

Module PlainRows.
Import Shape Rows Flatten Summary Footprint Frames WholeRun RowFacts.

Lemma literal_split k e rest d :
  literal ((k, e) :: rest) = Ok d ->
  exists v d', e = Ok v /\ literal rest = Ok d' /\ d = (k, v) :: d'.
Proof.
  cbn [literal]. destruct e as [v| |]; cbn [obind]; try discriminate.
  destruct (literal rest) as [d'| |]; cbn [obind]; try discriminate.
  intros [= <-]. eauto.
Qed.

Lemma plain_row_columns_distinct : NoDup GlobalRows.row_columns.
Proof.
  refine (bool_decide_unpack (NoDup GlobalRows.row_columns) _).
  vm_compute. reflexivity.
Qed.

Section Rows.
Context {W : Type} `{Remote W}.

Lemma plain_row_of_enhanced app qapp data_sources retrievers plugins
    index_id cc (s s_e : exporter W) row_e :
  Enhanced._create_global_row app qapp data_sources retrievers plugins
    index_id cc s = (Ok row_e, s_e) ->
  exists row,
    GlobalRows._create_global_row app qapp data_sources retrievers plugins
      index_id cc s = (Ok row, s)
    /\ dict_keys row = GlobalRows.row_columns
    /\ Forall (fun k => dict_find k row = dict_find k row_e)
         GlobalRows.shared_columns
    /\ dict_find "qapp_owner_created_by" row = dict_find "qapp_creator_user_id" row_e
    /\ dict_find "qapp_updated_by" row = dict_find "qapp_updater_user_id" row_e
    /\ dict_find "export_timestamp" row = Some (VStr (clock (world s))).
Proof.
  intros Hrun. unfold Enhanced._create_global_row in Hrun. cbv beta zeta in Hrun.
  apply bind_inv in Hrun as (attachments & ? & Hl & Hrun).
  apply lift_inv in Hl as [Ha1 ->].
  apply bind_inv in Hrun as (auto_sub & ? & Hl & Hrun).
  apply lift_inv in Hl as [Ha2 ->].
  apply bind_inv in Hrun as (personalization & ? & Hl & Hrun).
  apply lift_inv in Hl as [Ha3 ->].
  apply bind_inv in Hrun as (qapps_config & ? & Hl & Hrun).
  apply lift_inv in Hl as [Ha4 ->].
  apply bind_inv in Hrun as (quicksight_config & ? & Hl & Hrun).
  apply lift_inv in Hl as [Ha5 ->].
  apply bind_inv in Hrun as (creator_id & ? & Hl & Hrun).
  apply lift_inv in Hl as [Hcreator ->].
  apply bind_inv in Hrun as (updater_id & ? & Hl & Hrun).
  apply lift_inv in Hl as [Hupdater ->].
  assert (exists name,
            when_app qapp
              (obind (py_get qapp "libraryItemId" (VStr "No Q Apps"))
                 (fun id => py_get qapp "title" id))
              (VStr "No Q Apps") = Ok name) as [name Hname].
  { unfold when_app in *. destruct (truthy qapp); [|eauto].
    destruct qapp; try discriminate. cbn [py_get obind]. eauto. }
  apply bind_inv in Hrun as (store & ? & Hstore & Hrun).
  unfold self in Hstore. injection Hstore as <- <-.
  apply bind_inv in Hrun as (creator_info & s1 & Hs1 & Hrun).
  apply bind_inv in Hrun as (updater_info & s2 & Hs2 & Hrun).
  pose proof (resolver_footprint (identity_store_id s) creator_id s)
    as (_ & Hregion1 & Haccount1 & _).
  pose proof (resolver_footprint (identity_store_id s) updater_id s1)
    as (_ & Hregion2 & Haccount2 & _).
  rewrite Hs1 in Hregion1, Haccount1. rewrite Hs2 in Hregion2, Haccount2.
  cbn [snd] in Hregion1, Haccount1, Hregion2, Haccount2.
  apply bind_inv in Hrun as (timestamp & ? & Hnow & Hrun).
  unfold now_iso in Hnow. injection Hnow as <- <-.
  apply bind_inv in Hrun as (region & ? & Hregion & Hrun).
  unfold self in Hregion. injection Hregion as <- <-.
  apply bind_inv in Hrun as (account & ? & Haccount & Hrun).
  unfold self in Haccount. injection Haccount as <- <-.
  rewrite Hregion2, Hregion1, Haccount2, Haccount1 in Hrun.
  apply lift_inv in Hrun as [Hrow _].
  repeat (apply literal_split in Hrow as (? & ? & ? & Hrow & ->)).
  injection Hrow as <-.
  unfold GlobalRows._create_global_row. cbv beta zeta.
  rewrite (bind_lift_ok _ _ _ _ Ha1), (bind_lift_ok _ _ _ _ Ha2),
    (bind_lift_ok _ _ _ _ Ha3), (bind_lift_ok _ _ _ _ Ha4),
    (bind_lift_ok _ _ _ _ Ha5).
  unfold bind, now_iso, self, lift. rewrite Hname, Hcreator, Hupdater.
  repeat match goal with
         | Hfield : _ = Ok _ |- _ => rewrite Hfield; clear Hfield
         end.
  cbn [literal obind]. eexists. split; [reflexivity|].
  split; [reflexivity|].
  split.
  { let l := eval vm_compute in GlobalRows.shared_columns in
    change GlobalRows.shared_columns with l.
    repeat (apply Forall_cons; split; [reflexivity|]). apply Forall_nil_2. }
  repeat split; reflexivity.
Qed.

(** X17.  Whenever the enhanced [_create_global_row] returns a row,
    the plain one of get_qbusiness_global returns one for the same
    arguments, without touching the exporter, and the two rows agree on
    every column they share; the plain row shows the author ids the
    enhanced row has under [qapp_creator_user_id] and
    [qapp_updater_user_id] as [qapp_owner_created_by] and
    [qapp_updated_by]. *)
Theorem plain_row_agrees_with_enhanced app qapp data_sources retrievers plugins
    index_id cc (s s_e : exporter W) row_e :
  Enhanced._create_global_row app qapp data_sources retrievers plugins
    index_id cc s = (Ok row_e, s_e) ->
  exists row,
    GlobalRows._create_global_row app qapp data_sources retrievers plugins
      index_id cc s = (Ok row, s)
    /\ dict_keys row = GlobalRows.row_columns
    /\ Forall (fun k => dict_find k row = dict_find k row_e)
         GlobalRows.shared_columns
    /\ dict_find "qapp_owner_created_by" row = dict_find "qapp_creator_user_id" row_e
    /\ dict_find "qapp_updated_by" row = dict_find "qapp_updater_user_id" row_e
    /\ dict_find "export_timestamp" row = Some (VStr (clock (world s))).
Proof. apply plain_row_of_enhanced. Qed.

Lemma plain_row_keys app qapp data_sources retrievers plugins index_id cc
    (s s' : exporter W) row :
  GlobalRows._create_global_row app qapp data_sources retrievers plugins
    index_id cc s = (Ok row, s') ->
  dict_keys row = GlobalRows.row_columns.
Proof.
  unfold GlobalRows._create_global_row. cbv zeta. intros Hrun.
  repeat (apply bind_inv in Hrun as (? & ? & _ & Hrun)).
  apply lift_inv in Hrun as [Hrow _].
  apply literal_keys in Hrow. rewrite Hrow. reflexivity.
Qed.

Lemma plain_row_frame app qapp data_sources retrievers plugins index_id cc :
  respects (W:=W) (frame [])
    (GlobalRows._create_global_row app qapp data_sources retrievers plugins
       index_id cc).
Proof.
  pose proof (frame_refl (W:=W) []) as Hrefl.
  pose proof (frame_trans (W:=W) []) as Htrans.
  unfold GlobalRows._create_global_row. cbv zeta.
  walk Hrefl Htrans ltac:(fail).
Qed.

Lemma plain_rows_frame include_empty app qapps data_sources retrievers plugins
    index_id cc all_data :
  respects (W:=W) (frame [])
    (GlobalRows.create_rows include_empty app qapps data_sources retrievers
       plugins index_id cc all_data).
Proof.
  pose proof (frame_refl (W:=W) []) as Hrefl.
  pose proof (frame_trans (W:=W) []) as Htrans.
  unfold GlobalRows.create_rows.
  destruct (truthy (VList qapps)); [|destruct (truthy include_empty)].
  - apply respects_for_each; [exact Hrefl | exact Htrans|].
    intros qapp acc. apply respects_bind; [exact Htrans | apply plain_row_frame|].
    intros row. apply respects_ret, Hrefl.
  - apply respects_bind; [exact Htrans | apply plain_row_frame|].
    intros row. apply respects_ret, Hrefl.
  - apply respects_ret, Hrefl.
Qed.

Lemma plain_application_frame fuel include_empty app all_data :
  respects (W:=W) (frame inventory_ops)
    (GlobalRows.export_application fuel include_empty app all_data).
Proof.
  pose proof (frame_refl (W:=W) inventory_ops) as Hrefl.
  pose proof (frame_trans (W:=W) inventory_ops) as Htrans.
  assert (forall A ops (m : Run W A),
            (forall o, In o ops -> In o inventory_ops) ->
            respects (frame ops) m -> respects (frame inventory_ops) m) as Hin.
  { intros A ops m Hsub Hm. apply (respects_weaken (frame ops)); [|exact Hm].
    intros t t'. apply frame_weaken. exact Hsub. }
  unfold GlobalRows.export_application.
  apply respects_bind; [exact Htrans | apply respects_lift, Hrefl | intros app_id].
  apply respects_bind; [exact Htrans | apply respects_lift, Hrefl | intros app_name].
  apply respects_bind; [exact Htrans| |intros index_id].
  { apply (Hin _ [ListIndices]); [unfold inventory_ops; simpl; intuition|].
    apply first_index_frame. }
  apply respects_bind; [exact Htrans| |intros qapps].
  { apply (Hin _ [ListLibraryItems; GetLibraryItem]);
      [unfold inventory_ops; simpl; intuition | apply collector_frame]. }
  apply respects_bind; [exact Htrans| |intros data_sources].
  { destruct (truthy index_id); [|apply respects_ret, Hrefl].
    apply (Hin _ [ListDataSources; GetDataSource]);
      [unfold inventory_ops; simpl; intuition | apply collector_frame]. }
  apply respects_bind; [exact Htrans| |intros retrievers].
  { apply (Hin _ [ListRetrievers; GetRetriever]);
      [unfold inventory_ops; simpl; intuition | apply collector_frame]. }
  apply respects_bind; [exact Htrans| |intros plugins].
  { apply (Hin _ [ListPlugins; GetPlugin]);
      [unfold inventory_ops; simpl; intuition | apply collector_frame]. }
  apply respects_bind; [exact Htrans| |intros chat_controls].
  { apply (Hin _ [GetChatControlsConfiguration]);
      [unfold inventory_ops; simpl; intuition | apply chat_controls_frame]. }
  apply (Hin _ []); [intros o [] | apply plain_rows_frame].
Qed.

Lemma appends_plain_rows include_empty app qapps data_sources retrievers plugins
    index_id cc :
  appends (W:=W) (fun row => dict_keys row = GlobalRows.row_columns)
    (GlobalRows.create_rows include_empty app qapps data_sources retrievers
       plugins index_id cc).
Proof.
  assert (forall qapp,
            appends (W:=W) (fun row => dict_keys row = GlobalRows.row_columns)
              (fun all_data =>
                 bind (GlobalRows._create_global_row app qapp data_sources
                         retrievers plugins index_id cc)
                      (fun row => ret (all_data ++ [row])))) as Hone.
  { intros qapp acc s out s' Hrun.
    apply bind_inv in Hrun as (row & s1 & Hr & Hrun). injection Hrun as <- <-.
    exists [row]. split; [reflexivity|].
    apply Forall_cons; split; [|apply Forall_nil_2].
    exact (plain_row_keys _ _ _ _ _ _ _ _ _ _ Hr). }
  unfold GlobalRows.create_rows. intros acc.
  destruct (truthy (VList qapps)); [|destruct (truthy include_empty)].
  - apply (appends_for_each _ _ qapps Hone).
  - apply Hone.
  - intros s out s' Hrun. injection Hrun as <- <-.
    exists []. rewrite app_nil_r. split; constructor.
Qed.

(** X18.  A run of the plain [export_all_data], whatever its outcome,
    calls only the twelve inventory operations of Q Business and Q
    Apps (never the identity services) and leaves configuration,
    region, account, identity cache and identity store id as they
    were; when it returns, each row has the 63 columns of the plain
    [_create_global_row], so that its [export_to_csv] (the writer of
    the enhanced exporter, with the columns of the first row) holds
    exactly the values of the rows. *)
Theorem plain_export_stays_in_inventory fuel (s : exporter W) :
  frame inventory_ops s (snd (GlobalRows.export_all_data fuel s))
  /\ (forall rows,
        fst (GlobalRows.export_all_data fuel s) = Ok rows ->
        Forall (fun row => dict_keys row = GlobalRows.row_columns) rows
        /\ (rows <> [] ->
            EnhancedCsv.export_to_csv rows
              = Some (CsvFile GlobalRows.row_columns true (map (map snd) rows)))).
Proof.
  pose proof (frame_refl (W:=W) inventory_ops) as Hrefl.
  pose proof (frame_trans (W:=W) inventory_ops) as Htrans.
  split.
  - revert s. change (respects (frame inventory_ops) (GlobalRows.export_all_data fuel)).
    unfold GlobalRows.export_all_data.
    apply respects_bind; [exact Htrans | apply respects_self, Hrefl | intros cfg].
    apply respects_bind; [exact Htrans | apply respects_lift, Hrefl | intros export].
    apply respects_bind; [exact Htrans | apply respects_lift, Hrefl | intros include].
    apply respects_bind; [exact Htrans| |intros applications].
    { apply (respects_weaken (frame [ListApplications; GetApplication]));
        [|apply collector_frame].
      intros t t'. apply frame_weaken. unfold inventory_ops. simpl. intuition. }
    apply respects_for_each; [exact Hrefl | exact Htrans|].
    intros app acc. apply plain_application_frame.
  - intros rows Hrows.
    destruct (GlobalRows.export_all_data fuel s) as [o s'] eqn:Hrun.
    cbn [fst] in Hrows. subst o. unfold GlobalRows.export_all_data in Hrun.
    do 4 (apply bind_inv in Hrun as (? & ? & _ & Hrun)).
    apply (appends_for_each (fun row => dict_keys row = GlobalRows.row_columns))
      in Hrun.
    2:{ intros app acc t out t' Happ. unfold GlobalRows.export_application in Happ.
        do 8 (apply bind_inv in Happ as (? & ? & _ & Happ)).
        apply appends_plain_rows in Happ. exact Happ. }
    destruct Hrun as (out & -> & Hall). cbn [app].
    split; [exact Hall|]. intros Hsome.
    destruct out as [|first rest]; [contradiction|].
    unfold EnhancedCsv.export_to_csv.
    pose proof (Forall_inv Hall) as Hfirst. cbn beta in Hfirst. rewrite Hfirst.
    rewrite (Files.uniform_rows_written _ _ plain_row_columns_distinct Hall).
    reflexivity.
Qed.

End Rows.

End PlainRows.

(** ** The name of the CSV file *)

Module Names.
Import Shape Rows Filename.

Lemma replace_plain old' new a b :
  brace_free a = true ->
  replace_skip (String "{" old') new 0 (a +:+ b)
    = a +:+ replace_skip (String "{" old') new 0 b.
Proof.
  induction a as [|c a IH]; intros Hfree; [reflexivity|].
  cbn [brace_free] in Hfree. apply andb_true_iff in Hfree as [Hc Ha].
  change (String c a +:+ b) with (String c (a +:+ b)).
  cbn [replace_skip String.prefix].
  destruct (ascii_dec "{" c) as [Heq|Hne].
  - subst c. discriminate.
  - rewrite (IH Ha). reflexivity.
Qed.

Lemma replace_passed old new a b :
  replace_skip old new (String.length a) (a +:+ b) = replace_skip old new 0 b.
Proof.
  induction a as [|c a IH]; [reflexivity|].
  change (String c a +:+ b) with (String c (a +:+ b)).
  cbn [String.length replace_skip]. exact IH.
Qed.

Lemma prefix_self a b : String.prefix a (a +:+ b) = true.
Proof.
  induction a as [|c a IH]; [destruct b; reflexivity|].
  change (String c a +:+ b) with (String c (a +:+ b)).
  cbn [String.prefix]. destruct (ascii_dec c c); [exact IH | contradiction].
Qed.

Lemma replace_found c old' new b :
  replace_skip (String c old') new 0 (String c old' +:+ b)
    = new +:+ replace_skip (String c old') new 0 b.
Proof.
  pose proof (prefix_self (String c old') b) as Hp.
  change (String c old' +:+ b) with (String c (old' +:+ b)) in *.
  cbn [replace_skip]. rewrite Hp.
  replace (String.length (String c old') - 1) with (String.length old')
    by (cbn [String.length]; lia).
  f_equal. apply replace_passed.
Qed.

Lemma replace_other h h' new b :
  hole_eqb h' h = false ->
  str_replace (placeholder h) new (placeholder h' +:+ b)
    = placeholder h' +:+ str_replace (placeholder h) new b.
Proof.
  unfold str_replace.
  destruct h, h'; try discriminate; intros _; cbn [placeholder].
  all: match goal with
       | |- replace_skip ?old ?n 0 (String ?c ?t +:+ ?x) = _ =>
           change (String c t +:+ x) with (String c (t +:+ x));
           change (replace_skip old n 0 (String c (t +:+ x)))
             with (String c (replace_skip old n 0 (t +:+ x)));
           rewrite (replace_plain _ n t x eq_refl); reflexivity
       end.
Qed.

Lemma fill_plain h new p : brace_free new = true -> plain p = true -> plain (fill h new p) = true.
Proof.
  intros Hnew Hp. destruct p as [s|h']; [exact Hp|].
  cbn [fill]. destruct (hole_eqb h' h); [exact Hnew | reflexivity].
Qed.

Lemma placeholder_shape h : exists rest, placeholder h = String "{" rest.
Proof. destruct h; eexists; reflexivity. Qed.

(** One [replace] fills the placeholder wherever it stands and leaves
    the rest of the pattern alone. *)
Lemma replace_pieces h new pieces :
  forallb plain pieces = true ->
  str_replace (placeholder h) new (text_of pieces)
    = text_of (map (fill h new) pieces).
Proof.
  induction pieces as [|p rest IH]; intros Hplain; [reflexivity|].
  cbn [forallb] in Hplain. apply andb_true_iff in Hplain as [Hp Hrest].
  cbn [text_of fold_right map]. fold (text_of rest).
  fold (text_of (map (fill h new) rest)). rewrite <- (IH Hrest).
  destruct p as [s|h'].
  - cbn [written fill]. unfold str_replace.
    destruct (placeholder_shape h) as [old' ->].
    apply replace_plain. exact Hp.
  - cbn [written fill]. destruct (hole_eqb h' h) eqn:Heq.
    + assert (h' = h) as -> by (destruct h', h; try discriminate; reflexivity).
      cbn [written]. unfold str_replace.
      destruct (placeholder_shape h) as [old' ->]. apply replace_found.
    + cbn [written]. apply replace_other. exact Heq.
Qed.

Lemma fill_all_plain h new pieces :
  brace_free new = true -> forallb plain pieces = true ->
  forallb plain (map (fill h new) pieces) = true.
Proof.
  intros Hnew. induction pieces as [|p rest IH]; [reflexivity|].
  cbn [forallb map]. intros Hall. apply andb_true_iff in Hall as [Hp Hrest].
  rewrite (fill_plain h new p Hnew Hp), (IH Hrest). reflexivity.
Qed.


Lemma text_of_map (f : piece -> piece) (g : piece -> string) pieces :
  (forall p, written (f p) = g p) ->
  text_of (map f pieces) = fold_right (fun p rest => g p +:+ rest) "" pieces.
Proof.
  intros Hfg. induction pieces as [|p rest IH]; [reflexivity|].
  cbn [map text_of fold_right]. fold (text_of (map f rest)).
  rewrite IH, Hfg. reflexivity.
Qed.

(** X19.  The name [export_to_csv] of get_qapps_info gives its file
    when none is passed: the configured pattern (or the default
    "qapps_export_{datetime}") with each placeholder replaced by its
    value wherever it stands, the text between the placeholders
    unchanged, and ".csv" appended; "{account}" stays as it is written
    when no account is configured.  Stated for patterns whose text
    between the placeholders has no opening brace and for values
    without one.  A pattern that is not text makes the method raise. *)
Theorem filename_from_pattern stamp day time region account c e pieces pattern :
  section c "export" = Some e ->
  dict_get e "filename_pattern" (VStr "qapps_export_{datetime}") = pattern ->
  (pattern = VStr (text_of pieces) ->
   forallb plain pieces = true ->
   brace_free stamp = true -> brace_free day = true -> brace_free time = true ->
   brace_free region = true -> account_plain account = true ->
   csv_filename stamp day time (VDict c) (VStr region) account VNone
     = Ok (VStr (name_of stamp day time region account pieces +:+ ".csv")))
  /\ (is_str pattern = false ->
      exists error,
        csv_filename stamp day time (VDict c) (VStr region) account VNone
          = Raise error).
Proof.
  intros He Hpattern.
  assert (csv_filename stamp day time (VDict c) (VStr region) account VNone
          = obind (py_replace pattern "{datetime}" (VStr stamp)) (fun f1 =>
            obind (py_replace (VStr f1) "{date}" (VStr day)) (fun f2 =>
            obind (py_replace (VStr f2) "{time}" (VStr time)) (fun f3 =>
            obind (py_replace (VStr f3) "{region}" (VStr region)) (fun f4 =>
            obind (if truthy account
                   then py_replace (VStr f4) "{account}" account
                   else Ok f4) (fun f5 =>
            Ok (VStr (f5 +:+ ".csv")))))))) as Hrun.
  { unfold csv_filename. cbn [truthy py_get obind].
    rewrite (Csv.section_get _ _ _ He). cbn [py_get obind].
    rewrite Hpattern. reflexivity. }
  rewrite Hrun. clear Hrun. split.
  - intros -> Hplain Hstamp Hday Htime Hregion Haccount.
    cbn [py_replace obind].
    change "{datetime}" with (placeholder Datetime).
    change "{date}" with (placeholder Date).
    change "{time}" with (placeholder Time).
    change "{region}" with (placeholder Region).
    change "{account}" with (placeholder Account).
    rewrite (replace_pieces Datetime stamp pieces Hplain).
    pose proof (fill_all_plain Datetime stamp pieces Hstamp Hplain) as H1.
    rewrite (replace_pieces Date day _ H1).
    pose proof (fill_all_plain Date day _ Hday H1) as H2.
    rewrite (replace_pieces Time time _ H2).
    pose proof (fill_all_plain Time time _ Htime H2) as H3.
    rewrite (replace_pieces Region region _ H3).
    pose proof (fill_all_plain Region region _ Hregion H3) as H4.
    destruct (truthy account) eqn:Htruthy.
    + destruct account as [|b|n|a|t|l|d];
        try (cbn [account_plain] in Haccount; rewrite Htruthy in Haccount;
             discriminate).
      cbn [py_replace obind]. rewrite (replace_pieces Account a _ H4).
      rewrite !map_map. do 2 f_equal. unfold name_of.
      rewrite (text_of_map _ (filled stamp day time region (VStr a)));
        [reflexivity|].
      intros [s|[]]; cbn [fill hole_eqb written filled]; try reflexivity.
      rewrite Htruthy. reflexivity.
    + cbn [obind]. rewrite !map_map. do 2 f_equal. unfold name_of.
      rewrite (text_of_map _ (filled stamp day time region account));
        [reflexivity|].
      intros [s|[]]; cbn [fill hole_eqb written filled]; try reflexivity.
      destruct account; try reflexivity. rewrite Htruthy. reflexivity.
  - intros Hshape. destruct pattern; try discriminate; cbn [py_replace obind]; eauto.
Qed.

End Names.

(** ** The further properties at work on the demo accounts *)

Module Checks.
Import Shape Rows Paged Summary Listing Footprint Filename.

Lemma one_lookup_per_principal_witness :
  let s' := snd (Enhanced.export_all_data 3 Sample.signed_in) in
  user_cache Sample.signed_in ⊆ user_cache s'
  /\ count_calls DescribeUser (calls s') + size (user_cache Sample.signed_in)
     <= count_calls DescribeUser (calls Sample.signed_in) + size (user_cache s').
Proof.
  apply (WholeRun.one_lookup_per_principal 3 Sample.signed_in).
  exact Scenarios.demo_directory_ok.
Defined.

Lemma identity_store_id_kept_once_known_witness :
  (let s' := snd (Enhanced.export_all_data 3 Sample.signed_in) in
   identity_store_id s' = identity_store_id Sample.signed_in
   /\ count_calls ListInstances (calls s')
      = count_calls ListInstances (calls Sample.signed_in))
  /\ (let s' := snd (for_each (Enhanced.export_application 3 (VBool true))
                       [Demo.alpha] [] Sample.signed_in) in
      identity_store_id s' = identity_store_id Sample.signed_in
      /\ count_calls ListInstances (calls s')
         = count_calls ListInstances (calls Sample.signed_in)).
Proof.
  apply (WholeRun.identity_store_id_kept_once_known 3 (VBool true) [Demo.alpha] []
           Sample.signed_in).
  reflexivity.
Defined.

Lemma item_without_id_raises_witness :
  fst (@Global.get_qapps nat Odd.service 1 (VStr "app-broken") Odd.start)
    = Raise (KeyError "libraryItemId")
  /\ (@default_page_size nat Odd.start ->
      fst (@QAppsInfo.get_qapps_for_application nat Odd.service 1
             (VStr "app-broken") Odd.start)
        = Raise (KeyError "libraryItemId")).
Proof.
  refine (@Edges.item_without_id_raises nat Odd.service 0 (VStr "app-broken")
            Odd.start _ 1 [VDict [("libraryItemId", VStr "ok1")]]
            [("title", VStr "no id")] [VDict [("libraryItemId", VStr "ok2")]]
            _ _ _ _); reflexivity.
Defined.

Lemma application_detail_failure_keeps_summary_witness :
  exists s',
    @Enhanced.list_applications nat Sample.service 1 Demo.start
      = (Ok [VDict (Demo.application "app-a" "Alpha");
             VDict [("applicationId", VStr "app-gone")]], s').
Proof.
  refine (proj1 (@Edges.application_detail_failure_keeps_summary nat Sample.service
                   0 Demo.start _ 1
                   [VDict [("applicationId", VStr "app-a")];
                    VDict [("applicationId", VStr "app-gone")]] _ _ _ _));
    reflexivity.
Defined.

Lemma no_applications_when_listing_fails_witness :
  @Enhanced.export_all_data nat Odd.service 1 Odd.start
    = (Ok [], record_call ListApplications [("maxResults", VInt 50)] 1 Odd.start).
Proof.
  refine (proj1 (@Edges.no_applications_when_listing_fails nat Odd.service 0
                   Odd.start (VDict []) (VBool true) "AccessDeniedException" 1
                   _ _ _)); reflexivity.
Defined.

Lemma get_qapps_collects_every_page_witness :
  exists s',
    @Enhanced.get_qapps nat Odd.service 2 (VStr "app-paged") Odd.start
      = (Ok [VDict [("libraryItemId", VStr "q1")];
             VDict [("libraryItemId", VStr "q2")];
             VDict [("libraryItemId", VStr "q3")]], s')
    /\ world s' = 2
    /\ count_calls ListLibraryItems (calls s')
       = count_calls ListLibraryItems (calls Odd.start) + 2.
Proof.
  refine (@Edges.get_qapps_collects_every_page nat Odd.service 2 (VStr "app-paged")
            Odd.start
            [[VDict [("libraryItemId", VStr "q1")];
              VDict [("libraryItemId", VStr "q2")]];
             [VDict [("libraryItemId", VStr "q3")]]] 2 _ _).
  - eapply (@listing_more nat Odd.service); [reflexivity | reflexivity | reflexivity |].
    eapply (@listing_last nat Odd.service); reflexivity.
  - simpl. lia.
Defined.

Lemma unparsed_reply_is_not_cached_witness :
  @Enhanced.get_user_details nat Odd.service (VStr "d-9067") (VStr "user-7")
    Odd.known_store
    = (Raise AttributeError,
       record_call DescribeUser
         (Enhanced.describe_user_args (VStr "d-9067") (VStr "user-7")) 1
         Odd.known_store)
  /\ user_cache (snd (@Enhanced.get_user_details nat Odd.service (VStr "d-9067")
                        (VStr "user-7") Odd.known_store)) !! KStr "user-7" = None.
Proof.
  refine (@Edges.unparsed_reply_is_not_cached nat Odd.service (VStr "d-9067")
            (VStr "user-7") (KStr "user-7") Odd.known_store _ 1
            (VStr "bob@example.org") [] _ _ _ _ _ _ _);
    try reflexivity. discriminate.
Defined.

Lemma identity_store_id_of_first_instance_witness :
  @Enhanced.get_identity_store_id nat Odd.service
    (VStr "arn:aws:sso::1:application/app-a") Odd.start
    = (Ok (VStr "d-9067"), record_call ListInstances [] 1 Odd.start).
Proof.
  refine (proj1 (@Edges.identity_store_id_of_first_instance nat Odd.service
                   (VStr "arn:aws:sso::1:application/app-a") Odd.start _ 1 _)
            _ [("InstanceArn", VStr "arn:aws:sso:::instance/ssoins-1");
               ("IdentityStoreId", VStr "d-9067")] [] (VStr "d-9067") _ _ _);
    reflexivity.
Defined.

Lemma row_summarises_collections_witness :
  exists row,
    fst (Enhanced._create_global_row Demo.alpha (Demo.library_item "q1" "user-1")
           Sample.sources [] [] (VStr "idx-1") Demo.alpha_controls Demo.start)
      = Ok row
    /\ dict_find "data_source_ids" row = Some (VStr "ds-1, ds-2")
    /\ dict_find "data_source_names" row = Some (VStr "Handbook, N/A")
    /\ holds (summary "data_source_count"
               [("data_source_ids", "dataSourceId"); ("data_source_types", "type");
                ("data_source_names", "displayName");
                ("data_source_statuses", "status")]
               Sample.sources) row
    /\ holds (summary "retriever_count"
               [("retriever_ids", "retrieverId"); ("retriever_types", "type");
                ("retriever_statuses", "status")] []) row
    /\ holds (summary "plugin_count"
               [("plugin_ids", "pluginId"); ("plugin_types", "type");
                ("plugin_statuses", "status")] []) row
    /\ dict_find "index_id" row = Some (py_or (VStr "idx-1") (VStr "N/A")).
Proof.
  set (run := Enhanced._create_global_row Demo.alpha
                (Demo.library_item "q1" "user-1") Sample.sources [] []
                (VStr "idx-1") Demo.alpha_controls Demo.start).
  exists (match fst run with Ok row => row | _ => [] end).
  split; [vm_compute; reflexivity|].
  split; [vm_compute; reflexivity|].
  split; [vm_compute; reflexivity|].
  apply (RowFacts.row_summarises_collections Demo.alpha
           (Demo.library_item "q1" "user-1") Sample.sources [] [] (VStr "idx-1")
           Demo.alpha_controls Demo.start (snd run)).
  vm_compute. reflexivity.
Defined.

Lemma sentinel_row_names_nobody_witness :
  sentinel_ok (snd (Enhanced.export_all_data 3 Demo.start))
  /\ (forall app data_sources retrievers plugins index_id cc row s',
        Enhanced._create_global_row app VNone data_sources retrievers plugins
          index_id cc Demo.start = (Ok row, s') ->
        holds no_author_columns row).
Proof.
  apply (RowFacts.sentinel_row_names_nobody 3 Demo.start).
  left. reflexivity.
Defined.

Lemma no_index_no_data_sources_witness :
  let run := Enhanced.after_qapps 1 (VBool true) Demo.alpha (VStr "app-a") VNone
               [Demo.library_item "q1" "user-1"] [] Demo.start in
  count_calls ListDataSources (calls (snd run))
    = count_calls ListDataSources (calls Demo.start)
  /\ count_calls GetDataSource (calls (snd run))
     = count_calls GetDataSource (calls Demo.start)
  /\ (forall out, fst run = Ok out ->
        exists rows, out = [] ++ rows
                     /\ Forall (holds no_data_source_columns) rows).
Proof.
  apply (RowFacts.no_index_no_data_sources 1 (VBool true) Demo.alpha (VStr "app-a")
           VNone [Demo.library_item "q1" "user-1"] [] Demo.start).
  reflexivity.
Defined.

Lemma exported_rows_fill_the_csv_witness :
  exists rows,
    fst (Enhanced.export_all_data 3 Demo.start) = Ok rows
    /\ length rows = 3
    /\ Forall (fun row => dict_keys row = global_row_columns) rows
    /\ (rows <> [] ->
        EnhancedCsv.export_to_csv rows
          = Some (CsvFile global_row_columns true (map (map snd) rows))).
Proof.
  set (run := Enhanced.export_all_data 3 Demo.start).
  exists (match fst run with Ok rows => rows | _ => [] end).
  split; [vm_compute; reflexivity|]. split; [vm_compute; reflexivity|].
  apply (Files.exported_rows_fill_the_csv 3 Demo.start (snd run)).
  vm_compute. reflexivity.
Defined.

Lemma retrieved_rows_fill_the_csv_witness :
  exists rows file,
    fst (QAppsInfo.retrieve_all_data 3 Demo.start) = Ok rows
    /\ @QAppsCsv.export_to_csv Workstation.codecs "20260112_090000" "20260112"
         "090000" (VDict Demo.settings) (VStr "us-east-1") VNone rows VNone
       = Ok (QAppsCsv.Saved "qapps_export_20260112_090000.csv" file true)
    /\ length rows = 3
    /\ Forall (fun row => dict_keys row = data_row_columns) rows
    /\ Forall2 (fun row record =>
                 Forall2 (fun col cell => dict_find col row = Some cell)
                   (fieldnames file) record
                 /\ (fieldnames file = QAppsInfo.all_fieldnames ->
                     record ≡ₚ map snd row))
         (take (length (records file)) rows) (records file)
    /\ (true = true -> length (records file) = length rows).
Proof.
  set (run := QAppsInfo.retrieve_all_data 3 Demo.start).
  set (rows := match fst run with Ok rows => rows | _ => [] end).
  set (file := match @QAppsCsv.export_to_csv Workstation.codecs "20260112_090000"
                       "20260112" "090000" (VDict Demo.settings)
                       (VStr "us-east-1") VNone rows VNone with
               | Ok (QAppsCsv.Saved _ file _) => file
               | _ => CsvFile [] false []
               end).
  exists rows, file.
  split; [vm_compute; reflexivity|]. split; [vm_compute; reflexivity|].
  split; [vm_compute; reflexivity|].
  apply (@Files.retrieved_rows_fill_the_csv nat Demo.service Workstation.codecs 3
           Demo.start (snd run) rows "20260112_090000" "20260112" "090000"
           (VDict Demo.settings) (VStr "us-east-1") VNone VNone
           "qapps_export_20260112_090000.csv" file true);
    vm_compute; reflexivity.
Defined.

Lemma column_list_writes_no_file_witness :
  @QAppsCsv.export_to_csv Workstation.codecs "20260112_090000" "20260112" "090000"
    (VDict Sample.listed_columns) (VStr "us-east-1") VNone
    [absent_data_row (VStr "2026-01-12T09:00:00") (VStr "us-east-1") VNone] VNone
  = Ok QAppsCsv.NoFile.
Proof.
  refine (proj1 (@Files.column_list_writes_no_file Workstation.codecs
                   "20260112_090000" "20260112" "090000" (VStr "us-east-1") VNone
                   VNone "qapps_export_20260112_090000.csv" Sample.listed_columns
                   [("columns", VList [VStr "qapp_name"; VStr "user_count"])]
                   (VList [VStr "qapp_name"; VStr "user_count"])
                   (absent_data_row (VStr "2026-01-12T09:00:00") (VStr "us-east-1")
                      VNone) [] _ _ _ _) _); reflexivity.
Defined.


Lemma plain_row_agrees_with_enhanced_witness :
  exists row_e,
    fst (Enhanced._create_global_row Demo.alpha (Demo.library_item "q1" "user-1")
           Sample.sources [] [] (VStr "idx-1") Demo.alpha_controls Demo.start)
      = Ok row_e
    /\ dict_find "qapp_creator_user_id" row_e = Some (VStr "user-1")
    /\ exists row,
         GlobalRows._create_global_row Demo.alpha (Demo.library_item "q1" "user-1")
           Sample.sources [] [] (VStr "idx-1") Demo.alpha_controls Demo.start
           = (Ok row, Demo.start)
         /\ dict_keys row = GlobalRows.row_columns
         /\ Forall (fun k => dict_find k row = dict_find k row_e)
              GlobalRows.shared_columns
         /\ dict_find "qapp_owner_created_by" row
            = dict_find "qapp_creator_user_id" row_e
         /\ dict_find "qapp_updated_by" row = dict_find "qapp_updater_user_id" row_e
         /\ dict_find "export_timestamp" row
            = Some (VStr (clock (world Demo.start))).
Proof.
  set (run := Enhanced._create_global_row Demo.alpha
                (Demo.library_item "q1" "user-1") Sample.sources [] []
                (VStr "idx-1") Demo.alpha_controls Demo.start).
  exists (match fst run with Ok row => row | _ => [] end).
  split; [vm_compute; reflexivity|].
  split; [vm_compute; reflexivity|].
  apply (PlainRows.plain_row_agrees_with_enhanced Demo.alpha
           (Demo.library_item "q1" "user-1") Sample.sources [] [] (VStr "idx-1")
           Demo.alpha_controls Demo.start (snd run)).
  vm_compute. reflexivity.
Defined.

Lemma filename_from_pattern_witness :
  csv_filename "20260112_090000" "20260112" "090000" (VDict Sample.named)
    (VStr "us-east-1") VNone VNone
  = Ok (VStr "qapps_us-east-1_20260112_{account}.csv").
Proof.
  refine (proj1 (Names.filename_from_pattern "20260112_090000" "20260112" "090000"
                   "us-east-1" VNone Sample.named
                   [("filename_pattern", VStr "qapps_{region}_{date}_{account}")]
                   [Text "qapps_"; Hole Region; Text "_"; Hole Date; Text "_";
                    Hole Account] _ _ _) _ _ _ _ _ _ _); reflexivity.
Defined.

End Checks.
